(** * mikro-multi-tenant: tenant resolution, lazy provisioning and shutdown

    A shallow embedding of
      - src/services/TenantManager.ts   (class [TenantManager]),
      - src/middleware/tenantMiddleware.ts ([tenantMiddleware]),
      - src/routes/organizationRoutes.ts (tenant identifier of the POST handler),
      - src/index.ts ([bootstrap], the schema part),
    and the properties of the specification that concern them.

    Strings are sequences of code units below 256 (Latin-1), which is where
    [toLowerCase], [trim] and the class [\s] are modelled exactly. *)

From Stdlib Require Import String Ascii List Bool Arith NArith Lia.
Import ListNotations.
Local Open Scope string_scope.
Local Open Scope list_scope.
Local Open Scope nat_scope.

(* ===================================================================== *)
(** ** JavaScript string primitives used by the sources                   *)
(* ===================================================================== *)

Module Js.

(** Code units matched by [\s] and removed by [String.prototype.trim]:
    TAB, LF, VT, FF, CR, SPACE and NBSP (the members below 256 of
    WhiteSpace and LineTerminator). *)
Definition is_space (c : ascii) : bool :=
  let n := nat_of_ascii c in
  ((9 <=? n) && (n <=? 13)) || (n =? 32) || (n =? 160).

(** Upper-case letters with a lower-case counterpart: A-Z, and in the
    Latin-1 supplement U+00C0..U+00DE except the multiplication sign. *)
Definition is_upper (c : ascii) : bool :=
  let n := nat_of_ascii c in
  ((65 <=? n) && (n <=? 90)) ||
  ((192 <=? n) && (n <=? 222) && negb (n =? 215)).

Definition lower_char (c : ascii) : ascii :=
  if is_upper c then ascii_of_nat (nat_of_ascii c + 32) else c.

(** [s.toLowerCase()] on code units below 256, each of which has a
    lower-case form of one code unit below 256.  (Beyond that range the
    method can change the number of code units; no such string is a
    [string] here.) *)
Fixpoint toLowerCase (s : string) : string :=
  match s with
  | EmptyString => EmptyString
  | String c s' => String (lower_char c) (toLowerCase s')
  end.

(** [s.replace(/\s+/g, '-')]: each maximal run of white space becomes one
    dash.  [in_run] tells that the previous code unit was white space. *)
Fixpoint replace_space_runs (in_run : bool) (s : string) : string :=
  match s with
  | EmptyString => EmptyString
  | String c s' =>
      if is_space c
      then if in_run then replace_space_runs true s'
           else String "-" (replace_space_runs true s')
      else String c (replace_space_runs false s')
  end.

(** [s.split(sep)] for a separator of one code unit; never empty. *)
Fixpoint split (sep : ascii) (s : string) : list string :=
  match s with
  | EmptyString => [EmptyString]
  | String c s' =>
      if Ascii.eqb c sep then EmptyString :: split sep s'
      else match split sep s' with
           | piece :: pieces => String c piece :: pieces
           | [] => [String c EmptyString]
           end
  end.

Fixpoint trimStart (s : string) : string :=
  match s with
  | EmptyString => EmptyString
  | String c s' => if is_space c then trimStart s' else s
  end.

(** Drops trailing white space: a code unit is kept when it is not white
    space or when something is kept after it. *)
Fixpoint trimEnd (s : string) : string :=
  match s with
  | EmptyString => EmptyString
  | String c s' =>
      match trimEnd s' with
      | EmptyString => if is_space c then EmptyString else String c EmptyString
      | rest => String c rest
      end
  end.

(** [s.trim()] *)
Definition trim (s : string) : string := trimEnd (trimStart s).

(** Truthiness of a string: only the empty string is falsy. *)
Definition truthy (s : string) : bool := negb (String.eqb s "").

(** [pieces.join(sep)] *)
Fixpoint join (sep : ascii) (pieces : list string) : string :=
  match pieces with
  | [] => EmptyString
  | [piece] => piece
  | piece :: rest => (piece ++ String sep (join sep rest))%string
  end.

Fixpoint last_char (s : string) : option ascii :=
  match s with
  | EmptyString => None
  | String c EmptyString => Some c
  | String _ s' => last_char s'
  end.

Definition first_char (s : string) : option ascii :=
  match s with
  | EmptyString => None
  | String c _ => Some c
  end.

(** [c] is there and is not white space, or there is no [c]. *)
Definition not_space (c : option ascii) : Prop :=
  match c with
  | Some c => is_space c = false
  | None => True
  end.

(** [xs[0]] on an array of strings that [split] produced. *)
Definition first (xs : list string) : string := hd EmptyString xs.

End Js.

(* ===================================================================== *)
(** ** organizationRoutes.ts: tenant identifier of a new organization     *)
(* ===================================================================== *)

(** [const tenantId = name.toLowerCase().replace(/\s+/g, '-');] *)
Definition tenantIdOfName (name : string) : string :=
  Js.replace_space_runs false (Js.toLowerCase name).

(** Lower-case alphanumerics, the alphabet the specification expects. *)
Definition is_lower_alnum (c : ascii) : bool :=
  let n := nat_of_ascii c in
  ((97 <=? n) && (n <=? 122)) || ((48 <=? n) && (n <=? 57)).

(** The derivation as the specification words it: lower-case, then replace
    every code unit that is not alphanumeric (by the dash). *)
Fixpoint replace_non_alnum (s : string) : string :=
  match s with
  | EmptyString => EmptyString
  | String c s' =>
      String (if is_lower_alnum c then c else "-"%char) (replace_non_alnum s')
  end.

Definition tenantIdOfName_spec (name : string) : string :=
  replace_non_alnum (Js.toLowerCase name).

Fixpoint string_In (c : ascii) (s : string) : Prop :=
  match s with
  | EmptyString => False
  | String c' s' => c = c' \/ string_In c s'
  end.

Fixpoint string_forallb (p : ascii -> bool) (s : string) : bool :=
  match s with
  | EmptyString => true
  | String c s' => p c && string_forallb p s'
  end.

(* ===================================================================== *)
(** ** Data model                                                         *)
(* ===================================================================== *)

(** Identity of a [MikroORM] instance.  [orm.em.getConnection()] is the
    connection of that instance and is identified with it. *)
Definition Handle := nat.

(** A thrown [Error]: [name] and [message]. *)
Record JsError : Type := mkError { errName : string; errMessage : string }.

(** [`${error}`], i.e. [Error.prototype.toString]. *)
Definition errToString (e : JsError) : string :=
  if negb (Js.truthy (errName e)) then errMessage e
  else if negb (Js.truthy (errMessage e)) then errName e
  else (errName e ++ ": " ++ errMessage e)%string.

(** Rows of a query result; the code only reads [result.length]. *)
Definition Rows := list (list string).

(** config/env.ts: the values read from the process environment. *)
Record Env : Type := mkEnv {
  NODE_ENV : string;
  DB_HOST : string;
  DB_PORT : N;
  DB_NAME : string;
  DB_USER : string;
  DB_PASSWORD : string
}.

Record MigrationsOptions : Type := mkMigrations {
  tableName : string;
  path : string;
  pathTs : string
}.

(** The fields of [Options<PostgreSqlDriver>] the configuration sets
    (the entity list and the driver class are the same everywhere). *)
Record Options : Type := mkOptions {
  dbName : string;
  host : string;
  port : N;
  user : string;
  password : string;
  debug : bool;
  migrations : MigrationsOptions
}.

(** The [Map<string, MikroORM>]: association list in insertion order. *)
Definition OrmMap := list (string * Handle).

Fixpoint MapGet (k : string) (mp : OrmMap) : option Handle :=
  match mp with
  | [] => None
  | (k', v) :: rest => if String.eqb k k' then Some v else MapGet k rest
  end.

Definition MapHas (k : string) (mp : OrmMap) : bool :=
  match MapGet k mp with Some _ => true | None => false end.

(** [Map.prototype.set]: an existing key keeps its position. *)
Fixpoint MapSet (k : string) (v : Handle) (mp : OrmMap) : OrmMap :=
  match mp with
  | [] => [(k, v)]
  | (k', v') :: rest =>
      if String.eqb k k' then (k', v) :: rest else (k', v') :: MapSet k v rest
  end.

(** The fields of a [TenantManager] object. *)
Record TenantManager : Type := mkTenantManager {
  tenantOrmInstances : OrmMap;
  baseOrm : option Handle
}.

(** [new TenantManager()] *)
Definition newTenantManager : TenantManager :=
  {| tenantOrmInstances := []; baseOrm := None |}.

Definition set_baseOrm (h : Handle) (tm : TenantManager) : TenantManager :=
  {| tenantOrmInstances := tenantOrmInstances tm; baseOrm := Some h |}.

Definition set_tenantOrm (k : string) (h : Handle) (tm : TenantManager)
  : TenantManager :=
  {| tenantOrmInstances := MapSet k h (tenantOrmInstances tm);
     baseOrm := baseOrm tm |}.

(** The part of an Express request the middleware reads:
    [req.headers['x-tenant-id']] (Node gives one string for this header,
    or [undefined]) and [req.hostname].  Express 5 computes the latter from
    the Host header and yields [undefined] when that header is absent or
    empty, whatever the declared type [string] says. *)
Record Request : Type := mkRequest {
  x_tenant_id : option string;
  hostname : option string
}.

(** What reading [.split] off [undefined] throws. *)
Definition undefinedHostname : JsError :=
  mkError "TypeError" "Cannot read properties of undefined (reading 'split')".

(* ===================================================================== *)
(** ** Effects: calls into the outside world, and tasks                   *)
(* ===================================================================== *)

(** Outcome of a call that may throw (or of a promise: fulfilled or
    rejected). *)
Inductive Result (R : Type) : Type :=
| Fulfilled (v : R)
| Rejected (e : JsError).
Arguments Fulfilled {R} v.
Arguments Rejected {R} e.

(** The calls the code makes to MikroORM and to [fs]; the index is the type
    of the value a call yields when it does not throw.
    [migrator_up orm] stands for [orm.getMigrator()] followed by
    [migrator.up()], which sit together in one [try]. *)
Inductive Call : Type -> Type :=
| MikroORM_init (o : Options) : Call Handle
| execute (conn : Handle) (sql : string) (params : list string) : Call Rows
| migrator_up (orm : Handle) : Call unit
| orm_close (orm : Handle) : Call unit
| readFileSync (file : string) : Call string.

Inductive Level : Type := LOG | WARN | ERROR.

(** What an observer of the process sees, in order. *)
Inductive Event : Type :=
| EvInit (o : Options) (r : Result Handle)
| EvExecute (conn : Handle) (sql : string) (params : list string)
            (r : Result Rows)
| EvMigratorUp (orm : Handle) (r : Result unit)
| EvClose (orm : Handle) (r : Result unit)
| EvReadFile (file : string) (r : Result string)
| EvConsole (lvl : Level) (args : list string)
| EvRespond (status : nat) (message : string)
| EvNext (tenantId : string) (tenantORM : Handle).

Definition eventOf {R : Type} (c : Call R) : Result R -> Event :=
  match c in Call R return Result R -> Event with
  | MikroORM_init o => EvInit o
  | execute conn sql params => EvExecute conn sql params
  | migrator_up orm => EvMigratorUp orm
  | orm_close orm => EvClose orm
  | readFileSync file => EvReadFile file
  end.

(** An asynchronous function body as a finite tree.  [Await] is a point
    where the function is suspended on a promise of the outside world;
    everything else runs without giving up control. *)
Inductive Task (A : Type) : Type :=
| Return (a : A)
| Throw (e : JsError)
| Await {R : Type} (c : Call R) (k : Result R -> Task A)
| Sync {R : Type} (c : Call R) (k : Result R -> Task A)
| Emit (ev : Event) (k : Task A)
| This (k : TenantManager -> Task A)
| Assign (f : TenantManager -> TenantManager) (k : Task A).
Arguments Return {A} a.
Arguments Throw {A} e.
Arguments Await {A R} c k.
Arguments Sync {A R} c k.
Arguments Emit {A} ev k.
Arguments This {A} k.
Arguments Assign {A} f k.

Fixpoint bind {A B : Type} (t : Task A) (f : A -> Task B) : Task B :=
  match t with
  | Return a => f a
  | Throw e => Throw e
  | Await c k => Await c (fun r => bind (k r) f)
  | Sync c k => Sync c (fun r => bind (k r) f)
  | Emit ev k => Emit ev (bind k f)
  | This k => This (fun tm => bind (k tm) f)
  | Assign g k => Assign g (bind k f)
  end.

(** [try { t } catch (e) { handler e }] *)
Fixpoint try_catch {A : Type} (t : Task A) (handler : JsError -> Task A)
  : Task A :=
  match t with
  | Return a => Return a
  | Throw e => handler e
  | Await c k => Await c (fun r => try_catch (k r) handler)
  | Sync c k => Sync c (fun r => try_catch (k r) handler)
  | Emit ev k => Emit ev (try_catch k handler)
  | This k => This (fun tm => try_catch (k tm) handler)
  | Assign g k => Assign g (try_catch k handler)
  end.

Definition settle {A R : Type} (k : R -> Task A) (r : Result R) : Task A :=
  match r with
  | Fulfilled v => k v
  | Rejected e => Throw e
  end.

(** [await c]: a rejection is thrown at the point of the [await]. *)
Definition await {R : Type} (c : Call R) : Task R := Await c (settle Return).

(** A synchronous call that may throw. *)
Definition call {R : Type} (c : Call R) : Task R := Sync c (settle Return).

Definition console (lvl : Level) (args : list string) : Task unit :=
  Emit (EvConsole lvl args) (Return tt).

Definition this : Task TenantManager := This Return.

Definition assign (f : TenantManager -> TenantManager) : Task unit :=
  Assign f (Return tt).

(** [for (const x of xs) { body x }] *)
Fixpoint forOf {X : Type} (xs : list X) (body : X -> Task unit) : Task unit :=
  match xs with
  | [] => Return tt
  | x :: rest => bind (body x) (fun _ => forOf rest body)
  end.

Declare Scope task_scope.
Delimit Scope task_scope with task.
Notation "x <- t ;; k" := (bind t (fun x => k))
  (at level 61, t at next level, right associativity) : task_scope.
Notation "t ;; k" := (bind t (fun _ => k))
  (at level 61, right associativity) : task_scope.
Local Open Scope task_scope.

(* ===================================================================== *)
(** ** The sources                                                        *)
(* ===================================================================== *)

Section Sources.

(** The process environment behind config/env.ts, and the absolute path
    that [path.resolve(__dirname, ..., 'src', 'schema.sql')] evaluates to
    (the same file from dist/index.js and from dist/services). *)
Variable env : Env.
Variable schemaPath : string.

(** config/mikro-orm.config.ts *)
Definition baseOptions : Options :=
  {| dbName := DB_NAME env;
     host := DB_HOST env;
     port := DB_PORT env;
     user := DB_USER env;
     password := DB_PASSWORD env;
     debug := String.eqb (NODE_ENV env) "development";
     migrations :=
       {| tableName := "mikro_orm_migrations";
          path := "./dist/migrations";
          pathTs := "./src/migrations" |} |}.

(** [`tenant_${tenantId}`] *)
Definition tenantDb (tenantId : string) : string :=
  ("tenant_" ++ tenantId)%string.

(** TenantManager.ts, lines 45-53: [{ ...baseOptions, dbName, migrations }] *)
Definition tenantOptions (tenantId : string) : Options :=
  {| dbName := tenantDb tenantId;
     host := host baseOptions;
     port := port baseOptions;
     user := user baseOptions;
     password := password baseOptions;
     debug := debug baseOptions;
     migrations :=
       {| tableName := "mikro_orm_migrations_tenant";
          path := "./dist/migrations/tenant";
          pathTs := "./src/migrations/tenant" |} |}.

Definition existsSql : string :=
  "SELECT 1 FROM pg_database WHERE datname = $1".

(** [`CREATE DATABASE tenant_${tenantId}`] *)
Definition createSql (tenantId : string) : string :=
  ("CREATE DATABASE tenant_" ++ tenantId)%string.

(** [schema.split(';').map(s => s.trim()).filter(s => s.length > 0)] *)
Definition statementsOf (schema : string) : list string :=
  filter (fun s => 0 <? String.length s)
         (map Js.trim (Js.split ";" schema)).

(** TenantManager.getBaseORM.  [return this.baseOrm] reads back, in the
    same synchronous stretch, the value the assignment has just stored. *)
Definition getBaseORM : Task Handle :=
  tm <- this ;;
  match baseOrm tm with
  | None =>
      orm <- await (MikroORM_init baseOptions) ;;
      assign (set_baseOrm orm) ;;
      Return orm
  | Some orm => Return orm
  end.

(** TenantManager.getTenantORM.  [has] and the final [get(tenantId)!] are
    one lookup: on the cached path [get] reads the entry [has] found, on the
    other it reads, in the same synchronous stretch, the entry [set] has
    just stored. *)
Definition getTenantORM (tenantId : string) : Task Handle :=
  tm <- this ;;
  match MapGet tenantId (tenantOrmInstances tm) with
  | Some orm => Return orm
  | None =>
      baseOrm <- getBaseORM ;;
      let connection := baseOrm in
      try_catch
        (result <- await (execute connection existsSql [tenantDb tenantId]) ;;
         if List.length result =? 0 then
           await (execute connection (createSql tenantId) []) ;;
           console LOG
             ["Created new database for tenant: tenant_" ++ tenantId]%string
         else Return tt)
        (fun error =>
           console ERROR
             ["Error checking/creating tenant database: "
                ++ errMessage error]%string) ;;
      orm <- await (MikroORM_init (tenantOptions tenantId)) ;;
      try_catch
        (await (migrator_up orm) ;;
         console LOG ["Migrations applied for tenant " ++ tenantId]%string)
        (fun error =>
           console LOG
             ["Migrations not applied for tenant " ++ tenantId ++ ": "
                ++ errMessage error]%string ;;
           console LOG
             ["Creating schema manually for tenant " ++ tenantId
                ++ "..."]%string ;;
           try_catch
             (console LOG ["Creating tenant schema manually..."] ;;
              schema <- call (readFileSync schemaPath) ;;
              let statements := statementsOf schema in
              let tenantConnection := orm in
              forOf statements (fun statement =>
                try_catch
                  (await (execute tenantConnection statement []) ;;
                   Return tt)
                  (fun err =>
                     console WARN
                       ["Warning executing statement for tenant: "
                          ++ errMessage err]%string)) ;;
              console LOG
                ["Schema created successfully for tenant "
                   ++ tenantId]%string)
             (fun schemaError =>
                console ERROR
                  [("Error creating schema for tenant " ++ tenantId
                      ++ ":")%string;
                   errMessage schemaError])) ;;
      assign (set_tenantOrm tenantId orm) ;;
      Return orm
  end.

(** TenantManager.closeConnections.  The loop walks the entries of the map
    in insertion order; the map is read when the loop starts, which is all
    a sweep that runs alone can see of it. *)
Definition closeConnections : Task unit :=
  tm <- this ;;
  match baseOrm tm with
  | Some orm => await (orm_close orm)
  | None => Return tt
  end ;;
  tm' <- this ;;
  forOf (tenantOrmInstances tm') (fun entry => await (orm_close (snd entry))).

(** tenantMiddleware, [req.hostname.split('.')[0]]: the first label of
    the host, or the TypeError of a request without a host. *)
Definition hostLabel (req : Request) : Result string :=
  match hostname req with
  | Some host => Fulfilled (Js.first (Js.split "." host))
  | None => Rejected undefinedHostname
  end.

(** tenantMiddleware, lines 128-129:
    [req.headers['x-tenant-id'] as string || req.hostname.split('.')[0]].
    The right operand of [||] is evaluated only when the header is falsy
    ([undefined] or empty). *)
Definition tenantIdOfRequest (req : Request) : Result string :=
  match x_tenant_id req with
  | Some v => if Js.truthy v then Fulfilled v else hostLabel req
  | None => hostLabel req
  end.

(** The handler [tenantMiddleware(tenantManager)] returns; routes/index.ts
    puts it in front of every route under [/api].  [EvRespond] is
    [res.status(..).json({ message })]; [EvNext] is the call of [next()]
    after [tenantId] and [tenantORM] have been attached to the request.
    Lines 128-133 stand before the [try]: what they throw leaves the
    handler (routes/index.ts drops the promise it rejects). *)
Definition tenantMiddleware (req : Request) : Task unit :=
  tenantId <- settle Return (tenantIdOfRequest req) ;;
  if negb (Js.truthy tenantId) then
    Emit (EvRespond 400 "Tenant identification required") (Return tt)
  else
    try_catch
      (tenantORM <- getTenantORM tenantId ;;
       Emit (EvNext tenantId tenantORM) (Return tt))
      (fun error =>
         console ERROR
           ["Error initializing tenant context: " ++ errToString error]%string ;;
         Emit (EvRespond 500 "Error initializing tenant context") (Return tt)).

(** index.ts, [bootstrap], lines 18-54: the base database is opened and
    its schema brought up; the value is the [orm] the rest of [bootstrap]
    goes on with.  A rejected [MikroORM.init] leaves this stretch for the
    [catch] of line 100, which logs it and ends the process. *)
Definition bootstrap : Task Handle :=
  console LOG ["Initializing MikroORM..."] ;;
  orm <- await (MikroORM_init baseOptions) ;;
  try_catch
    (await (migrator_up orm) ;;
     console LOG ["Migrations applied successfully"])
    (fun error =>
       console LOG ["Migrations not applied:"; errMessage error] ;;
       console LOG
         ["Continuing without migrations, will create schema manually..."] ;;
       try_catch
         (console LOG ["Creating schema manually..."] ;;
          schema <- call (readFileSync schemaPath) ;;
          let statements := statementsOf schema in
          let connection := orm in
          forOf statements (fun statement =>
            try_catch
              (await (execute connection statement []) ;;
               Return tt)
              (fun err =>
                 console WARN
                   ["Warning executing statement: "
                      ++ errMessage err]%string)) ;;
          console LOG ["Schema created successfully"])
         (fun schemaError =>
            console ERROR ["Error creating schema:"; errMessage schemaError])) ;;
  Return orm.

End Sources.

(* ===================================================================== *)
(** ** Running tasks                                                      *)
(* ===================================================================== *)

(** The outside world (database server, file system): it answers every
    call, and its answer may depend on everything that happened before. *)
Definition World := forall R : Type, list Event -> Call R -> Result R.

(** How a task ended: [return] or an uncaught [throw]. *)
Inductive Completion (A : Type) : Type :=
| Returned (a : A)
| Threw (e : JsError).
Arguments Returned {A} a.
Arguments Threw {A} e.

Record Outcome (A : Type) : Type := mkOutcome {
  trace : list Event;          (* the events of this run, oldest first *)
  final : TenantManager;       (* the manager object afterwards *)
  result : Completion A
}.
Arguments mkOutcome {A} trace final result.
Arguments trace {A} o.
Arguments final {A} o.
Arguments result {A} o.

Definition emitted {A : Type} (ev : Event) (o : Outcome A) : Outcome A :=
  mkOutcome (ev :: trace o) (final o) (result o).

(** One task run alone to its end, after the events [past]. *)
Fixpoint run {A : Type} (w : World) (t : Task A) (past : list Event)
  (tm : TenantManager) : Outcome A :=
  match t with
  | Return a => mkOutcome [] tm (Returned a)
  | Throw e => mkOutcome [] tm (Threw e)
  | Await c k =>
      let r := w _ past c in
      emitted (eventOf c r) (run w (k r) (past ++ [eventOf c r]) tm)
  | Sync c k =>
      let r := w _ past c in
      emitted (eventOf c r) (run w (k r) (past ++ [eventOf c r]) tm)
  | Emit ev k => emitted ev (run w k (past ++ [ev]) tm)
  | This k => run w (k tm) past tm
  | Assign f k => run w k past (f tm)
  end.

(** *** Several tasks on one event loop *)

(** A task is run without interruption up to its next [Await] (or to its
    end); it is suspended there until its promise is settled. *)
Fixpoint advance {A : Type} (w : World) (t : Task A) (past : list Event)
  (tm : TenantManager) : list Event * TenantManager * Task A :=
  match t with
  | Sync c k =>
      let r := w _ past c in
      let '(evs, tm', t') := advance w (k r) (past ++ [eventOf c r]) tm in
      (eventOf c r :: evs, tm', t')
  | Emit ev k =>
      let '(evs, tm', t') := advance w k (past ++ [ev]) tm in
      (ev :: evs, tm', t')
  | This k => advance w (k tm) past tm
  | Assign f k => advance w k past (f tm)
  | _ => ([], tm, t)
  end.

(** The promise a suspended task waits for is settled and the task goes on
    to its next suspension point.  A finished task stays as it is. *)
Definition resume {A : Type} (w : World) (t : Task A) (past : list Event)
  (tm : TenantManager) : list Event * TenantManager * Task A :=
  match t with
  | Await c k =>
      let r := w _ past c in
      let '(evs, tm', t') := advance w (k r) (past ++ [eventOf c r]) tm in
      (eventOf c r :: evs, tm', t')
  | _ => ([], tm, t)
  end.

Fixpoint replace_nth {X : Type} (i : nat) (x : X) (xs : list X) : list X :=
  match xs, i with
  | [], _ => []
  | _ :: rest, 0 => x :: rest
  | y :: rest, S j => y :: replace_nth j x rest
  end.

(** The calls are made one after the other in the same turn: each runs up
    to its first suspension point. *)
Fixpoint start {A : Type} (w : World) (ts : list (Task A))
  (past : list Event) (tm : TenantManager)
  : list Event * TenantManager * list (Task A) :=
  match ts with
  | [] => ([], tm, [])
  | t :: rest =>
      let '(evs, tm', t') := advance w t past tm in
      let '(evs', tm'', rest') := start w rest (past ++ evs) tm' in
      (evs ++ evs', tm'', t' :: rest')
  end.

(** [order] lists, one after the other, which task's promise is settled
    next. *)
Fixpoint settleInOrder {A : Type} (w : World) (order : list nat)
  (pool : list (Task A)) (past : list Event) (tm : TenantManager)
  : list Event * TenantManager * list (Task A) :=
  match order with
  | [] => ([], tm, pool)
  | i :: order' =>
      match nth_error pool i with
      | None => settleInOrder w order' pool past tm
      | Some t =>
          let '(evs, tm', t') := resume w t past tm in
          let '(evs', tm'', pool') :=
            settleInOrder w order' (replace_nth i t' pool) (past ++ evs) tm' in
          (evs ++ evs', tm'', pool')
      end
  end.

(** Calls that overlap: all are started, then their promises are settled
    in the given order. *)
Definition concurrently {A : Type} (w : World) (order : list nat)
  (ts : list (Task A)) (past : list Event) (tm : TenantManager)
  : list Event * TenantManager * list (Task A) :=
  let '(evs, tm', pool) := start w ts past tm in
  let '(evs', tm'', pool') := settleInOrder w order pool (past ++ evs) tm' in
  (evs ++ evs', tm'', pool').

(** A finished task. *)
Definition finished {A : Type} (c : Completion A) : Task A :=
  match c with
  | Returned a => Return a
  | Threw e => Throw e
  end.

(** All the orders in which [n] promises of task 0 and [m] promises of
    task 1 can be settled. *)
Fixpoint interleavings (n : nat) : nat -> list (list nat) :=
  match n with
  | 0 => fun m => [repeat 1 m]
  | S n' =>
      fix inner (m : nat) : list (list nat) :=
        match m with
        | 0 => [repeat 0 (S n')]
        | S m' =>
            map (cons 0) (interleavings n' (S m')) ++ map (cons 1) (inner m')
        end
  end.

(** The completion of a task of the pool, if it has finished. *)
Definition completion {A : Type} (t : Task A) : option (Completion A) :=
  match t with
  | Return a => Some (Returned a)
  | Throw e => Some (Threw e)
  | _ => None
  end.

(* ===================================================================== *)
(** ** Reading traces                                                     *)
(* ===================================================================== *)

Definition isRejected {R : Type} (r : Result R) : bool :=
  match r with Rejected _ => true | Fulfilled _ => false end.

(** The handles on which [close()] was called, in order. *)
Fixpoint closeAttempts (evs : list Event) : list Handle :=
  match evs with
  | [] => []
  | EvClose orm _ :: rest => orm :: closeAttempts rest
  | _ :: rest => closeAttempts rest
  end.

(** The SQL texts passed to [execute], in order. *)
Fixpoint executedSql (evs : list Event) : list string :=
  match evs with
  | [] => []
  | EvExecute _ sql _ _ :: rest => sql :: executedSql rest
  | _ :: rest => executedSql rest
  end.

(** The answers sent with [res.status(..).json(..)], in order. *)
Fixpoint responses (evs : list Event) : list (nat * string) :=
  match evs with
  | [] => []
  | EvRespond status message :: rest => (status, message) :: responses rest
  | _ :: rest => responses rest
  end.

(** The calls of [next()], with what was attached to the request. *)
Fixpoint forwards (evs : list Event) : list (string * Handle) :=
  match evs with
  | [] => []
  | EvNext tenantId tenantORM :: rest => (tenantId, tenantORM) :: forwards rest
  | _ :: rest => forwards rest
  end.

(** Events of the database layer: neither an answer nor [next()]. *)
Definition isRegistryEvent (ev : Event) : Prop :=
  match ev with
  | EvRespond _ _ | EvNext _ _ => False
  | _ => True
  end.

(** Events of the existence check and of CREATE DATABASE. *)
Definition isQueryOrLog (ev : Event) : Prop :=
  match ev with
  | EvExecute _ _ _ _ | EvConsole _ _ => True
  | _ => False
  end.

(** Events of the bootstrap fallback. *)
Definition isFallbackEvent (ev : Event) : Prop :=
  match ev with
  | EvExecute _ _ _ _ | EvConsole _ _ | EvReadFile _ _ => True
  | _ => False
  end.

(** Every event a task can emit, whatever the world answers, satisfies
    [P]. *)
Fixpoint OnlyEmits {A : Type} (P : Event -> Prop) (t : Task A) : Prop :=
  match t with
  | Return _ | Throw _ => True
  | Await c k => forall r, P (eventOf c r) /\ OnlyEmits P (k r)
  | Sync c k => forall r, P (eventOf c r) /\ OnlyEmits P (k r)
  | Emit ev k => P ev /\ OnlyEmits P k
  | This k => forall tm, OnlyEmits P (k tm)
  | Assign _ k => OnlyEmits P k
  end.

(** The databases [MikroORM.init] was asked to open, in order. *)
Fixpoint openedDatabases (evs : list Event) : list string :=
  match evs with
  | [] => []
  | EvInit o _ :: rest => dbName o :: openedDatabases rest
  | _ :: rest => openedDatabases rest
  end.

(** The handles on which migrations were run, in order. *)
Fixpoint migrated (evs : list Event) : list Handle :=
  match evs with
  | [] => []
  | EvMigratorUp orm _ :: rest => orm :: migrated rest
  | _ :: rest => migrated rest
  end.

(** How often the command [sql] was sent. *)
Definition timesExecuted (sql : string) (evs : list Event) : nat :=
  List.length (filter (String.eqb sql) (executedSql evs)).

(** What the statement loop of the bootstrap fallback leaves in the trace
    when the statements [stmts] meet the outcomes [outcomes]: every
    statement is sent, and a rejected one is followed by its warning. *)
Fixpoint statementLog (warning : string) (conn : Handle)
  (stmts : list string) (outcomes : list (Result Rows)) : list Event :=
  match stmts, outcomes with
  | s :: stmts', r :: outcomes' =>
      EvExecute conn s [] r ::
      match r with
      | Rejected err =>
          EvConsole WARN [(warning ++ errMessage err)%string] ::
          statementLog warning conn stmts' outcomes'
      | Fulfilled _ => statementLog warning conn stmts' outcomes'
      end
  | _, _ => []
  end.

(** Names of PostgreSQL databases that can be written without quotes: a
    letter or underscore, then letters, digits, underscores or dollars. *)
Definition is_ident_start (c : ascii) : bool :=
  let n := nat_of_ascii c in
  ((97 <=? n) && (n <=? 122)) || ((65 <=? n) && (n <=? 90)) || (n =? 95).

Definition is_ident_char (c : ascii) : bool :=
  let n := nat_of_ascii c in
  is_ident_start c || ((48 <=? n) && (n <=? 57)) || (n =? 36).

Definition is_unquoted_identifier (s : string) : bool :=
  match s with
  | EmptyString => false
  | String c s' => is_ident_start c && string_forallb is_ident_char s'
  end.

Definition dquote : ascii := ascii_of_nat 34.

(** A name as a quoted identifier: between double quotes, with every
    double quote inside written twice. *)
Fixpoint escape_ident (s : string) : string :=
  match s with
  | EmptyString => EmptyString
  | String c s' =>
      if Ascii.eqb c dquote then String dquote (String dquote (escape_ident s'))
      else String c (escape_ident s')
  end.

Definition quote_ident (s : string) : string :=
  String dquote (escape_ident s ++ String dquote EmptyString)%string.

(** [sql] is one well-formed command creating the database [db]: the name
    is written as it is when that is allowed, or else quoted. *)
Definition creates_database (sql db : string) : bool :=
  (String.eqb sql ("CREATE DATABASE " ++ db)%string
     && is_unquoted_identifier db)
  || String.eqb sql ("CREATE DATABASE " ++ quote_ident db)%string.

(* ===================================================================== *)
(** ** The stretches of getTenantORM, named                               *)
(* ===================================================================== *)

Section Stretches.

Variable env : Env.
Variable schemaPath : string.

(** Lines 28-42: existence check and CREATE DATABASE, in their [try]. *)
Definition ensureDatabase (connection : Handle) (tenantId : string)
  : Task unit :=
  try_catch
    (result <- await (execute connection existsSql [tenantDb tenantId]) ;;
     if List.length result =? 0 then
       await (execute connection (createSql tenantId) []) ;;
       console LOG
         ["Created new database for tenant: tenant_" ++ tenantId]%string
     else Return tt)
    (fun error =>
       console ERROR
         ["Error checking/creating tenant database: "
            ++ errMessage error]%string).

(** Lines 79-85 (and index.ts, lines 42-48): the statement loop. *)
Definition executeStatements (warning : string) (conn : Handle)
  (statements : list string) : Task unit :=
  forOf statements (fun statement =>
    try_catch
      (await (execute conn statement []) ;; Return tt)
      (fun err => console WARN [(warning ++ errMessage err)%string])).

(** Lines 67-90: the bootstrap fallback, in its [try]. *)
Definition createSchemaManually (orm : Handle) (tenantId : string)
  : Task unit :=
  try_catch
    (console LOG ["Creating tenant schema manually..."] ;;
     schema <- call (readFileSync schemaPath) ;;
     executeStatements "Warning executing statement for tenant: " orm
       (statementsOf schema) ;;
     console LOG
       ["Schema created successfully for tenant " ++ tenantId]%string)
    (fun schemaError =>
       console ERROR
         [("Error creating schema for tenant " ++ tenantId ++ ":")%string;
          errMessage schemaError]).

(** Lines 58-91: migrations, and the fallback when they fail. *)
Definition provisionSchema (orm : Handle) (tenantId : string) : Task unit :=
  try_catch
    (await (migrator_up orm) ;;
     console LOG ["Migrations applied for tenant " ++ tenantId]%string)
    (fun error =>
       console LOG
         ["Migrations not applied for tenant " ++ tenantId ++ ": "
            ++ errMessage error]%string ;;
       console LOG
         ["Creating schema manually for tenant " ++ tenantId ++ "..."]%string ;;
       createSchemaManually orm tenantId).

(** Lines 24-93: what getTenantORM does when the tenant is not cached. *)
Definition provisionTenant (tenantId : string) : Task Handle :=
  baseOrm <- getBaseORM env ;;
  ensureDatabase baseOrm tenantId ;;
  orm <- await (MikroORM_init (tenantOptions env tenantId)) ;;
  provisionSchema orm tenantId ;;
  assign (set_tenantOrm tenantId orm) ;;
  Return orm.

(** index.ts, lines 30-53. *)
Definition createBaseSchemaManually (orm : Handle) : Task unit :=
  try_catch
    (console LOG ["Creating schema manually..."] ;;
     schema <- call (readFileSync schemaPath) ;;
     executeStatements "Warning executing statement: " orm
       (statementsOf schema) ;;
     console LOG ["Schema created successfully"])
    (fun schemaError =>
       console ERROR ["Error creating schema:"; errMessage schemaError]).

(** index.ts, lines 21-54. *)
Definition provisionBaseSchema (orm : Handle) : Task unit :=
  try_catch
    (await (migrator_up orm) ;;
     console LOG ["Migrations applied successfully"])
    (fun error =>
       console LOG ["Migrations not applied:"; errMessage error] ;;
       console LOG
         ["Continuing without migrations, will create schema manually..."] ;;
       createBaseSchemaManually orm).

End Stretches.

(* ===================================================================== *)
(** ** A concrete environment: a PostgreSQL cluster with faults           *)
(* ===================================================================== *)

(** config/env.ts with no variable set. *)
Definition defaultEnv : Env :=
  {| NODE_ENV := "development";
     DB_HOST := "localhost";
     DB_PORT := 5432%N;
     DB_NAME := "farm_tenants";
     DB_USER := "farmadmin";
     DB_PASSWORD := "harvest2023" |}.

Definition appSchemaPath : string := "/app/src/schema.sql".

(** Which calls are made to fail. *)
Record Faults : Type := mkFaults {
  initFails : Options -> bool;
  executeFails : string -> bool;
  migrationFails : bool;
  closeFails : Handle -> bool;
  readFails : bool
}.

Definition noFaults : Faults :=
  {| initFails := fun _ => false;
     executeFails := fun _ => false;
     migrationFails := false;
     closeFails := fun _ => false;
     readFails := false |}.

(** The command [sql] has already been executed with success. *)
Definition succeededBefore (sql : string) (past : list Event) : bool :=
  existsb (fun ev =>
             match ev with
             | EvExecute _ sql' _ (Fulfilled _) => String.eqb sql sql'
             | _ => false
             end) past.

(** A cluster on which a database exists once its CREATE DATABASE has
    succeeded, every [MikroORM.init] yields a new instance (numbered by the
    length of the history), and [schema] is the content of schema.sql. *)
Definition cluster (schema : string) (f : Faults) : World :=
  fun R past c =>
    match c in Call R return Result R with
    | MikroORM_init o =>
        if initFails f o
        then Rejected (mkError "Error" "connect ECONNREFUSED")
        else Fulfilled (List.length past)
    | execute conn sql params =>
        if executeFails f sql then
          Rejected (mkError "error" ("cannot execute: " ++ sql)%string)
        else if String.eqb sql existsSql then
          if succeededBefore
               ("CREATE DATABASE " ++ hd EmptyString params)%string past
          then Fulfilled [["1"]] else Fulfilled []
        else if String.prefix "CREATE DATABASE " sql
                && succeededBefore sql past then
          Rejected (mkError "error" "database already exists")
        else Fulfilled []
    | migrator_up orm =>
        if migrationFails f
        then Rejected (mkError "Error" "migration table is corrupted")
        else Fulfilled tt
    | orm_close orm =>
        if closeFails f orm
        then Rejected (mkError "Error" "close timed out")
        else Fulfilled tt
    | readFileSync file =>
        if readFails f
        then Rejected (mkError "Error" "ENOENT: no such file or directory")
        else Fulfilled schema
    end.

(** A manager after three tenants were resolved. *)
Definition threeTenants : TenantManager :=
  {| tenantOrmInstances := [("a", 1); ("b", 2); ("c", 3)];
     baseOrm := Some 0 |}.

(** The handle of tenant [b] cannot be closed. *)
Definition stuckTenantB : Faults :=
  {| initFails := fun _ => false;
     executeFails := fun _ => false;
     migrationFails := false;
     closeFails := fun orm => orm =? 2;
     readFails := false |}.

(** The existence check is rejected. *)
Definition catalogUnreadable : Faults :=
  {| initFails := fun _ => false;
     executeFails := fun sql => String.eqb sql existsSql;
     migrationFails := false;
     closeFails := fun _ => false;
     readFails := false |}.

(** Migrations are rejected, and so is the second statement of the
    schema. *)
Definition migrationsBroken : Faults :=
  {| initFails := fun _ => false;
     executeFails := fun sql => String.eqb sql "CREATE TABLE crop (id UUID)";
     migrationFails := true;
     closeFails := fun _ => false;
     readFails := false |}.

(** No tenant database can be opened, the base database can. *)
Definition tenantsUnreachable : Faults :=
  {| initFails := fun o => String.prefix "tenant_" (dbName o);
     executeFails := fun _ => false;
     migrationFails := false;
     closeFails := fun _ => false;
     readFails := false |}.

Definition sampleSchema : string :=
  "CREATE TABLE IF NOT EXISTS crop (id UUID PRIMARY KEY);
   CREATE TABLE crop (id UUID);
   ;
   CREATE TABLE IF NOT EXISTS harvest (id UUID PRIMARY KEY);
".

(* ===================================================================== *)
(** ** The shapes a trace of getTenantORM can take                        *)
(* ===================================================================== *)

Section Shapes.

Variable env : Env.
Variable schemaPath : string.

(** Events of [getBaseORM] when it returns the handle [b]. *)
Inductive BaseTrace (tm : TenantManager) (b : Handle) : list Event -> Prop :=
| base_cached :
    baseOrm tm = Some b -> BaseTrace tm b []
| base_opened :
    baseOrm tm = None ->
    BaseTrace tm b [EvInit (baseOptions env) (Fulfilled b)].

(** Events of the existence check and CREATE DATABASE. *)
Inductive EnsureTrace (conn : Handle) (tenantId : string)
  : list Event -> Prop :=
| ensure_check_failed (e : JsError) :
    EnsureTrace conn tenantId
      [EvExecute conn existsSql [tenantDb tenantId] (Rejected e);
       EvConsole ERROR
         ["Error checking/creating tenant database: " ++ errMessage e]%string]
| ensure_found (rows : Rows) :
    List.length rows <> 0 ->
    EnsureTrace conn tenantId
      [EvExecute conn existsSql [tenantDb tenantId] (Fulfilled rows)]
| ensure_created (rows created : Rows) :
    List.length rows = 0 ->
    EnsureTrace conn tenantId
      [EvExecute conn existsSql [tenantDb tenantId] (Fulfilled rows);
       EvExecute conn (createSql tenantId) [] (Fulfilled created);
       EvConsole LOG
         ["Created new database for tenant: tenant_" ++ tenantId]%string]
| ensure_create_failed (rows : Rows) (e : JsError) :
    List.length rows = 0 ->
    EnsureTrace conn tenantId
      [EvExecute conn existsSql [tenantDb tenantId] (Fulfilled rows);
       EvExecute conn (createSql tenantId) [] (Rejected e);
       EvConsole ERROR
         ["Error checking/creating tenant database: " ++ errMessage e]%string].

(** Events of the bootstrap fallback. *)
Inductive FallbackTrace (orm : Handle) (tenantId : string)
  : list Event -> Prop :=
| fallback_unreadable (e : JsError) :
    FallbackTrace orm tenantId
      [EvConsole LOG ["Creating tenant schema manually..."];
       EvReadFile schemaPath (Rejected e);
       EvConsole ERROR
         [("Error creating schema for tenant " ++ tenantId ++ ":")%string;
          errMessage e]]
| fallback_executed (schema : string) (outcomes : list (Result Rows)) :
    List.length outcomes = List.length (statementsOf schema) ->
    FallbackTrace orm tenantId
      ([EvConsole LOG ["Creating tenant schema manually..."];
        EvReadFile schemaPath (Fulfilled schema)]
       ++ statementLog "Warning executing statement for tenant: " orm
            (statementsOf schema) outcomes
       ++ [EvConsole LOG
             ["Schema created successfully for tenant " ++ tenantId]%string]).

(** Events of the migration step and its fallback. *)
Inductive SchemaTrace (orm : Handle) (tenantId : string)
  : list Event -> Prop :=
| schema_migrated :
    SchemaTrace orm tenantId
      [EvMigratorUp orm (Fulfilled tt);
       EvConsole LOG ["Migrations applied for tenant " ++ tenantId]%string]
| schema_fallback (e : JsError) (evs : list Event) :
    FallbackTrace orm tenantId evs ->
    SchemaTrace orm tenantId
      (EvMigratorUp orm (Rejected e)
       :: EvConsole LOG
            ["Migrations not applied for tenant " ++ tenantId ++ ": "
               ++ errMessage e]%string
       :: EvConsole LOG
            ["Creating schema manually for tenant " ++ tenantId
               ++ "..."]%string
       :: evs).

(** index.ts: events of the bootstrap fallback on the base database. *)
Inductive BaseFallbackTrace (orm : Handle) : list Event -> Prop :=
| base_fallback_unreadable (e : JsError) :
    BaseFallbackTrace orm
      [EvConsole LOG ["Creating schema manually..."];
       EvReadFile schemaPath (Rejected e);
       EvConsole ERROR ["Error creating schema:"; errMessage e]]
| base_fallback_executed (schema : string) (outcomes : list (Result Rows)) :
    List.length outcomes = List.length (statementsOf schema) ->
    BaseFallbackTrace orm
      ([EvConsole LOG ["Creating schema manually..."];
        EvReadFile schemaPath (Fulfilled schema)]
       ++ statementLog "Warning executing statement: " orm
            (statementsOf schema) outcomes
       ++ [EvConsole LOG ["Schema created successfully"]]).

(** index.ts: events of the migration step and its fallback. *)
Inductive BaseSchemaTrace (orm : Handle) : list Event -> Prop :=
| base_schema_migrated :
    BaseSchemaTrace orm
      [EvMigratorUp orm (Fulfilled tt);
       EvConsole LOG ["Migrations applied successfully"]]
| base_schema_fallback (e : JsError) (evs : list Event) :
    BaseFallbackTrace orm evs ->
    BaseSchemaTrace orm
      (EvMigratorUp orm (Rejected e)
       :: EvConsole LOG ["Migrations not applied:"; errMessage e]
       :: EvConsole LOG
            ["Continuing without migrations, will create schema manually..."]
       :: evs).

(** The three ways [getTenantORM tenantId] can go on a manager [tm] that
    has no entry for [tenantId]. *)
Inductive ProvisionRun (tenantId : string) (tm : TenantManager)
  : Outcome Handle -> Prop :=
| provision_no_base (e : JsError) :
    baseOrm tm = None ->
    ProvisionRun tenantId tm
      (mkOutcome [EvInit (baseOptions env) (Rejected e)] tm (Threw e))
| provision_no_connection (b : Handle) (baseEvs checkEvs : list Event)
    (e : JsError) :
    BaseTrace tm b baseEvs ->
    EnsureTrace b tenantId checkEvs ->
    ProvisionRun tenantId tm
      (mkOutcome
         (baseEvs ++ checkEvs
            ++ [EvInit (tenantOptions env tenantId) (Rejected e)])
         (set_baseOrm b tm) (Threw e))
| provision_done (b orm : Handle) (baseEvs checkEvs schemaEvs : list Event) :
    BaseTrace tm b baseEvs ->
    EnsureTrace b tenantId checkEvs ->
    SchemaTrace orm tenantId schemaEvs ->
    ProvisionRun tenantId tm
      (mkOutcome
         (baseEvs ++ checkEvs
            ++ EvInit (tenantOptions env tenantId) (Fulfilled orm)
            :: schemaEvs)
         (set_tenantOrm tenantId orm (set_baseOrm b tm)) (Returned orm)).

End Shapes.

(* ===================================================================== *)
(** ** Tenant resolution and dispatch, read off the middleware            *)
(* ===================================================================== *)

Inductive Resolution : Type :=
| Resolved (tenantId : string)
| MissingTenantError
| Thrown (error : JsError).

(** Lines 128-133 of the middleware as a function of the request: the
    candidate, which may throw, and the test [!tenantId] that answers
    400. *)
Definition Resolve (req : Request) : Resolution :=
  match tenantIdOfRequest req with
  | Fulfilled tenantId =>
      if negb (Js.truthy tenantId) then MissingTenantError
      else Resolved tenantId
  | Rejected error => Thrown error
  end.

(** Resolution as the specification words it: the header when one is
    present, otherwise the first label of the host; an empty candidate, or
    neither source, is a missing tenant. *)
Definition Resolve_spec (req : Request) : Resolution :=
  let candidate :=
    match x_tenant_id req, hostname req with
    | Some v, _ => Some v
    | None, Some host => Some (Js.first (Js.split "." host))
    | None, None => None
    end in
  match candidate with
  | Some candidate =>
      if String.eqb candidate "" then MissingTenantError
      else Resolved candidate
  | None => MissingTenantError
  end.

(** What the middleware makes of the outcome of [getTenantORM]: [next()]
    with the handle attached, or the logged 500 answer. *)
Definition forwarded (tenantId : string) (o : Outcome Handle) : Outcome unit :=
  match result o with
  | Returned tenantORM =>
      mkOutcome (trace o ++ [EvNext tenantId tenantORM]) (final o)
        (Returned tt)
  | Threw error =>
      mkOutcome
        (trace o ++
           [EvConsole ERROR
              ["Error initializing tenant context: "
                 ++ errToString error]%string;
            EvRespond 500 "Error initializing tenant context"])
        (final o) (Returned tt)
  end.

(** The handles [closeConnections] has to close, in the order it takes
    them: the base handle if there is one, then the cached tenants. *)
Definition handlesToClose (tm : TenantManager) : list Handle :=
  match baseOrm tm with
  | Some orm => [orm]
  | None => []
  end ++ map snd (tenantOrmInstances tm).

Definition closed (orm : Handle) : Event := EvClose orm (Fulfilled tt).

(* ===================================================================== *)
(** ** More of the sources                                                *)
(* ===================================================================== *)

(** The tenants the manager has a handle for, in insertion order. *)
Definition cachedTenants (tm : TenantManager) : list string :=
  map fst (tenantOrmInstances tm).

(** Names made of the letters a to z and A to Z, of digits, and of white
    space that does not follow white space. *)
Fixpoint plain_name (after_space : bool) (s : string) : bool :=
  match s with
  | EmptyString => true
  | String c s' =>
      if Js.is_space c then negb after_space && plain_name true s'
      else is_lower_alnum (Js.lower_char c) && plain_name false s'
  end.

(** [s.replace(pattern, '')] for a pattern that is a string: the first
    occurrence of [pattern] is taken out, and [s] is returned as it is when
    there is none. *)
Fixpoint remove_first (pattern s : string) : string :=
  if String.prefix pattern s
  then String.substring (String.length pattern)
         (String.length s - String.length pattern) s
  else match s with
       | EmptyString => EmptyString
       | String c s' => String c (remove_first pattern s')
       end.

(** test-migrations.ts: [const tenantId = tenantDb.replace('tenant_', '')] *)
Definition tenantIdOfDb (tenantDb : string) : string :=
  remove_first "tenant_" tenantDb.

Section MoreSources.

Variable env : Env.
Variable schemaPath : string.

(** TenantManager.runInTenantContext.  [orm.em.fork()] is an entity
    manager of [orm] and is identified with it; [RequestContext.create]
    calls the function it is given and returns its promise. *)
Definition runInTenantContext {T : Type} (tenantId : string)
  (callback : Handle -> Task T) : Task T :=
  orm <- getTenantORM env schemaPath tenantId ;;
  let em := orm in
  callback em.

(** index.ts, lines 87-99: the handler of SIGTERM and of SIGINT ([signal]
    is the name in the log line).  [orm] is the handle [bootstrap] opened;
    the value is the code given to [process.exit]. *)
Definition onSignal (signal : string) (orm : Handle) : Task nat :=
  console LOG [(signal ++ " received, shutting down...")%string] ;;
  closeConnections ;;
  await (orm_close orm) ;;
  Return 0.

End MoreSources.

(* ===================================================================== *)
(** ** organizationRoutes.ts: data and effects of the handlers            *)
(* ===================================================================== *)

(** A value read from the JSON body.  Of a value that is not a string (a
    number, a boolean, [null], an array, an object) the handlers use the
    truthiness only; [Undefined] is a key that is not there. *)
Inductive JsValue : Type :=
| Undefined
| Str (s : string)
| NonString (truthy : bool).

Definition truthyValue (v : JsValue) : bool :=
  match v with
  | Undefined => false
  | Str s => Js.truthy s
  | NonString b => b
  end.

(** entities/Organization.ts with entities/BaseEntity.ts; dates are kept
    as texts. *)
Record Organization : Type := mkOrganization {
  org_id : string;
  org_createdAt : string;
  org_updatedAt : string;
  org_name : JsValue;
  org_logoUrl : JsValue;
  org_farmType : JsValue
}.

(** [const { name, farmType, logoUrl } = req.body] *)
Record OrgBody : Type := mkOrgBody {
  body_name : JsValue;
  body_farmType : JsValue;
  body_logoUrl : JsValue
}.

(** What the handlers read of a request: [req.params.id] and [req.body],
    which is [undefined] when no body was parsed. *)
Record OrgRequest : Type := mkOrgRequest {
  params_id : string;
  body : option OrgBody
}.

(** The condition given to [em.findOne]. *)
Inductive Where : Type :=
| ById (id : string)
| ByName (name : JsValue).

(** What is given to [res.json]; [NoBody] is [res.end()]. *)
Inductive Body : Type :=
| Message (message : string)
| One (organization : Organization)
| Many (organizations : list Organization)
| Created (organization : Organization) (tenantId : string)
| NoBody.

(** The calls of the handlers on an entity manager, and the values that
    [new Organization()] draws ([uuid()] and two [new Date()]).
    [em_persistAndFlush] yields the entity as the flush leaves it. *)
Inductive OrgCall : Type -> Type :=
| fresh_entity : OrgCall (string * string * string)
| em_find (em : Handle) : OrgCall (list Organization)
| em_findOne (em : Handle) (cond : Where) : OrgCall (option Organization)
| em_persistAndFlush (em : Handle) (o : Organization) : OrgCall Organization
| em_removeAndFlush (em : Handle) (o : Organization) : OrgCall unit.

(** What an observer sees of a handler: the events of the calls it makes
    on the manager and of the console ([Core]), its own calls, and its
    answer. *)
Inductive RouteEvent : Type :=
| Core (ev : Event)
| EvFresh (r : Result (string * string * string))
| EvFind (em : Handle) (r : Result (list Organization))
| EvFindOne (em : Handle) (cond : Where) (r : Result (option Organization))
| EvPersistAndFlush (em : Handle) (o : Organization) (r : Result Organization)
| EvRemoveAndFlush (em : Handle) (o : Organization) (r : Result unit)
| EvSend (status : nat) (body : Body).

Definition routeEventOf {R : Type} (c : OrgCall R) : Result R -> RouteEvent :=
  match c in OrgCall R return Result R -> RouteEvent with
  | fresh_entity => EvFresh
  | em_find em => EvFind em
  | em_findOne em cond => EvFindOne em cond
  | em_persistAndFlush em o => EvPersistAndFlush em o
  | em_removeAndFlush em o => EvRemoveAndFlush em o
  end.

(** The body of a route handler.  [OnManager] is an awaited call of a
    method of the manager. *)
Inductive Handler (A : Type) : Type :=
| HReturn (a : A)
| HThrow (e : JsError)
| HCall {R : Type} (c : OrgCall R) (k : Result R -> Handler A)
| OnManager {R : Type} (t : Task R) (k : Completion R -> Handler A)
| HEmit (ev : RouteEvent) (k : Handler A).
Arguments HReturn {A} a.
Arguments HThrow {A} e.
Arguments HCall {A R} c k.
Arguments OnManager {A R} t k.
Arguments HEmit {A} ev k.

Fixpoint hbind {A B : Type} (h : Handler A) (f : A -> Handler B) : Handler B :=
  match h with
  | HReturn a => f a
  | HThrow e => HThrow e
  | HCall c k => HCall c (fun r => hbind (k r) f)
  | OnManager t k => OnManager t (fun r => hbind (k r) f)
  | HEmit ev k => HEmit ev (hbind k f)
  end.

(** [try { h } catch (error) { handler error }] *)
Fixpoint htry {A : Type} (h : Handler A) (handler : JsError -> Handler A)
  : Handler A :=
  match h with
  | HReturn a => HReturn a
  | HThrow e => handler e
  | HCall c k => HCall c (fun r => htry (k r) handler)
  | OnManager t k => OnManager t (fun r => htry (k r) handler)
  | HEmit ev k => HEmit ev (htry k handler)
  end.

Definition hsettle {A R : Type} (k : R -> Handler A) (r : Result R)
  : Handler A :=
  match r with
  | Fulfilled v => k v
  | Rejected e => HThrow e
  end.

(** A call on the entity manager, awaited. *)
Definition orm_call {R : Type} (c : OrgCall R) : Handler R :=
  HCall c (hsettle HReturn).

(** [await tenantManager.method(...)]: what the method throws is thrown at
    the [await]. *)
Definition manager {R : Type} (t : Task R) : Handler R :=
  OnManager t (fun r =>
    match r with
    | Returned v => HReturn v
    | Threw e => HThrow e
    end).

(** [res.status(status).json(body)]; [res.json(body)] is status 200. *)
Definition send (status : nat) (b : Body) : Handler unit :=
  HEmit (EvSend status b) (HReturn tt).

Definition console_error (args : list string) : Handler unit :=
  HEmit (Core (EvConsole ERROR args)) (HReturn tt).

Declare Scope handler_scope.
Delimit Scope handler_scope with handler.
Notation "x <- h ;; k" := (hbind h (fun x => k))
  (at level 61, h at next level, right associativity) : handler_scope.
Notation "h ;; k" := (hbind h (fun _ => k))
  (at level 61, right associativity) : handler_scope.

(** [if (name) organization.name = name;
     if (farmType) organization.farmType = farmType;
     if (logoUrl !== undefined) organization.logoUrl = logoUrl;] *)
Definition applyUpdate (b : OrgBody) (o : Organization) : Organization :=
  {| org_id := org_id o;
     org_createdAt := org_createdAt o;
     org_updatedAt := org_updatedAt o;
     org_name := if truthyValue (body_name b) then body_name b else org_name o;
     org_logoUrl :=
       match body_logoUrl b with
       | Undefined => org_logoUrl o
       | v => v
       end;
     org_farmType :=
       if truthyValue (body_farmType b) then body_farmType b
       else org_farmType o |}.

(** [new Organization()] with the three assignments of the POST handler;
    [logoUrl] is assigned only when it is truthy. *)
Definition newOrganization (values : string * string * string) (b : OrgBody)
  : Organization :=
  let '(id, createdAt, updatedAt) := values in
  {| org_id := id;
     org_createdAt := createdAt;
     org_updatedAt := updatedAt;
     org_name := body_name b;
     org_logoUrl :=
       if truthyValue (body_logoUrl b) then body_logoUrl b else Undefined;
     org_farmType := body_farmType b |}.

(** The error of destructuring [req.body] when it is [undefined]. *)
Definition noBodyError : JsError :=
  mkError "TypeError"
    "Cannot destructure property 'name' of 'req.body' as it is undefined.".

(** The error of [name.toLowerCase()] on a value that is not a string. *)
Definition notAStringError : JsError :=
  mkError "TypeError" "name.toLowerCase is not a function".

Section OrganizationRoutes.

Variable env : Env.
Variable schemaPath : string.

Local Open Scope handler_scope.

(** [router.get('/')] *)
Definition getOrganizations (req : OrgRequest) : Handler unit :=
  htry
    (baseOrm <- manager (getBaseORM env) ;;
     let em := baseOrm in
     organizations <- orm_call (em_find em) ;;
     send 200 (Many organizations))
    (fun error =>
       console_error
         ["Error fetching organizations: " ++ errToString error]%string ;;
       send 500 (Message "Error fetching organizations")).

(** [router.get('/:id')] *)
Definition getOrganization (req : OrgRequest) : Handler unit :=
  htry
    (baseOrm <- manager (getBaseORM env) ;;
     let em := baseOrm in
     organization <- orm_call (em_findOne em (ById (params_id req))) ;;
     match organization with
     | None => send 404 (Message "Organization not found")
     | Some organization => send 200 (One organization)
     end)
    (fun error =>
       console_error
         ["Error fetching organization: " ++ errToString error]%string ;;
       send 500 (Message "Error fetching organization")).

(** [router.post('/')] *)
Definition postOrganization (req : OrgRequest) : Handler unit :=
  htry
    (match body req with
     | None => HThrow noBodyError
     | Some b =>
         let name := body_name b in
         let farmType := body_farmType b in
         let logoUrl := body_logoUrl b in
         baseOrm <- manager (getBaseORM env) ;;
         let em := baseOrm in
         if negb (truthyValue name) || negb (truthyValue farmType) then
           send 400 (Message "Name and farmType are required")
         else
           existingOrg <- orm_call (em_findOne em (ByName name)) ;;
           match existingOrg with
           | Some _ => send 409 (Message "Organization already exists")
           | None =>
               values <- orm_call fresh_entity ;;
               let organization := newOrganization values b in
               organization <- orm_call (em_persistAndFlush em organization) ;;
               tenantId <-
                 match name with
                 | Str s => HReturn (tenantIdOfName s)
                 | _ => HThrow notAStringError
                 end ;;
               manager (getTenantORM env schemaPath tenantId) ;;
               send 201 (Created organization tenantId)
           end
     end)
    (fun error =>
       console_error
         ["Error creating organization: " ++ errToString error]%string ;;
       send 500 (Message "Error creating organization")).

(** [router.put('/:id')] *)
Definition putOrganization (req : OrgRequest) : Handler unit :=
  htry
    (match body req with
     | None => HThrow noBodyError
     | Some b =>
         baseOrm <- manager (getBaseORM env) ;;
         let em := baseOrm in
         organization <- orm_call (em_findOne em (ById (params_id req))) ;;
         match organization with
         | None => send 404 (Message "Organization not found")
         | Some organization =>
             let organization := applyUpdate b organization in
             organization <- orm_call (em_persistAndFlush em organization) ;;
             send 200 (One organization)
         end
     end)
    (fun error =>
       console_error
         ["Error updating organization: " ++ errToString error]%string ;;
       send 500 (Message "Error updating organization")).

(** [router.delete('/:id')] *)
Definition deleteOrganization (req : OrgRequest) : Handler unit :=
  htry
    (baseOrm <- manager (getBaseORM env) ;;
     let em := baseOrm in
     organization <- orm_call (em_findOne em (ById (params_id req))) ;;
     match organization with
     | None => send 404 (Message "Organization not found")
     | Some organization =>
         orm_call (em_removeAndFlush em organization) ;;
         send 204 NoBody
     end)
    (fun error =>
       console_error
         ["Error deleting organization: " ++ errToString error]%string ;;
       send 500 (Message "Error deleting organization")).

End OrganizationRoutes.

(** The world of a handler: the answers to its own calls, and for every
    call on the manager the world that call meets, both as they may
    depend on everything that happened before. *)
Record RouteWorld : Type := mkRouteWorld {
  answer : forall R : Type, list RouteEvent -> OrgCall R -> Result R;
  managerWorld : list RouteEvent -> World
}.

(** The events of the manager and of the console in a history. *)
Fixpoint coreEvents (evs : list RouteEvent) : list Event :=
  match evs with
  | [] => []
  | Core ev :: rest => ev :: coreEvents rest
  | _ :: rest => coreEvents rest
  end.

Record HOutcome (A : Type) : Type := mkHOutcome {
  htrace : list RouteEvent;
  hfinal : TenantManager;
  hresult : Completion A
}.
Arguments mkHOutcome {A} htrace hfinal hresult.
Arguments htrace {A} h.
Arguments hfinal {A} h.
Arguments hresult {A} h.

Definition hprepend {A : Type} (evs : list RouteEvent) (o : HOutcome A)
  : HOutcome A :=
  mkHOutcome (evs ++ htrace o) (hfinal o) (hresult o).

(** A handler run alone to its end, after the events [past]. *)
Fixpoint hrun {A : Type} (rw : RouteWorld) (h : Handler A)
  (past : list RouteEvent) (tm : TenantManager) : HOutcome A :=
  match h with
  | HReturn a => mkHOutcome [] tm (Returned a)
  | HThrow e => mkHOutcome [] tm (Threw e)
  | HCall c k =>
      let r := answer rw _ past c in
      hprepend [routeEventOf c r]
        (hrun rw (k r) (past ++ [routeEventOf c r]) tm)
  | OnManager t k =>
      let o := run (managerWorld rw past) t (coreEvents past) tm in
      let evs := map Core (trace o) in
      hprepend evs (hrun rw (k (result o)) (past ++ evs) (final o))
  | HEmit ev k => hprepend [ev] (hrun rw k (past ++ [ev]) tm)
  end.

(** What was sent to the client, in order. *)
Fixpoint sent (evs : list RouteEvent) : list (nat * Body) :=
  match evs with
  | [] => []
  | EvSend status b :: rest => (status, b) :: sent rest
  | _ :: rest => sent rest
  end.

(** The entities given to [persistAndFlush] and to [removeAndFlush]. *)
Fixpoint persisted (evs : list RouteEvent) : list Organization :=
  match evs with
  | [] => []
  | EvPersistAndFlush _ o _ :: rest => o :: persisted rest
  | _ :: rest => persisted rest
  end.

Fixpoint removed (evs : list RouteEvent) : list Organization :=
  match evs with
  | [] => []
  | EvRemoveAndFlush _ o _ :: rest => o :: removed rest
  | _ :: rest => removed rest
  end.

(** The conditions given to [findOne]. *)
Fixpoint lookups (evs : list RouteEvent) : list Where :=
  match evs with
  | [] => []
  | EvFindOne _ cond _ :: rest => cond :: lookups rest
  | _ :: rest => lookups rest
  end.

(** A directory in which every [findOne] finds [found], storing and
    removing succeed, and a stored entity comes back as it was given; the
    manager meets the world [w]. *)
Definition directory (found : option Organization) (w : World) : RouteWorld :=
  {| answer := fun R past c =>
       match c in OrgCall R return Result R with
       | fresh_entity =>
           Fulfilled ("6f1c2d", "2023-06-21T08:00:00.000Z",
                      "2023-06-21T08:00:00.000Z")
       | em_find em =>
           Fulfilled match found with Some o => [o] | None => [] end
       | em_findOne em cond => Fulfilled found
       | em_persistAndFlush em o => Fulfilled o
       | em_removeAndFlush em o => Fulfilled tt
       end;
     managerWorld := fun _ => w |}.

Definition greenValley : Organization :=
  {| org_id := "0a9e41";
     org_createdAt := "2023-03-15T10:00:00.000Z";
     org_updatedAt := "2023-03-15T10:00:00.000Z";
     org_name := Str "Green Valley Co-op";
     org_logoUrl := Undefined;
     org_farmType := Str "mixed" |}.

Definition greenValleyBody : OrgBody :=
  {| body_name := Str "Green Valley Co-op";
     body_farmType := Str "mixed";
     body_logoUrl := Undefined |}.

(* ===================================================================== *)
(** ** General facts about running tasks                                  *)
(* ===================================================================== *)

(** Running [bind t f]: [t] first; [f] only if [t] returned. *)
Lemma run_bind {A B : Type} (w : World) (t : Task A) (f : A -> Task B) :
  forall past tm,
    run w (bind t f) past tm =
    match result (run w t past tm) with
    | Returned a =>
        let o := run w t past tm in
        let o' := run w (f a) (past ++ trace o) (final o) in
        mkOutcome (trace o ++ trace o') (final o') (result o')
    | Threw e =>
        let o := run w t past tm in
        mkOutcome (trace o) (final o) (Threw e)
    end.
Proof.
  induction t as [a | e | R c k IH | R c k IH | ev k IH | k IH | g k IH];
    intros past tm; simpl.
  - rewrite app_nil_r. destruct (run w (f a) past tm); reflexivity.
  - reflexivity.
  - rewrite IH. destruct (result (run w (k (w R past c)) _ tm));
      simpl; rewrite <- ?app_assoc; reflexivity.
  - rewrite IH. destruct (result (run w (k (w R past c)) _ tm));
      simpl; rewrite <- ?app_assoc; reflexivity.
  - rewrite IH. destruct (result (run w k _ tm));
      simpl; rewrite <- ?app_assoc; reflexivity.
  - apply IH.
  - apply IH.
Qed.

(** Running [try_catch t h]: the handler runs only if [t] threw, after the
    events of [t] and on the manager [t] left. *)
Lemma run_try_catch {A : Type} (w : World) (t : Task A)
  (h : JsError -> Task A) :
  forall past tm,
    run w (try_catch t h) past tm =
    match result (run w t past tm) with
    | Returned a => run w t past tm
    | Threw e =>
        let o := run w t past tm in
        let o' := run w (h e) (past ++ trace o) (final o) in
        mkOutcome (trace o ++ trace o') (final o') (result o')
    end.
Proof.
  induction t as [a | e | R c k IH | R c k IH | ev k IH | k IH | g k IH];
    intros past tm; simpl.
  - reflexivity.
  - rewrite app_nil_r. destruct (run w (h e) past tm); reflexivity.
  - rewrite IH. destruct (result (run w (k (w R past c)) _ tm));
      simpl; rewrite <- ?app_assoc; reflexivity.
  - rewrite IH. destruct (result (run w (k (w R past c)) _ tm));
      simpl; rewrite <- ?app_assoc; reflexivity.
  - rewrite IH. destruct (result (run w k _ tm));
      simpl; rewrite <- ?app_assoc; reflexivity.
  - apply IH.
  - apply IH.
Qed.

Lemma run_bind_returned {A B : Type} (w : World) (t : Task A)
  (f : A -> Task B) past tm evs tm' a :
  run w t past tm = mkOutcome evs tm' (Returned a) ->
  run w (bind t f) past tm =
  let o' := run w (f a) (past ++ evs) tm' in
  mkOutcome (evs ++ trace o') (final o') (result o').
Proof. intros H. rewrite run_bind, H. reflexivity. Qed.

Lemma run_bind_threw {A B : Type} (w : World) (t : Task A)
  (f : A -> Task B) past tm evs tm' e :
  run w t past tm = mkOutcome evs tm' (Threw e) ->
  run w (bind t f) past tm = mkOutcome evs tm' (Threw e).
Proof. intros H. rewrite run_bind, H. reflexivity. Qed.

Lemma outcome_eta {A : Type} (o : Outcome A) :
  o = mkOutcome (trace o) (final o) (result o).
Proof. destruct o; reflexivity. Qed.

Lemma set_baseOrm_cached tm b : baseOrm tm = Some b -> set_baseOrm b tm = tm.
Proof. destruct tm as [mp bo]; simpl; intros ->; reflexivity. Qed.

Lemma run_await_bind {A R : Type} (w : World) (c : Call R)
  (f : R -> Task A) past tm :
  run w (bind (await c) f) past tm =
  match w R past c with
  | Fulfilled v =>
      emitted (eventOf c (Fulfilled v))
        (run w (f v) (past ++ [eventOf c (Fulfilled v)]) tm)
  | Rejected e => mkOutcome [eventOf c (Rejected e)] tm (Threw e)
  end.
Proof. simpl. destruct (w R past c); reflexivity. Qed.

(** *** The statement loop *)

Lemma statementLog_length_executed warning conn stmts :
  forall outcomes,
    List.length outcomes = List.length stmts ->
    executedSql (statementLog warning conn stmts outcomes) = stmts.
Proof.
  induction stmts as [| s stmts IH]; intros [| r outcomes] H;
    simpl in *; try discriminate; try reflexivity.
  destruct r; simpl; f_equal; apply IH; lia.
Qed.

(** The loop sends every statement, whatever the outcomes, and returns. *)
Lemma run_executeStatements (w : World) warning conn stmts :
  forall past tm,
  exists outcomes,
    List.length outcomes = List.length stmts /\
    run w (executeStatements warning conn stmts) past tm =
    mkOutcome (statementLog warning conn stmts outcomes) tm (Returned tt).
Proof.
  induction stmts as [| s stmts IH]; intros past tm.
  - exists []. split; reflexivity.
  - unfold executeStatements in *. simpl.
    destruct (w Rows past (execute conn s [])) as [rows | err] eqn:E; simpl.
    + destruct (IH (past ++ [EvExecute conn s [] (Fulfilled rows)]) tm)
        as [outcomes [Hlen Hrun]].
      exists (Fulfilled rows :: outcomes). split; [simpl; lia |].
      unfold emitted. simpl in Hrun. rewrite Hrun. reflexivity.
    + destruct (IH ((past ++ [EvExecute conn s [] (Rejected err)])
                      ++ [EvConsole WARN [(warning ++ errMessage err)%string]])
                   tm) as [outcomes [Hlen Hrun]].
      exists (Rejected err :: outcomes). split; [simpl; lia |].
      unfold emitted. simpl in Hrun. rewrite Hrun. reflexivity.
Qed.

Section PhaseLemmas.

Variable env : Env.
Variable schemaPath : string.
Variable w : World.

Lemma run_createSchemaManually orm tenantId past tm :
  let o := run w (createSchemaManually schemaPath orm tenantId) past tm in
  result o = Returned tt /\ final o = tm /\
  FallbackTrace schemaPath orm tenantId (trace o).
Proof.
  unfold createSchemaManually. simpl.
  destruct (w string _ (readFileSync schemaPath)) as [schema | e] eqn:E; simpl.
  - rewrite run_try_catch.
    set (past1 := (past ++ _) ++ _).
    destruct (run_executeStatements w
                "Warning executing statement for tenant: " orm
                (statementsOf schema) past1 tm) as [outcomes [Hlen Hrun]].
    rewrite (run_bind_returned _ _ _ _ _ _ _ _ Hrun). simpl.
    repeat split. apply (fallback_executed _ _ _ schema outcomes Hlen).
  - repeat split. apply fallback_unreadable.
Qed.

Lemma run_provisionSchema orm tenantId past tm :
  let o := run w (provisionSchema schemaPath orm tenantId) past tm in
  result o = Returned tt /\ final o = tm /\
  SchemaTrace schemaPath orm tenantId (trace o).
Proof.
  unfold provisionSchema. simpl.
  destruct (w unit past (migrator_up orm)) as [[] | e] eqn:E; simpl.
  - repeat split. apply schema_migrated.
  - set (past1 := ((past ++ _) ++ _) ++ _).
    destruct (run_createSchemaManually orm tenantId past1 tm)
      as [Hres [Hfin Htr]].
    repeat split; try assumption. apply schema_fallback. exact Htr.
Qed.

Lemma run_ensureDatabase conn tenantId past tm :
  let o := run w (ensureDatabase conn tenantId) past tm in
  result o = Returned tt /\ final o = tm /\
  EnsureTrace conn tenantId (trace o).
Proof.
  unfold ensureDatabase. simpl.
  destruct (w Rows past (execute conn existsSql [tenantDb tenantId]))
    as [rows | e] eqn:E; simpl.
  - destruct (List.length rows =? 0) eqn:L; simpl.
    + apply Nat.eqb_eq in L.
      destruct (w Rows _ (execute conn (createSql tenantId) []))
        as [created | e] eqn:E2; simpl; repeat split.
      * apply ensure_created; assumption.
      * apply ensure_create_failed; assumption.
    + apply Nat.eqb_neq in L. repeat split. apply ensure_found; assumption.
  - repeat split. apply ensure_check_failed.
Qed.

(** [getBaseORM] either throws what [MikroORM.init] threw, leaving the
    manager as it was, or returns the base handle and has it stored. *)
Lemma run_getBaseORM past tm :
  let o := run w (getBaseORM env) past tm in
  (exists e, baseOrm tm = None /\
             o = mkOutcome [EvInit (baseOptions env) (Rejected e)] tm (Threw e))
  \/
  (exists b evs, BaseTrace env tm b evs /\
                 o = mkOutcome evs (set_baseOrm b tm) (Returned b)).
Proof.
  unfold getBaseORM. simpl.
  destruct (baseOrm tm) as [b |] eqn:B; simpl.
  - right. exists b, []. split; [apply base_cached; assumption |].
    rewrite set_baseOrm_cached by assumption. reflexivity.
  - destruct (w Handle past (MikroORM_init (baseOptions env)))
      as [b | e] eqn:E; simpl.
    + right. exists b, [EvInit (baseOptions env) (Fulfilled b)].
      split; [apply base_opened; assumption | reflexivity].
    + left. exists e. split; reflexivity.
Qed.

Lemma run_provisionTenant tenantId past tm :
  ProvisionRun env schemaPath tenantId tm
    (run w (provisionTenant env schemaPath tenantId) past tm).
Proof.
  unfold provisionTenant.
  destruct (run_getBaseORM past tm) as [[e [B H]] | [b [evs [HB H]]]].
  - rewrite (run_bind_threw _ _ _ _ _ _ _ _ H).
    apply provision_no_base; assumption.
  - rewrite (run_bind_returned _ _ _ _ _ _ _ _ H). cbv zeta.
    set (tm1 := set_baseOrm b tm). set (past1 := past ++ evs).
    destruct (run_ensureDatabase b tenantId past1 tm1) as [Hres [Hfin Htr]].
    rewrite run_bind. rewrite Hres. cbv zeta. rewrite Hfin.
    set (checkEvs := trace (run w (ensureDatabase b tenantId) past1 tm1)) in *.
    rewrite run_await_bind.
    destruct (w Handle _ (MikroORM_init (tenantOptions env tenantId)))
      as [orm | e] eqn:E.
    + set (past2 := (past1 ++ checkEvs) ++ _).
      destruct (run_provisionSchema orm tenantId past2 tm1)
        as [Hres2 [Hfin2 Htr2]].
      rewrite run_bind. rewrite Hres2. cbv zeta. rewrite Hfin2. simpl.
      rewrite app_nil_r.
      apply (provision_done env schemaPath tenantId tm b orm evs checkEvs _
               HB Htr Htr2).
    + apply (provision_no_connection env schemaPath tenantId tm b evs checkEvs
               e HB Htr).
Qed.

(** The cached path: no event, no change, the cached handle. *)
Lemma run_getTenantORM_cached tenantId past tm orm :
  MapGet tenantId (tenantOrmInstances tm) = Some orm ->
  run w (getTenantORM env schemaPath tenantId) past tm =
  mkOutcome [] tm (Returned orm).
Proof.
  intros H. unfold getTenantORM. simpl. rewrite H. reflexivity.
Qed.

Lemma run_getTenantORM_uncached tenantId past tm :
  MapGet tenantId (tenantOrmInstances tm) = None ->
  ProvisionRun env schemaPath tenantId tm
    (run w (getTenantORM env schemaPath tenantId) past tm).
Proof.
  intros H.
  change (getTenantORM env schemaPath tenantId) with
    (tm <- this ;;
     match MapGet tenantId (tenantOrmInstances tm) with
     | Some orm => Return orm
     | None => provisionTenant env schemaPath tenantId
     end).
  simpl. rewrite H. apply run_provisionTenant.
Qed.

End PhaseLemmas.

(* ===================================================================== *)
(** ** The tenant identifier of a new organization                        *)
(* ===================================================================== *)

Lemma lower_char_not_upper c : Js.is_upper (Js.lower_char c) = false.
Proof. destruct c as [[] [] [] [] [] [] [] []]; reflexivity. Qed.

Lemma lower_char_space c : Js.is_space (Js.lower_char c) = Js.is_space c.
Proof. destruct c as [[] [] [] [] [] [] [] []]; reflexivity. Qed.

Lemma replace_space_runs_clean (s : string) :
  string_forallb (fun c => negb (Js.is_upper c)) s = true ->
  forall in_run,
    string_forallb (fun c => negb (Js.is_space c) && negb (Js.is_upper c))
      (Js.replace_space_runs in_run s) = true.
Proof.
  induction s as [| c s IH]; intros H in_run; simpl in *; [reflexivity |].
  apply andb_true_iff in H. destruct H as [Hc Hs].
  destruct (Js.is_space c) eqn:Sp.
  - destruct in_run; simpl; auto.
  - simpl. rewrite Sp, Hc. simpl. auto.
Qed.

Lemma toLowerCase_no_upper (s : string) :
  string_forallb (fun c => negb (Js.is_upper c)) (Js.toLowerCase s) = true.
Proof.
  induction s as [| c s IH]; simpl; [reflexivity |].
  rewrite lower_char_not_upper, IH. reflexivity.
Qed.

(** X24: what the route does guarantee: the identifier holds no white
    space and no upper-case letter. *)
Lemma tenantIdOfName_no_space_no_upper (name : string) :
  string_forallb (fun c => negb (Js.is_space c) && negb (Js.is_upper c))
    (tenantIdOfName name) = true.
Proof.
  unfold tenantIdOfName. apply replace_space_runs_clean.
  apply toLowerCase_no_upper.
Qed.

(** The wording of the specification does give its alphabet. *)
Lemma tenantIdOfName_spec_alphabet (name : string) :
  string_forallb (fun c => is_lower_alnum c || Ascii.eqb c "-")
    (tenantIdOfName_spec name) = true.
Proof.
  unfold tenantIdOfName_spec.
  induction (Js.toLowerCase name) as [| c s IH]; simpl; [reflexivity |].
  rewrite IH. destruct (is_lower_alnum c) eqn:E; simpl; [rewrite E |];
    reflexivity.
Qed.

(** C2, on the code: the organization name [A&B Farm] yields the
    identifier [a&b-farm]; the ampersand is neither a lower-case
    alphanumeric nor the dash, and the identifier differs from the one the
    specification describes, [a-b-farm]. *)
Theorem tenantIdOfName_keeps_punctuation :
  tenantIdOfName "A&B Farm" = "a&b-farm" /\
  string_forallb (fun c => is_lower_alnum c || Ascii.eqb c "-")
    (tenantIdOfName "A&B Farm") = false /\
  tenantIdOfName_spec "A&B Farm" = "a-b-farm" /\
  tenantIdOfName "A&B Farm" <> tenantIdOfName_spec "A&B Farm".
Proof.
  repeat split; try reflexivity. vm_compute. discriminate.
Qed.

(* ===================================================================== *)
(** ** Tenant resolution and the middleware                               *)
(* ===================================================================== *)

Lemma truthy_false_iff (s : string) : Js.truthy s = false <-> s = "".
Proof.
  unfold Js.truthy. destruct (String.eqb_spec s ""); simpl; split;
    intros; congruence.
Qed.

Section Middleware.

Variable env : Env.
Variable schemaPath : string.

(** The middleware either answers 400 without touching anything, or hands
    the identifier to [getTenantORM] and forwards on its outcome, or
    throws what lines 128-129 throw before anything is done. *)
Lemma run_tenantMiddleware (w : World) (req : Request) past tm :
  run w (tenantMiddleware env schemaPath req) past tm =
  match Resolve req with
  | MissingTenantError =>
      mkOutcome [EvRespond 400 "Tenant identification required"] tm
        (Returned tt)
  | Resolved tenantId =>
      forwarded tenantId (run w (getTenantORM env schemaPath tenantId) past tm)
  | Thrown error => mkOutcome [] tm (Threw error)
  end.
Proof.
  unfold tenantMiddleware, Resolve.
  destruct (tenantIdOfRequest req) as [tenantId | error]; [| reflexivity].
  cbn [settle bind].
  destruct (negb (Js.truthy tenantId)); [reflexivity |].
  rewrite run_try_catch, run_bind. unfold forwarded.
  destruct (run w (getTenantORM env schemaPath tenantId) past tm)
    as [evs tm' [orm | e]]; simpl; reflexivity.
Qed.

End Middleware.

(** *** Events a task cannot emit *)

Lemma OnlyEmits_run {A : Type} (P : Event -> Prop) (w : World) (t : Task A) :
  OnlyEmits P t -> forall past tm, Forall P (trace (run w t past tm)).
Proof.
  induction t as [a | e | R c k IH | R c k IH | ev k IH | k IH | g k IH];
    simpl; intros H past tm; try constructor.
  - apply H.
  - apply IH, H.
  - apply H.
  - apply IH, H.
  - apply H.
  - apply IH, H.
  - apply IH, H.
  - apply IH, H.
Qed.

Lemma OnlyEmits_bind {A B : Type} (P : Event -> Prop) (t : Task A)
  (f : A -> Task B) :
  OnlyEmits P t -> (forall a, OnlyEmits P (f a)) -> OnlyEmits P (bind t f).
Proof.
  intros Ht Hf.
  induction t as [a | e | R c k IH | R c k IH | ev k IH | k IH | g k IH];
    simpl in *; auto.
  - intros r. split; [apply Ht | apply IH, Ht].
  - intros r. split; [apply Ht | apply IH, Ht].
  - split; [apply Ht | apply IH, Ht].
Qed.

Lemma OnlyEmits_try_catch {A : Type} (P : Event -> Prop) (t : Task A)
  (h : JsError -> Task A) :
  OnlyEmits P t -> (forall e, OnlyEmits P (h e)) ->
  OnlyEmits P (try_catch t h).
Proof.
  intros Ht Hh.
  induction t as [a | e | R c k IH | R c k IH | ev k IH | k IH | g k IH];
    simpl in *; auto.
  - intros r. split; [apply Ht | apply IH, Ht].
  - intros r. split; [apply Ht | apply IH, Ht].
  - split; [apply Ht | apply IH, Ht].
Qed.

Lemma OnlyEmits_forOf {X : Type} (P : Event -> Prop) (xs : list X)
  (body : X -> Task unit) :
  (forall x, OnlyEmits P (body x)) -> OnlyEmits P (forOf xs body).
Proof.
  intros H. induction xs as [| x xs IH]; simpl; [exact I |].
  apply OnlyEmits_bind; auto.
Qed.

Lemma OnlyEmits_await {R : Type} (P : Event -> Prop) (c : Call R) :
  (forall r, P (eventOf c r)) -> OnlyEmits P (await c).
Proof. intros H r. split; [apply H | destruct r; exact I]. Qed.

Lemma OnlyEmits_call {R : Type} (P : Event -> Prop) (c : Call R) :
  (forall r, P (eventOf c r)) -> OnlyEmits P (call c).
Proof. intros H r. split; [apply H | destruct r; exact I]. Qed.

Ltac only_emits :=
  repeat first
    [ apply OnlyEmits_bind | apply OnlyEmits_try_catch
    | apply OnlyEmits_forOf | apply OnlyEmits_await | apply OnlyEmits_call
    | progress intros | progress simpl | exact I | split
    | match goal with |- OnlyEmits _ (settle _ ?r) => destruct r end
    | match goal with |- context [match ?x with _ => _ end] => destruct x end ].

(** The registry never answers a request and never calls [next()]. *)
Lemma getTenantORM_registry_events env schemaPath tenantId :
  OnlyEmits isRegistryEvent (getTenantORM env schemaPath tenantId).
Proof. unfold getTenantORM, getBaseORM. only_emits. Qed.

Lemma registry_events_no_response (evs : list Event) :
  Forall isRegistryEvent evs -> responses evs = [] /\ forwards evs = [].
Proof.
  induction 1 as [| ev evs Hev _ IH]; [split; reflexivity |].
  destruct ev; simpl in *; try contradiction; exact IH.
Qed.

Lemma responses_app (xs ys : list Event) :
  responses (xs ++ ys) = responses xs ++ responses ys.
Proof.
  induction xs as [| ev xs IH]; simpl; [reflexivity |].
  destruct ev; simpl; rewrite ?IH; reflexivity.
Qed.

Lemma forwards_app (xs ys : list Event) :
  forwards (xs ++ ys) = forwards xs ++ forwards ys.
Proof.
  induction xs as [| ev xs IH]; simpl; [reflexivity |].
  destruct ev; simpl; rewrite ?IH; reflexivity.
Qed.

(** What the client and the next handler see of a forwarded request. *)
Lemma forwarded_answers env schemaPath (w : World) tenantId past tm :
  let o := run w (getTenantORM env schemaPath tenantId) past tm in
  responses (trace (forwarded tenantId o)) =
    match result o with
    | Returned _ => []
    | Threw _ => [(500, "Error initializing tenant context")]
    end /\
  forwards (trace (forwarded tenantId o)) =
    match result o with
    | Returned tenantORM => [(tenantId, tenantORM)]
    | Threw _ => []
    end.
Proof.
  intros o.
  destruct (registry_events_no_response (trace o)) as [Hr Hf].
  { apply OnlyEmits_run, getTenantORM_registry_events. }
  unfold forwarded. destruct (result o); simpl;
    rewrite responses_app, forwards_app, Hr, Hf; split; reflexivity.
Qed.

(** *** The first label of a host name *)

(** [split] cuts at every separator and nowhere else: the first piece holds
    no separator, and the text is that piece, alone or followed by a
    separator and the rest. *)
Lemma split_first (sep : ascii) (s : string) :
  let label := Js.first (Js.split sep s) in
  ~ string_In sep label /\
  (s = label \/ exists rest, s = (label ++ String sep rest)%string).
Proof.
  induction s as [| c s IH]; simpl.
  - split; [tauto | left; reflexivity].
  - destruct (Ascii.eqb_spec c sep) as [-> | Hne]; simpl.
    + split; [tauto | right; exists s; reflexivity].
    + destruct IH as [Hno Hcut].
      destruct (Js.split sep s) as [| piece pieces] eqn:E; simpl in *.
      * split; [intuition congruence |].
        destruct Hcut as [-> | [rest ->]]; [left; reflexivity |].
        right. exists rest. reflexivity.
      * split; [intuition congruence |].
        destruct Hcut as [-> | [rest ->]]; [left; reflexivity |].
        right. exists rest. reflexivity.
Qed.

(** C3, as stated, fails: with no header and host [localhost] on a fresh
    cluster nothing is answered; the database [tenant_localhost] is
    created and the request goes on with the handle of tenant
    [localhost]. *)
Lemma localhost_request_is_not_rejected :
  let req := mkRequest None (Some "localhost") in
  let o := run (cluster sampleSchema noFaults)
               (tenantMiddleware defaultEnv appSchemaPath req)
               [] newTenantManager in
  Resolve req = Resolved "localhost" /\
  responses (trace o) = [] /\
  executedSql (trace o) = [existsSql; "CREATE DATABASE tenant_localhost"] /\
  forwards (trace o) = [("localhost", 4)] /\
  tenantOrmInstances (final o) = [("localhost", 4)].
Proof. vm_compute. repeat split. Qed.

(** C3, amended: with no header and host [localhost] the resolver yields
    the tenant [localhost] and the middleware hands it to the registry, so
    that no 400 is answered; the 400 answer with the message "Tenant
    identification required", with no call to the registry and the manager
    untouched, is what a request gets that has no non-empty header and
    whose host has an empty first label. *)
Theorem missing_tenant_needs_empty_host_label
  (env : Env) (schemaPath : string) (w : World) past tm :
  (let req := mkRequest None (Some "localhost") in
   let registry := run w (getTenantORM env schemaPath "localhost") past tm in
   let o := run w (tenantMiddleware env schemaPath req) past tm in
   Resolve req = Resolved "localhost" /\
   o = forwarded "localhost" registry /\
   responses (trace o) =
     match result registry with
     | Returned _ => []
     | Threw _ => [(500, "Error initializing tenant context")]
     end) /\
  (forall req host,
     x_tenant_id req = None \/ x_tenant_id req = Some "" ->
     hostname req = Some host ->
     Js.first (Js.split "." host) = "" ->
     Resolve req = MissingTenantError /\
     run w (tenantMiddleware env schemaPath req) past tm =
     mkOutcome [EvRespond 400 "Tenant identification required"] tm
       (Returned tt)).
Proof.
  split.
  - cbv zeta. rewrite run_tenantMiddleware.
    change (Resolve (mkRequest None (Some "localhost")))
      with (Resolved "localhost").
    repeat split.
    apply (forwarded_answers env schemaPath w "localhost" past tm).
  - intros req host Hhdr Hhost Hlabel.
    assert (HR : Resolve req = MissingTenantError).
    { unfold Resolve, tenantIdOfRequest, hostLabel.
      destruct Hhdr as [-> | ->]; simpl; rewrite Hhost, Hlabel; reflexivity. }
    split; [exact HR |]. rewrite run_tenantMiddleware, HR. reflexivity.
Qed.

(** C3 on a request whose host is [.example.com]: the first label is
    empty and the answer is 400. *)
Lemma missing_tenant_needs_empty_host_label_witness :
  (x_tenant_id (mkRequest None (Some ".example.com")) = None \/
   x_tenant_id (mkRequest None (Some ".example.com")) = Some "") /\
  hostname (mkRequest None (Some ".example.com")) = Some ".example.com" /\
  Js.first (Js.split "." ".example.com") = "" /\
  run (cluster sampleSchema noFaults)
      (tenantMiddleware defaultEnv appSchemaPath
         (mkRequest None (Some ".example.com")))
      [] newTenantManager =
  mkOutcome [EvRespond 400 "Tenant identification required"]
    newTenantManager (Returned tt).
Proof.
  split; [left; reflexivity |]. split; [reflexivity |].
  split; [reflexivity |].
  apply (proj2 (missing_tenant_needs_empty_host_label
                  defaultEnv appSchemaPath (cluster sampleSchema noFaults)
                  [] newTenantManager)
               (mkRequest None (Some ".example.com")) ".example.com").
  - left; reflexivity.
  - reflexivity.
  - reflexivity.
Defined.

(** C4, as stated, fails: a header that is present with the empty value
    does not decide the resolution; the host does, and the request is
    served as tenant [acme] where the specification has a missing tenant.
    It fails as well where both sources are absent: line 129 throws
    before anything is answered, where the specification has the same
    missing tenant. *)
Lemma empty_header_falls_back_to_host :
  (let req := mkRequest (Some "") (Some "acme.example.com") in
   let o := run (cluster sampleSchema noFaults)
                (tenantMiddleware defaultEnv appSchemaPath req)
                [] newTenantManager in
   Resolve req = Resolved "acme" /\
   Resolve_spec req = MissingTenantError /\
   responses (trace o) = [] /\
   forwards (trace o) = [("acme", 4)]) /\
  (let req := mkRequest None None in
   let o := run (cluster sampleSchema noFaults)
                (tenantMiddleware defaultEnv appSchemaPath req)
                [] newTenantManager in
   Resolve req = Thrown undefinedHostname /\
   Resolve_spec req = MissingTenantError /\
   o = mkOutcome [] newTenantManager (Threw undefinedHostname)).
Proof. vm_compute. repeat split. Qed.

(** C4, amended: resolution returns the header when it is present and not
    empty, whether or not the request has a host; otherwise, the header
    being absent or empty, a request that has a host resolves to the first
    dot-delimited label of that host, and fails exactly when that label is
    empty; the middleware answers 400 when the resolution fails and only
    then.  Nothing is said of a request with neither a non-empty header
    nor a host. *)
Theorem Resolve_header_then_host_label (req : Request) :
  (forall c v,
     x_tenant_id req = Some (String c v) ->
     Resolve req = Resolved (String c v)) /\
  (forall host,
     hostname req = Some host ->
     Resolve req =
       match x_tenant_id req with
       | Some (String c v) => Resolved (String c v)
       | _ =>
           match Js.first (Js.split "." host) with
           | EmptyString => MissingTenantError
           | label => Resolved label
           end
       end /\
     (Resolve req = MissingTenantError <->
      (x_tenant_id req = None \/ x_tenant_id req = Some "") /\
      Js.first (Js.split "." host) = "")) /\
  (forall env schemaPath (w : World) past tm,
     let o := run w (tenantMiddleware env schemaPath req) past tm in
     (Resolve req = MissingTenantError ->
      o = mkOutcome [EvRespond 400 "Tenant identification required"] tm
            (Returned tt)) /\
     (forall tenantId,
        Resolve req = Resolved tenantId ->
        o = forwarded tenantId
              (run w (getTenantORM env schemaPath tenantId) past tm) /\
        ~ In (400, "Tenant identification required") (responses (trace o)))).
Proof.
  split; [| split].
  - intros c v Hhdr. unfold Resolve, tenantIdOfRequest.
    rewrite Hhdr. reflexivity.
  - intros host Hhost.
    assert (E : Resolve req =
      match x_tenant_id req with
      | Some (String c v) => Resolved (String c v)
      | _ =>
          match Js.first (Js.split "." host) with
          | EmptyString => MissingTenantError
          | label => Resolved label
          end
      end).
    { unfold Resolve, tenantIdOfRequest, hostLabel. rewrite Hhost.
      destruct (x_tenant_id req) as [[| c v] |]; simpl; try reflexivity;
        destruct (Js.first (Js.split "." host)); reflexivity. }
    split; [exact E |].
    rewrite E. destruct (x_tenant_id req) as [[| c v] |];
      destruct (Js.first (Js.split "." host)); simpl;
      split; intros H; try discriminate; try (split; auto; fail);
      destruct H as [[H | H] H']; discriminate.
  - intros env schemaPath w past tm. cbv zeta. rewrite run_tenantMiddleware.
    split.
    + intros ->. reflexivity.
    + intros tenantId ->. split; [reflexivity |].
      destruct (forwarded_answers env schemaPath w tenantId past tm) as [Hr _].
      rewrite Hr.
      destruct (result (run w (getTenantORM env schemaPath tenantId) past tm));
        simpl; intuition discriminate.
Qed.

(** C4 on three requests: a header [farm-a] decides without a host; an
    empty header leaves the decision to the host [acme.example.com]; with
    no header and host [.example.com] the resolution fails and the answer
    is 400. *)
Lemma Resolve_header_then_host_label_witness :
  Resolve (mkRequest (Some "farm-a") None) = Resolved "farm-a" /\
  Resolve (mkRequest (Some "") (Some "acme.example.com")) = Resolved "acme" /\
  Resolve (mkRequest None (Some ".example.com")) = MissingTenantError /\
  run (cluster sampleSchema noFaults)
      (tenantMiddleware defaultEnv appSchemaPath
         (mkRequest None (Some ".example.com")))
      [] newTenantManager =
  mkOutcome [EvRespond 400 "Tenant identification required"]
    newTenantManager (Returned tt).
Proof.
  split; [| split; [| split]].
  - exact (proj1 (Resolve_header_then_host_label
                    (mkRequest (Some "farm-a") None))
             "f"%char "arm-a" eq_refl).
  - exact (proj1 (proj1 (proj2 (Resolve_header_then_host_label
                    (mkRequest (Some "") (Some "acme.example.com"))))
             "acme.example.com" eq_refl)).
  - exact (proj1 (proj1 (proj2 (Resolve_header_then_host_label
                    (mkRequest None (Some ".example.com"))))
             ".example.com" eq_refl)).
  - exact (proj1 (proj2 (proj2 (Resolve_header_then_host_label
                    (mkRequest None (Some ".example.com"))))
             defaultEnv appSchemaPath (cluster sampleSchema noFaults)
             [] newTenantManager) eq_refl).
Defined.

(** The case the amended statement leaves out: with no non-empty header
    and no host, line 129 reads [split] off [undefined]; the TypeError
    leaves the handler before its [try], so that nothing is answered,
    [next()] is not called and the manager is untouched, where the
    specification has the 400 answer of a missing tenant. *)
Lemma request_without_tenant_source_throws
  (env : Env) (schemaPath : string) (w : World) (req : Request) past tm :
  x_tenant_id req = None \/ x_tenant_id req = Some "" ->
  hostname req = None ->
  Resolve req = Thrown undefinedHostname /\
  Resolve_spec req = MissingTenantError /\
  run w (tenantMiddleware env schemaPath req) past tm =
  mkOutcome [] tm (Threw undefinedHostname).
Proof.
  intros Hhdr Hhost.
  assert (HR : Resolve req = Thrown undefinedHostname).
  { unfold Resolve, tenantIdOfRequest, hostLabel.
    destruct Hhdr as [-> | ->]; simpl; rewrite Hhost; reflexivity. }
  split; [exact HR |]. split.
  - unfold Resolve_spec. destruct Hhdr as [-> | ->]; rewrite ?Hhost;
      reflexivity.
  - rewrite run_tenantMiddleware, HR. reflexivity.
Qed.

(** Lines 128-129 throw for no other request, and nothing else. *)
Lemma Resolve_Thrown (req : Request) (error : JsError) :
  Resolve req = Thrown error ->
  ((x_tenant_id req = None \/ x_tenant_id req = Some "") /\
   hostname req = None) /\
  error = undefinedHostname.
Proof.
  unfold Resolve, tenantIdOfRequest, hostLabel.
  destruct (x_tenant_id req) as [[| c v] |]; simpl;
    destruct (hostname req) as [host |]; simpl;
    try (destruct (negb (Js.truthy (Js.first (Js.split "." host)))));
    intros H; try discriminate H; inversion H; auto.
Qed.

(* ===================================================================== *)
(** ** Shutdown                                                           *)
(* ===================================================================== *)

Lemma closeAttempts_app (xs ys : list Event) :
  closeAttempts (xs ++ ys) = closeAttempts xs ++ closeAttempts ys.
Proof.
  induction xs as [| ev xs IH]; simpl; [reflexivity |].
  destruct ev; simpl; rewrite ?IH; reflexivity.
Qed.

Lemma closeAttempts_closed (handles : list Handle) :
  closeAttempts (map closed handles) = handles.
Proof.
  induction handles as [| h handles IH]; simpl; [reflexivity |].
  rewrite IH. reflexivity.
Qed.

(** The sweep over the cached tenants: it ends at the first close that is
    rejected, with that rejection. *)
Lemma run_close_loop (w : World) (entries : OrmMap) :
  forall past tm,
    let o := run w (forOf entries (fun entry => await (orm_close (snd entry))))
                 past tm in
    final o = tm /\
    match result o with
    | Returned _ => trace o = map closed (map snd entries)
    | Threw e =>
        exists done h rest,
          map snd entries = done ++ h :: rest /\
          trace o = map closed done ++ [EvClose h (Rejected e)]
    end.
Proof.
  induction entries as [| [k h] entries IH]; intros past tm; simpl.
  - split; reflexivity.
  - destruct (w unit past (orm_close h)) as [[] | e] eqn:E; simpl.
    + specialize (IH (past ++ [EvClose h (Fulfilled tt)]) tm).
      cbv zeta in IH. destruct IH as [Hfin Hres].
      split; [exact Hfin |].
      destruct (result (run w (forOf entries _) _ tm)) as [u | e].
      * rewrite Hres. reflexivity.
      * destruct Hres as [done [h' [rest [Hsplit Htr]]]].
        exists (h :: done), h', rest. split.
        -- rewrite Hsplit. reflexivity.
        -- rewrite Htr. reflexivity.
    + split; [reflexivity |]. exists [], h, (map snd entries).
      split; reflexivity.
Qed.

(** C5, as stated, fails: with three cached tenants and a second tenant
    handle whose close is rejected, the sweep ends there: the third tenant
    handle is never closed, nothing is logged, and the rejection reaches
    the caller. *)
Lemma closeConnections_abandons_remaining_handles :
  let o := run (cluster sampleSchema stuckTenantB) closeConnections
               [] threeTenants in
  handlesToClose threeTenants = [0; 1; 2; 3] /\
  trace o = [closed 0; closed 1;
             EvClose 2 (Rejected (mkError "Error" "close timed out"))] /\
  closeAttempts (trace o) = [0; 1; 2] /\
  result o = Threw (mkError "Error" "close timed out").
Proof. vm_compute. repeat split. Qed.

(** C5, amended: closeConnections closes the base handle, if there is
    one, and then the cached tenant handles in insertion order, and it
    stops at the first close that fails: that failure is neither caught
    nor logged, it is raised to the caller, and the handles after it are
    not attempted.  When it returns, every handle has been closed: all N
    tenant handles and the base handle. *)
Theorem closeConnections_stops_at_first_failure (w : World) past tm :
  let o := run w closeConnections past tm in
  final o = tm /\
  match result o with
  | Returned _ =>
      trace o = map closed (handlesToClose tm) /\
      closeAttempts (trace o) = handlesToClose tm
  | Threw e =>
      exists done h rest,
        handlesToClose tm = done ++ h :: rest /\
        trace o = map closed done ++ [EvClose h (Rejected e)] /\
        closeAttempts (trace o) = done ++ [h]
  end.
Proof.
  unfold closeConnections, handlesToClose. simpl.
  destruct (baseOrm tm) as [b |] eqn:B; simpl.
  - destruct (w unit past (orm_close b)) as [[] | e] eqn:E; simpl.
    + destruct (run_close_loop w (tenantOrmInstances tm)
                  (past ++ [EvClose b (Fulfilled tt)]) tm) as [Hfin Hres].
      split; [exact Hfin |].
      destruct (result (run w (forOf (tenantOrmInstances tm) _) _ tm))
        as [u | e].
      * rewrite Hres. split; [reflexivity |].
        change (closeAttempts (closed b :: map closed
                                 (map snd (tenantOrmInstances tm))))
          with (b :: closeAttempts (map closed
                                      (map snd (tenantOrmInstances tm)))).
        rewrite closeAttempts_closed. reflexivity.
      * destruct Hres as [done [h [rest [Hsplit Htr]]]].
        exists (b :: done), h, rest. rewrite Hsplit, Htr.
        repeat split.
        change (closeAttempts (closed b :: map closed done
                                 ++ [EvClose h (Rejected e)]))
          with (b :: closeAttempts (map closed done
                                      ++ [EvClose h (Rejected e)])).
        rewrite closeAttempts_app, closeAttempts_closed. reflexivity.
    + split; [reflexivity |].
      exists [], b, (map snd (tenantOrmInstances tm)). repeat split.
  - destruct (run_close_loop w (tenantOrmInstances tm) past tm)
      as [Hfin Hres].
    split; [exact Hfin |].
    destruct (result (run w (forOf (tenantOrmInstances tm) _) _ tm))
      as [u | e].
    + rewrite Hres. split; [reflexivity |]. apply closeAttempts_closed.
    + destruct Hres as [done [h [rest [Hsplit Htr]]]].
      exists done, h, rest. rewrite Hsplit, Htr. repeat split.
      rewrite closeAttempts_app, closeAttempts_closed. reflexivity.
Qed.

(* ===================================================================== *)
(** ** Provisioning: which events the stretches leave                     *)
(* ===================================================================== *)

Lemma statementLog_events warning conn stmts :
  forall outcomes,
    Forall isQueryOrLog (statementLog warning conn stmts outcomes).
Proof.
  induction stmts as [| s stmts IH]; intros [| r outcomes]; simpl;
    try constructor; try exact I.
  destruct r; repeat constructor; auto.
Qed.

Lemma query_or_log_is_fallback (evs : list Event) :
  Forall isQueryOrLog evs -> Forall isFallbackEvent evs.
Proof.
  apply Forall_impl. intros [] H; simpl in *; auto.
Qed.

Lemma BaseTrace_events env tm b evs :
  BaseTrace env tm b evs ->
  Forall (fun ev => ev = EvInit (baseOptions env) (Fulfilled b)) evs.
Proof. destruct 1; repeat constructor. Qed.

Lemma EnsureTrace_events conn tenantId evs :
  EnsureTrace conn tenantId evs -> Forall isQueryOrLog evs.
Proof. destruct 1; repeat constructor. Qed.

Lemma FallbackTrace_events schemaPath orm tenantId evs :
  FallbackTrace schemaPath orm tenantId evs -> Forall isFallbackEvent evs.
Proof.
  destruct 1; [repeat constructor |].
  repeat (apply Forall_cons; [exact I |]). apply Forall_app. split.
  - apply query_or_log_is_fallback, statementLog_events.
  - repeat constructor.
Qed.

Lemma MapGet_MapSet_same k v (mp : OrmMap) : MapGet k (MapSet k v mp) = Some v.
Proof.
  induction mp as [| [k' v'] mp IH]; simpl.
  - rewrite String.eqb_refl. reflexivity.
  - destruct (String.eqb k k') eqn:E; simpl; rewrite E; auto.
Qed.

Lemma MapGet_MapSet_other k k' v (mp : OrmMap) :
  k <> k' -> MapGet k (MapSet k' v mp) = MapGet k mp.
Proof.
  intros Hne. induction mp as [| [k0 v0] mp IH]; simpl.
  - destruct (String.eqb_spec k k'); [contradiction | reflexivity].
  - destruct (String.eqb_spec k' k0) as [<- | Hk]; simpl.
    + destruct (String.eqb_spec k k'); [contradiction | reflexivity].
    + destruct (String.eqb k k0); auto.
Qed.

(** Membership in an explicit list. *)
Ltac in_list := simpl; repeat (first [left; reflexivity | right]).

Section Provisioning.

Variable env : Env.
Variable schemaPath : string.
Variable w : World.

(** C6: when the migrations of an uncached tenant fail, the fallback is
    run on the handle that was opened: the script is read and, when it
    can be read, cut at every [;], each piece trimmed and the empty ones
    dropped, and every statement this leaves is sent on that handle, in
    order, whichever of them are rejected.  Whatever the fallback meets (a
    script that cannot be read, statements that are rejected), the call
    returns that handle and has it cached. *)
Theorem migration_failure_is_not_propagated
  (tenantId : string) past tm (orm : Handle) (e : JsError) :
  MapGet tenantId (tenantOrmInstances tm) = None ->
  let o := run w (getTenantORM env schemaPath tenantId) past tm in
  In (EvMigratorUp orm (Rejected e)) (trace o) ->
  result o = Returned orm /\
  MapGet tenantId (tenantOrmInstances (final o)) = Some orm /\
  exists before read fallback,
    trace o =
      before
      ++ EvInit (tenantOptions env tenantId) (Fulfilled orm)
      :: EvMigratorUp orm (Rejected e)
      :: EvConsole LOG
           ["Migrations not applied for tenant " ++ tenantId ++ ": "
              ++ errMessage e]%string
      :: EvConsole LOG
           ["Creating schema manually for tenant " ++ tenantId
              ++ "..."]%string
      :: EvConsole LOG ["Creating tenant schema manually..."]
      :: EvReadFile schemaPath read
      :: fallback /\
    match read with
    | Rejected unreadable =>
        fallback =
          [EvConsole ERROR
             [("Error creating schema for tenant " ++ tenantId ++ ":")%string;
              errMessage unreadable]]
    | Fulfilled schema =>
        let statements :=
          filter (fun s => 0 <? String.length s)
                 (map Js.trim (Js.split ";" schema)) in
        exists outcomes sent,
          List.length outcomes = List.length statements /\
          sent = statementLog "Warning executing statement for tenant: " orm
                   statements outcomes /\
          executedSql sent = statements /\
          fallback =
            sent
            ++ [EvConsole LOG
                  ["Schema created successfully for tenant "
                     ++ tenantId]%string]
    end.
Proof.
  intros Hun o Hin.
  pose proof (run_getTenantORM_uncached env schemaPath w tenantId past tm Hun)
    as HP.
  fold o in HP. destruct HP as [e0 B | b bEvs cEvs e0 HB HC
                               | b orm0 bEvs cEvs sEvs HB HC HS]; simpl in *.
  - destruct Hin as [Hin | []]. discriminate.
  - apply in_app_or in Hin. destruct Hin as [Hin | Hin].
    { apply BaseTrace_events in HB. rewrite Forall_forall in HB.
      apply HB in Hin. discriminate. }
    apply in_app_or in Hin. destruct Hin as [Hin | Hin].
    { apply EnsureTrace_events in HC. rewrite Forall_forall in HC.
      apply HC in Hin. contradiction. }
    destruct Hin as [Hin | []]. discriminate.
  - apply in_app_or in Hin. destruct Hin as [Hin | Hin].
    { apply BaseTrace_events in HB. rewrite Forall_forall in HB.
      apply HB in Hin. discriminate. }
    apply in_app_or in Hin. destruct Hin as [Hin | Hin].
    { apply EnsureTrace_events in HC. rewrite Forall_forall in HC.
      apply HC in Hin. contradiction. }
    destruct Hin as [Hin | Hin]; [discriminate |].
    destruct HS as [| e1 fEvs HF].
    + destruct Hin as [Hin | [Hin | []]]; discriminate.
    + assert (Hhead : orm0 = orm /\ e1 = e).
      { destruct Hin as [Hin | [Hin | [Hin | Hin]]]; try discriminate.
        - injection Hin as -> ->. split; reflexivity.
        - apply FallbackTrace_events in HF. rewrite Forall_forall in HF.
          apply HF in Hin. contradiction. }
      destruct Hhead as [-> ->].
      split; [reflexivity |]. split; [apply MapGet_MapSet_same |].
      destruct HF as [unreadable | schema outcomes Hlen].
      * eexists (bEvs ++ cEvs), (Rejected unreadable), _.
        split; [| reflexivity].
        rewrite <- app_assoc. reflexivity.
      * eexists (bEvs ++ cEvs), (Fulfilled schema), _.
        split; [rewrite <- app_assoc; simpl; reflexivity |].
        cbv zeta. unfold statementsOf in *.
        eexists outcomes, _. split; [exact Hlen |].
        split; [reflexivity |]. split; [| reflexivity].
        apply statementLog_length_executed. exact Hlen.
Qed.


Lemma SchemaTrace_events orm tenantId evs :
  SchemaTrace schemaPath orm tenantId evs ->
  Forall (fun ev => match ev with EvInit _ _ => False | _ => True end) evs.
Proof.
  destruct 1 as [| e fEvs HF]; [repeat constructor |].
  repeat (apply Forall_cons; [exact I |]).
  apply FallbackTrace_events in HF. revert HF. apply Forall_impl.
  intros [] H; simpl in *; auto.
Qed.

(** C7: when the handle to [tenant_<t>] cannot be opened, the call throws
    that error, the middleware answers 500 and does not forward, and the
    cache is as before: it has no entry for [t], so that the next call
    goes through provisioning again. *)
Theorem connection_failure_is_raised_and_not_cached
  (tenantId : string) past tm (e : JsError) :
  MapGet tenantId (tenantOrmInstances tm) = None ->
  let o := run w (getTenantORM env schemaPath tenantId) past tm in
  In (EvInit (tenantOptions env tenantId) (Rejected e)) (trace o) ->
  result o = Threw e /\
  tenantOrmInstances (final o) = tenantOrmInstances tm /\
  MapGet tenantId (tenantOrmInstances (final o)) = None /\
  (forall req,
     Resolve req = Resolved tenantId ->
     let served := run w (tenantMiddleware env schemaPath req) past tm in
     responses (trace served) = [(500, "Error initializing tenant context")] /\
     forwards (trace served) = [] /\
     final served = final o) /\
  (forall (w' : World) past',
     ProvisionRun env schemaPath tenantId (final o)
       (run w' (getTenantORM env schemaPath tenantId) past' (final o))).
Proof.
  intros Hun o Hin.
  assert (Hmain : result o = Threw e /\
                  tenantOrmInstances (final o) = tenantOrmInstances tm).
  { pose proof (run_getTenantORM_uncached env schemaPath w tenantId past tm
                  Hun) as HP.
    fold o in HP. destruct HP as [e0 B | b bEvs cEvs e0 HB HC
                                 | b orm0 bEvs cEvs sEvs HB HC HS];
      simpl in *.
    - destruct Hin as [Hin | []]. inversion Hin.
    - apply in_app_or in Hin. destruct Hin as [Hin | Hin].
      { apply BaseTrace_events in HB. rewrite Forall_forall in HB.
        apply HB in Hin. discriminate. }
      apply in_app_or in Hin. destruct Hin as [Hin | Hin].
      { apply EnsureTrace_events in HC. rewrite Forall_forall in HC.
        apply HC in Hin. contradiction. }
      destruct Hin as [Hin | []]. injection Hin as ->. split; reflexivity.
    - exfalso. apply in_app_or in Hin. destruct Hin as [Hin | Hin].
      { apply BaseTrace_events in HB. rewrite Forall_forall in HB.
        apply HB in Hin. discriminate. }
      apply in_app_or in Hin. destruct Hin as [Hin | Hin].
      { apply EnsureTrace_events in HC. rewrite Forall_forall in HC.
        apply HC in Hin. contradiction. }
      destruct Hin as [Hin | Hin]; [discriminate |].
      apply SchemaTrace_events in HS. rewrite Forall_forall in HS.
      apply HS in Hin. contradiction. }
  destruct Hmain as [Hres Hmap].
  assert (Hun' : MapGet tenantId (tenantOrmInstances (final o)) = None)
    by (rewrite Hmap; exact Hun).
  repeat split; try assumption.
  - destruct (forwarded_answers env schemaPath w tenantId past tm) as [Hr _].
    rewrite run_tenantMiddleware, H. fold o in Hr. fold o.
    rewrite Hr, Hres. reflexivity.
  - destruct (forwarded_answers env schemaPath w tenantId past tm) as [_ Hf].
    rewrite run_tenantMiddleware, H. fold o in Hf. fold o.
    rewrite Hf, Hres. reflexivity.
  - rewrite run_tenantMiddleware, H. fold o. unfold forwarded.
    rewrite Hres. reflexivity.
  - intros w' past'. apply run_getTenantORM_uncached. exact Hun'.
Qed.

(** *** From the base handle to the connect step *)

Lemma run_getTenantORM_provision (tenantId : string) past tm :
  MapGet tenantId (tenantOrmInstances tm) = None ->
  run w (getTenantORM env schemaPath tenantId) past tm =
  run w (provisionTenant env schemaPath tenantId) past tm.
Proof.
  intros H.
  change (getTenantORM env schemaPath tenantId) with
    (tm <- this ;;
     match MapGet tenantId (tenantOrmInstances tm) with
     | Some orm => Return orm
     | None => provisionTenant env schemaPath tenantId
     end).
  simpl. rewrite H. reflexivity.
Qed.

(** Once the base handle [b] is there, the events of the check come
    first, the connect attempt follows whatever the check met, and the
    outcome of the call is the outcome of the connect attempt. *)
Lemma run_provisionTenant_after_base (tenantId : string) past tm
  baseEvs tm1 (b : Handle) :
  run w (getBaseORM env) past tm = mkOutcome baseEvs tm1 (Returned b) ->
  let checked := run w (ensureDatabase b tenantId) (past ++ baseEvs) tm1 in
  let o := run w (provisionTenant env schemaPath tenantId) past tm in
  exists connect rest,
    trace o =
      baseEvs ++ trace checked
      ++ EvInit (tenantOptions env tenantId) connect :: rest /\
    match connect with
    | Fulfilled orm =>
        result o = Returned orm /\ final o = set_tenantOrm tenantId orm tm1
    | Rejected e' => result o = Threw e' /\ rest = [] /\ final o = tm1
    end.
Proof.
  intros Hbase checked o. unfold o, provisionTenant.
  rewrite (run_bind_returned _ _ _ _ _ _ _ _ Hbase). cbv zeta.
  destruct (run_ensureDatabase w b tenantId (past ++ baseEvs) tm1)
    as [Hres [Hfin _]].
  fold checked in Hres, Hfin.
  rewrite run_bind. fold checked. rewrite Hres. cbv zeta. rewrite Hfin.
  rewrite run_await_bind.
  destruct (w Handle _ (MikroORM_init (tenantOptions env tenantId)))
    as [orm | e'] eqn:E.
  - set (past2 := ((past ++ baseEvs) ++ trace checked) ++ _).
    destruct (run_provisionSchema schemaPath w orm tenantId past2 tm1)
      as [Hres2 [Hfin2 _]].
    rewrite run_bind. rewrite Hres2. cbv zeta. rewrite Hfin2. simpl.
    exists (Fulfilled orm),
      (trace (run w (provisionSchema schemaPath orm tenantId) past2 tm1)).
    rewrite app_nil_r. repeat split.
  - exists (Rejected e'), []. simpl. repeat split.
Qed.

(** C8: when the existence check is rejected, or finds nothing and the
    CREATE DATABASE is rejected, the error is logged and the connect step
    comes next; the call throws only if that connect attempt is rejected,
    and then with the error of the connect attempt. *)
Theorem check_or_create_failure_is_swallowed
  (tenantId : string) past tm baseEvs tm1 (b : Handle) (e : JsError) :
  MapGet tenantId (tenantOrmInstances tm) = None ->
  run w (getBaseORM env) past tm = mkOutcome baseEvs tm1 (Returned b) ->
  let check := execute b existsSql [tenantDb tenantId] in
  let create := execute b (createSql tenantId) [] in
  (w _ (past ++ baseEvs) check = Rejected e \/
   exists rows,
     List.length rows = 0 /\
     w _ (past ++ baseEvs) check = Fulfilled rows /\
     w _ ((past ++ baseEvs) ++ [eventOf check (Fulfilled rows)]) create
       = Rejected e) ->
  let o := run w (getTenantORM env schemaPath tenantId) past tm in
  exists checkEvs connect rest,
    (checkEvs = [eventOf check (Rejected e)] \/
     exists rows,
       checkEvs = [eventOf check (Fulfilled rows);
                   eventOf create (Rejected e)]) /\
    trace o =
      baseEvs ++ checkEvs
      ++ EvConsole ERROR
           ["Error checking/creating tenant database: "
              ++ errMessage e]%string
      :: EvInit (tenantOptions env tenantId) connect
      :: rest /\
    match connect with
    | Fulfilled orm =>
        result o = Returned orm /\
        MapGet tenantId (tenantOrmInstances (final o)) = Some orm
    | Rejected e' => result o = Threw e' /\ rest = []
    end.
Proof.
  intros Hun Hbase check create Hfail o.
  unfold o. rewrite (run_getTenantORM_provision _ _ _ Hun).
  destruct (run_provisionTenant_after_base tenantId past tm baseEvs tm1 b
              Hbase) as [connect [rest [Htr Hout]]].
  assert (Hchecked : exists checkEvs,
    (checkEvs = [eventOf check (Rejected e)] \/
     exists rows,
       checkEvs = [eventOf check (Fulfilled rows);
                   eventOf create (Rejected e)]) /\
    trace (run w (ensureDatabase b tenantId) (past ++ baseEvs) tm1) =
    checkEvs ++
      [EvConsole ERROR
         ["Error checking/creating tenant database: "
            ++ errMessage e]%string]).
  { unfold ensureDatabase. simpl. fold check.
    destruct Hfail as [Hc | [rows [Hlen [Hc Hcr]]]].
    - rewrite Hc. simpl. exists [eventOf check (Rejected e)].
      split; [left; reflexivity | reflexivity].
    - rewrite Hc. simpl. rewrite Hlen. simpl. fold create.
      simpl in Hcr. rewrite Hcr. simpl.
      exists [eventOf check (Fulfilled rows); eventOf create (Rejected e)].
      split; [right; exists rows; reflexivity | reflexivity]. }
  destruct Hchecked as [checkEvs [Hshape Hck]].
  exists checkEvs, connect, rest. split; [exact Hshape |]. split.
  - rewrite Htr, Hck, <- app_assoc. reflexivity.
  - destruct connect as [orm | e'].
    + destruct Hout as [Hres Hfin]. split; [exact Hres |].
      rewrite Hfin. apply MapGet_MapSet_same.
    + destruct Hout as [Hres [Hrest _]]. split; assumption.
Qed.

Lemma is_unquoted_tenantDb (tenantId : string) :
  string_forallb is_ident_char tenantId = true ->
  is_unquoted_identifier (tenantDb tenantId) = true.
Proof. intros H. unfold tenantDb. simpl. exact H. Qed.

(** C10: the existence check passes [tenant_<t>] as a bound parameter,
    while the command that follows when no row is found is the text
    "CREATE DATABASE tenant_" with [t] appended as it is, and no
    parameter.  That text is a well-formed command for the database of the
    tenant when [t] is made of identifier characters, and is not one for
    other [t], such as an identifier with a dash or with a semicolon and a
    second command in it. *)
Theorem create_database_command_is_plain_concatenation
  (tenantId : string) past tm baseEvs tm1 (b : Handle) (rows : Rows) :
  MapGet tenantId (tenantOrmInstances tm) = None ->
  run w (getBaseORM env) past tm = mkOutcome baseEvs tm1 (Returned b) ->
  w _ (past ++ baseEvs) (execute b existsSql [tenantDb tenantId])
    = Fulfilled rows ->
  List.length rows = 0 ->
  let o := run w (getTenantORM env schemaPath tenantId) past tm in
  (exists created rest,
     trace o =
       baseEvs
       ++ EvExecute b "SELECT 1 FROM pg_database WHERE datname = $1"
            [("tenant_" ++ tenantId)%string] (Fulfilled rows)
       :: EvExecute b ("CREATE DATABASE tenant_" ++ tenantId)%string []
            created
       :: rest) /\
  (string_forallb is_ident_char tenantId = true ->
   creates_database (createSql tenantId) (tenantDb tenantId) = true) /\
  creates_database (createSql "green-valley-co-op")
    (tenantDb "green-valley-co-op") = false /\
  creates_database (createSql "x; DROP DATABASE farm_tenants")
    (tenantDb "x; DROP DATABASE farm_tenants") = false.
Proof.
  intros Hun Hbase Hc Hlen o. split; [| split; [| split; reflexivity]].
  - unfold o. rewrite (run_getTenantORM_provision _ _ _ Hun).
    destruct (run_provisionTenant_after_base tenantId past tm baseEvs tm1 b
                Hbase) as [connect [rest [Htr _]]].
    rewrite Htr. unfold ensureDatabase. simpl. rewrite Hc. simpl.
    rewrite Hlen. simpl.
    destruct (w Rows _ (execute b (createSql tenantId) [])) as [cr | e];
      simpl; eexists; eexists; reflexivity.
  - intros Hid. unfold creates_database.
    rewrite (is_unquoted_tenantDb _ Hid).
    change (createSql tenantId) with
      ("CREATE DATABASE " ++ tenantDb tenantId)%string.
    rewrite String.eqb_refl. reflexivity.
Qed.

(** *** The bootstrap fallback *)

Lemma In_statementLog_not_read warning conn stmts outcomes file r :
  ~ In (EvReadFile file r) (statementLog warning conn stmts outcomes).
Proof.
  intros Hin.
  pose proof (statementLog_events warning conn stmts outcomes) as H.
  rewrite Forall_forall in H. apply H in Hin. contradiction.
Qed.

Lemma run_createBaseSchemaManually (orm : Handle) past tm :
  let o := run w (createBaseSchemaManually schemaPath orm) past tm in
  result o = Returned tt /\ final o = tm /\
  BaseFallbackTrace schemaPath orm (trace o).
Proof.
  unfold createBaseSchemaManually. simpl.
  destruct (w string _ (readFileSync schemaPath)) as [schema | e] eqn:E; simpl.
  - rewrite run_try_catch.
    set (past1 := (past ++ _) ++ _).
    destruct (run_executeStatements w "Warning executing statement: " orm
                (statementsOf schema) past1 tm) as [outcomes [Hlen Hrun]].
    rewrite (run_bind_returned _ _ _ _ _ _ _ _ Hrun). simpl.
    repeat split. apply (base_fallback_executed _ _ schema outcomes Hlen).
  - repeat split. apply base_fallback_unreadable.
Qed.

Lemma run_provisionBaseSchema (orm : Handle) past tm :
  let o := run w (provisionBaseSchema schemaPath orm) past tm in
  result o = Returned tt /\ final o = tm /\
  BaseSchemaTrace schemaPath orm (trace o).
Proof.
  unfold provisionBaseSchema. simpl.
  destruct (w unit past (migrator_up orm)) as [[] | e] eqn:E; simpl.
  - repeat split. apply base_schema_migrated.
  - set (past1 := ((past ++ _) ++ _) ++ _).
    destruct (run_createBaseSchemaManually orm past1 tm)
      as [Hres [Hfin Htr]].
    repeat split; try assumption. apply base_schema_fallback. exact Htr.
Qed.

Lemma run_console_bind {A : Type} lvl args (f : unit -> Task A) past tm :
  run w (bind (console lvl args) f) past tm =
  emitted (EvConsole lvl args)
    (run w (f tt) (past ++ [EvConsole lvl args]) tm).
Proof. reflexivity. Qed.

Lemma bootstrap_unfold :
  bootstrap env schemaPath =
  (console LOG ["Initializing MikroORM..."] ;;
   orm <- await (MikroORM_init (baseOptions env)) ;;
   provisionBaseSchema schemaPath orm ;;
   Return orm).
Proof. reflexivity. Qed.

(** C9: whenever the fallback has read the script, in getTenantORM as in
    bootstrap, the commands it sends are the pieces of the script between
    semicolons, trimmed, the empty ones left out, each of them once and in
    order, whatever the outcomes: a rejected statement leaves a warning
    and the next statement is sent; after the last one the success line is
    logged and the call returns the handle. *)
Theorem bootstrap_executes_every_statement (schema : string) past tm :
  (forall tenantId,
     let o := run w (getTenantORM env schemaPath tenantId) past tm in
     In (EvReadFile schemaPath (Fulfilled schema)) (trace o) ->
     exists orm before outcomes,
       let stmts :=
         filter (fun s => 0 <? String.length s)
                (map Js.trim (Js.split ";" schema)) in
       let sent :=
         statementLog "Warning executing statement for tenant: " orm
           stmts outcomes in
       List.length outcomes = List.length stmts /\
       trace o =
         before ++ EvReadFile schemaPath (Fulfilled schema) :: sent
         ++ [EvConsole LOG
               ["Schema created successfully for tenant "
                  ++ tenantId]%string] /\
       executedSql sent = stmts /\
       result o = Returned orm) /\
  (let o := run w (bootstrap env schemaPath) past tm in
   In (EvReadFile schemaPath (Fulfilled schema)) (trace o) ->
   exists orm before outcomes,
     let stmts :=
       filter (fun s => 0 <? String.length s)
              (map Js.trim (Js.split ";" schema)) in
     let sent :=
       statementLog "Warning executing statement: " orm stmts outcomes in
     List.length outcomes = List.length stmts /\
     trace o =
       before ++ EvReadFile schemaPath (Fulfilled schema) :: sent
       ++ [EvConsole LOG ["Schema created successfully"]] /\
     executedSql sent = stmts /\
     result o = Returned orm).
Proof.
  split.
  - intros tenantId o Hin.
    destruct (MapGet tenantId (tenantOrmInstances tm)) as [orm |] eqn:Hget.
    { unfold o in Hin.
      rewrite (run_getTenantORM_cached env schemaPath w _ _ _ _ Hget) in Hin.
      destruct Hin. }
    pose proof (run_getTenantORM_uncached env schemaPath w tenantId past tm
                  Hget) as HP.
    fold o in HP. destruct HP as [e0 B | b bEvs cEvs e0 HB HC
                                 | b orm bEvs cEvs sEvs HB HC HS];
      simpl in *.
    + destruct Hin as [Hin | []]. discriminate.
    + apply in_app_or in Hin. destruct Hin as [Hin | Hin].
      { apply BaseTrace_events in HB. rewrite Forall_forall in HB.
        apply HB in Hin. discriminate. }
      apply in_app_or in Hin. destruct Hin as [Hin | Hin].
      { apply EnsureTrace_events in HC. rewrite Forall_forall in HC.
        apply HC in Hin. contradiction. }
      destruct Hin as [Hin | []]. discriminate.
    + apply in_app_or in Hin. destruct Hin as [Hin | Hin].
      { apply BaseTrace_events in HB. rewrite Forall_forall in HB.
        apply HB in Hin. discriminate. }
      apply in_app_or in Hin. destruct Hin as [Hin | Hin].
      { apply EnsureTrace_events in HC. rewrite Forall_forall in HC.
        apply HC in Hin. contradiction. }
      destruct Hin as [Hin | Hin]; [discriminate |].
      destruct HS as [| e1 fEvs HF].
      { destruct Hin as [Hin | [Hin | []]]; discriminate. }
      destruct Hin as [Hin | [Hin | [Hin | Hin]]]; try discriminate.
      destruct HF as [e2 | schema0 outcomes Hlen].
      { destruct Hin as [Hin | [Hin | [Hin | []]]]; discriminate. }
      assert (schema0 = schema) as ->.
      { simpl in Hin. destruct Hin as [Hin | [Hin | Hin]];
          try discriminate.
        - injection Hin as ->. reflexivity.
        - apply in_app_or in Hin. destruct Hin as [Hin | Hin].
          + apply In_statementLog_not_read in Hin. contradiction.
          + destruct Hin as [Hin | []]. discriminate. }
      exists orm,
        (bEvs ++ cEvs ++
           [EvInit (tenantOptions env tenantId) (Fulfilled orm);
            EvMigratorUp orm (Rejected e1);
            EvConsole LOG
              ["Migrations not applied for tenant " ++ tenantId ++ ": "
                 ++ errMessage e1]%string;
            EvConsole LOG
              ["Creating schema manually for tenant " ++ tenantId
                 ++ "..."]%string;
            EvConsole LOG ["Creating tenant schema manually..."]]),
        outcomes.
      cbv zeta. fold (statementsOf schema).
      split; [exact Hlen |]. split; [| split; [| reflexivity]].
      * rewrite <- !app_assoc. reflexivity.
      * apply statementLog_length_executed. exact Hlen.
  - intros o Hin. unfold o in *. clear o. rewrite bootstrap_unfold in *.
    rewrite run_console_bind, run_await_bind in *.
    destruct (w Handle _ (MikroORM_init (baseOptions env))) as [orm | e0].
    2: { simpl in Hin. destruct Hin as [Hin | [Hin | []]]; discriminate. }
    set (past1 := (past ++ _) ++ _) in *.
    destruct (run_provisionBaseSchema orm past1 tm) as [Hres [Hfin HS]].
    rewrite run_bind in *. rewrite Hres in *. cbv zeta in *.
    remember (trace (run w (provisionBaseSchema schemaPath orm) past1 tm))
      as sEvs eqn:HsEvs.
    clear HsEvs. simpl in Hin |- *. rewrite app_nil_r in *.
    destruct Hin as [Hin | [Hin | Hin]]; try discriminate.
    destruct HS as [| e1 fEvs HF].
    { destruct Hin as [Hin | [Hin | []]]; discriminate. }
    destruct Hin as [Hin | [Hin | [Hin | Hin]]]; try discriminate.
    destruct HF as [e2 | schema0 outcomes Hlen].
    { destruct Hin as [Hin | [Hin | [Hin | []]]]; discriminate. }
    assert (schema0 = schema) as ->.
    { simpl in Hin. destruct Hin as [Hin | [Hin | Hin]]; try discriminate.
      - injection Hin as ->. reflexivity.
      - apply in_app_or in Hin. destruct Hin as [Hin | Hin].
        + apply In_statementLog_not_read in Hin. contradiction.
        + destruct Hin as [Hin | []]. discriminate. }
    exists orm,
      [EvConsole LOG ["Initializing MikroORM..."];
       EvInit (baseOptions env) (Fulfilled orm);
       EvMigratorUp orm (Rejected e1);
       EvConsole LOG ["Migrations not applied:"; errMessage e1];
       EvConsole LOG
         ["Continuing without migrations, will create schema manually..."];
       EvConsole LOG ["Creating schema manually..."]],
      outcomes.
    cbv zeta. fold (statementsOf schema).
    split; [exact Hlen |]. split; [| split; [| reflexivity]].
    * reflexivity.
    * apply statementLog_length_executed. exact Hlen.
Qed.

End Provisioning.

(* ===================================================================== *)
(** ** The theorems above on the concrete cluster                         *)
(* ===================================================================== *)

(** C6 on a cluster whose migrations are rejected and whose schema has a
    statement that is rejected too: after the check and the creation of
    the database, the three statements of the script are sent, the second
    of them in vain, and the handle is returned and cached. *)
Lemma migration_failure_is_not_propagated_witness :
  let o := run (cluster sampleSchema migrationsBroken)
               (getTenantORM defaultEnv appSchemaPath "acme")
               [] newTenantManager in
  let e := mkError "Error" "migration table is corrupted" in
  MapGet "acme" (tenantOrmInstances newTenantManager) = None /\
  In (EvMigratorUp 4 (Rejected e)) (trace o) /\
  result o = Returned 4 /\
  MapGet "acme" (tenantOrmInstances (final o)) = Some 4 /\
  In (EvReadFile appSchemaPath (Fulfilled sampleSchema)) (trace o) /\
  executedSql (trace o) =
    [existsSql;
     "CREATE DATABASE tenant_acme";
     "CREATE TABLE IF NOT EXISTS crop (id UUID PRIMARY KEY)";
     "CREATE TABLE crop (id UUID)";
     "CREATE TABLE IF NOT EXISTS harvest (id UUID PRIMARY KEY)"] /\
  In (EvConsole WARN
        ["Warning executing statement for tenant: cannot execute: CREATE TABLE crop (id UUID)"])
     (trace o).
Proof.
  cbv zeta. split; [reflexivity |]. split; [vm_compute; in_list |].
  destruct (migration_failure_is_not_propagated
              defaultEnv appSchemaPath (cluster sampleSchema migrationsBroken)
              "acme" [] newTenantManager 4
              (mkError "Error" "migration table is corrupted"))
    as [Hres [Hget _]].
  - reflexivity.
  - vm_compute; in_list.
  - split; [exact Hres |]. split; [exact Hget |].
    split; [vm_compute; in_list |]. split; [reflexivity |].
    vm_compute; in_list.
Defined.

(** C7 on a cluster where no tenant database can be opened. *)
Lemma connection_failure_is_raised_and_not_cached_witness :
  let o := run (cluster sampleSchema tenantsUnreachable)
               (getTenantORM defaultEnv appSchemaPath "acme")
               [] newTenantManager in
  let e := mkError "Error" "connect ECONNREFUSED" in
  MapGet "acme" (tenantOrmInstances newTenantManager) = None /\
  In (EvInit (tenantOptions defaultEnv "acme") (Rejected e)) (trace o) /\
  result o = Threw e /\
  tenantOrmInstances (final o) = [].
Proof.
  cbv zeta. split; [reflexivity |]. split; [vm_compute; in_list |].
  destruct (connection_failure_is_raised_and_not_cached
              defaultEnv appSchemaPath (cluster sampleSchema tenantsUnreachable)
              "acme" [] newTenantManager
              (mkError "Error" "connect ECONNREFUSED"))
    as [Hres [Hmap _]].
  - reflexivity.
  - vm_compute; in_list.
  - split; assumption.
Defined.

(** C8 on a cluster whose catalog cannot be queried. *)
Lemma check_or_create_failure_is_swallowed_witness :
  let w := cluster sampleSchema catalogUnreadable in
  let o := run w (getTenantORM defaultEnv appSchemaPath "acme")
               [] newTenantManager in
  let e := mkError "error" ("cannot execute: " ++ existsSql)%string in
  run w (getBaseORM defaultEnv) [] newTenantManager =
    mkOutcome [EvInit (baseOptions defaultEnv) (Fulfilled 0)]
      (set_baseOrm 0 newTenantManager) (Returned 0) /\
  w _ [EvInit (baseOptions defaultEnv) (Fulfilled 0)]
      (execute 0 existsSql [tenantDb "acme"]) = Rejected e /\
  exists rest,
    trace o =
      [EvInit (baseOptions defaultEnv) (Fulfilled 0);
       EvExecute 0 existsSql [tenantDb "acme"] (Rejected e);
       EvConsole ERROR
         ["Error checking/creating tenant database: " ++ errMessage e]%string;
       EvInit (tenantOptions defaultEnv "acme") (Fulfilled 3)]
      ++ rest /\
    result o = Returned 3.
Proof.
  cbv zeta. split; [reflexivity |]. split; [reflexivity |].
  destruct (check_or_create_failure_is_swallowed
              defaultEnv appSchemaPath (cluster sampleSchema catalogUnreadable)
              "acme" [] newTenantManager
              [EvInit (baseOptions defaultEnv) (Fulfilled 0)]
              (set_baseOrm 0 newTenantManager) 0
              (mkError "error" ("cannot execute: " ++ existsSql)%string))
    as [checkEvs [connect [rest [_ [_ _]]]]].
  - reflexivity.
  - reflexivity.
  - left. reflexivity.
  - eexists. split; vm_compute; reflexivity.
Defined.

(** C10 on a fresh cluster, for the tenant of the README. *)
Lemma create_database_command_is_plain_concatenation_witness :
  let w := cluster sampleSchema noFaults in
  let o := run w (getTenantORM defaultEnv appSchemaPath "green-valley-co-op")
               [] newTenantManager in
  run w (getBaseORM defaultEnv) [] newTenantManager =
    mkOutcome [EvInit (baseOptions defaultEnv) (Fulfilled 0)]
      (set_baseOrm 0 newTenantManager) (Returned 0) /\
  w _ [EvInit (baseOptions defaultEnv) (Fulfilled 0)]
      (execute 0 existsSql [tenantDb "green-valley-co-op"]) = Fulfilled [] /\
  exists created rest,
    trace o =
      [EvInit (baseOptions defaultEnv) (Fulfilled 0)]
      ++ EvExecute 0 "SELECT 1 FROM pg_database WHERE datname = $1"
           ["tenant_green-valley-co-op"] (Fulfilled [])
      :: EvExecute 0 "CREATE DATABASE tenant_green-valley-co-op" [] created
      :: rest.
Proof.
  cbv zeta. split; [reflexivity |]. split; [reflexivity |].
  apply (create_database_command_is_plain_concatenation
           defaultEnv appSchemaPath (cluster sampleSchema noFaults)
           "green-valley-co-op" [] newTenantManager
           [EvInit (baseOptions defaultEnv) (Fulfilled 0)]
           (set_baseOrm 0 newTenantManager) 0 []);
    reflexivity.
Defined.

(** C9 on a cluster whose migrations are rejected, for getTenantORM and
    for bootstrap. *)
Lemma bootstrap_executes_every_statement_witness :
  let w := cluster sampleSchema migrationsBroken in
  let o := run w (getTenantORM defaultEnv appSchemaPath "acme")
               [] newTenantManager in
  let o' := run w (bootstrap defaultEnv appSchemaPath) [] newTenantManager in
  In (EvReadFile appSchemaPath (Fulfilled sampleSchema)) (trace o) /\
  In (EvReadFile appSchemaPath (Fulfilled sampleSchema)) (trace o') /\
  (exists orm, result o = Returned orm) /\
  (exists orm, result o' = Returned orm).
Proof.
  cbv zeta.
  assert (H1 : In (EvReadFile appSchemaPath (Fulfilled sampleSchema))
                 (trace (run (cluster sampleSchema migrationsBroken)
                             (getTenantORM defaultEnv appSchemaPath "acme")
                             [] newTenantManager)))
    by (vm_compute; in_list).
  assert (H2 : In (EvReadFile appSchemaPath (Fulfilled sampleSchema))
                 (trace (run (cluster sampleSchema migrationsBroken)
                             (bootstrap defaultEnv appSchemaPath)
                             [] newTenantManager)))
    by (vm_compute; in_list).
  split; [exact H1 |]. split; [exact H2 |].
  destruct (bootstrap_executes_every_statement
              defaultEnv appSchemaPath (cluster sampleSchema migrationsBroken)
              sampleSchema [] newTenantManager) as [Ht Hb].
  split.
  - destruct (Ht "acme" H1) as [orm [before [outcomes [_ [_ [_ Hres]]]]]].
    exists orm. exact Hres.
  - destruct (Hb H2) as [orm [before [outcomes [_ [_ [_ Hres]]]]]].
    exists orm. exact Hres.
Defined.

(* ===================================================================== *)
(** ** Calls that overlap                                                 *)
(* ===================================================================== *)

(** A call made after an earlier call for the same tenant has returned
    does nothing but read the cache: it returns the same handle. *)
Lemma second_call_is_served_from_cache env schemaPath (w w' : World)
  tenantId past past' tm orm :
  let o := run w (getTenantORM env schemaPath tenantId) past tm in
  result o = Returned orm ->
  run w' (getTenantORM env schemaPath tenantId) past' (final o) =
  mkOutcome [] (final o) (Returned orm).
Proof.
  intros o Hres. apply run_getTenantORM_cached.
  destruct (MapGet tenantId (tenantOrmInstances tm)) as [orm0 |] eqn:Hget.
  - unfold o in *.
    rewrite (run_getTenantORM_cached env schemaPath w _ _ _ _ Hget) in *.
    simpl in *. injection Hres as <-. exact Hget.
  - pose proof (run_getTenantORM_uncached env schemaPath w tenantId past tm
                  Hget) as HP.
    fold o in HP.
    destruct HP as [e0 B | b bEvs cEvs e0 HB HC
                   | b orm0 bEvs cEvs sEvs HB HC HS]; simpl in *;
      try discriminate.
    injection Hres as <-. apply MapGet_MapSet_same.
Qed.

(** C1, on the code: two calls for the uncached tenant [acme] that overlap
    on a fresh cluster each check the catalog before the other has created
    the database, so that CREATE DATABASE is sent twice, the database is
    opened twice and migrated twice, and the two callers get two different
    handles, of which the cache keeps the later one. *)
Theorem overlapping_calls_provision_twice :
  let call := getTenantORM defaultEnv appSchemaPath "acme" in
  let '(evs, tm, pool) :=
    concurrently (cluster sampleSchema noFaults)
      [0; 1; 0; 1; 0; 1; 0; 1; 0; 1] [call; call] [] newTenantManager in
  executedSql evs =
    [existsSql; existsSql;
     "CREATE DATABASE tenant_acme"; "CREATE DATABASE tenant_acme"] /\
  timesExecuted "CREATE DATABASE tenant_acme" evs = 2 /\
  openedDatabases evs =
    ["farm_tenants"; "farm_tenants"; "tenant_acme"; "tenant_acme"] /\
  migrated evs = [8; 9] /\
  map completion pool = [Some (Returned 8); Some (Returned 9)] /\
  tenantOrmInstances tm = [("acme", 9)].
Proof. vm_compute. repeat split. Qed.

(** *** One task alone on the event loop *)

(** Settling the promises of a single task one after the other is running
    it: the events, the manager and the completion are those of [run]. *)
Lemma advance_then_settle {A : Type} (w : World) (t : Task A) :
  forall past tm,
  exists n,
    let '(evs, tm', t') := advance w t past tm in
    let '(evs', tm'', pool) :=
      settleInOrder w (repeat 0 n) [t'] (past ++ evs) tm' in
    (evs ++ evs', tm'', pool) =
    (trace (run w t past tm), final (run w t past tm),
     [finished (result (run w t past tm))]).
Proof.
  induction t as [a | e | R c k IH | R c k IH | ev k IH | k IH | g k IH];
    intros past tm.
  - exists 0. reflexivity.
  - exists 0. reflexivity.
  - destruct (IH (w R past c) (past ++ [eventOf c (w R past c)]) tm)
      as [n Hn].
    exists (S n). simpl. rewrite app_nil_r.
    destruct (advance w (k (w R past c)) _ tm) as [[evs tm'] t'].
    simpl. rewrite <- app_assoc in Hn. simpl in Hn.
    destruct (settleInOrder w (repeat 0 n) [t'] _ tm') as [[evs' tm''] pool].
    injection Hn as Hevs Htm Hpool. subst. rewrite <- Hevs. reflexivity.
  - destruct (IH (w R past c) (past ++ [eventOf c (w R past c)]) tm)
      as [n Hn].
    exists n. simpl.
    destruct (advance w (k (w R past c)) _ tm) as [[evs tm'] t'].
    rewrite <- app_assoc in Hn. simpl in Hn.
    destruct (settleInOrder w (repeat 0 n) [t'] _ tm') as [[evs' tm''] pool].
    injection Hn as Hevs Htm Hpool. subst. rewrite <- Hevs. reflexivity.
  - destruct (IH (past ++ [ev]) tm) as [n Hn].
    exists n. simpl.
    destruct (advance w k _ tm) as [[evs tm'] t'].
    rewrite <- app_assoc in Hn. simpl in Hn.
    destruct (settleInOrder w (repeat 0 n) [t'] _ tm') as [[evs' tm''] pool].
    injection Hn as Hevs Htm Hpool. subst. rewrite <- Hevs. reflexivity.
  - apply IH.
  - apply IH.
Qed.

Lemma alone_on_the_loop {A : Type} (w : World) (t : Task A) past tm :
  exists n,
    concurrently w (repeat 0 n) [t] past tm =
    (trace (run w t past tm), final (run w t past tm),
     [finished (result (run w t past tm))]).
Proof.
  destruct (advance_then_settle w t past tm) as [n Hn].
  exists n. unfold concurrently. simpl.
  destruct (advance w t past tm) as [[evs tm'] t'].
  rewrite app_nil_r.
  destruct (settleInOrder w (repeat 0 n) [t'] (past ++ evs) tm')
    as [[evs' tm''] pool].
  exact Hn.
Qed.

(** Whatever the order in which the ten promises of two overlapping calls
    for [acme] are settled on a fresh cluster, both calls open the tenant
    database and they return different handles. *)
Lemma overlapping_calls_never_share_a_handle :
  let call := getTenantORM defaultEnv appSchemaPath "acme" in
  forallb
    (fun order =>
       let '(evs, tm, pool) :=
         concurrently (cluster sampleSchema noFaults) order [call; call]
           [] newTenantManager in
       match map completion pool with
       | [Some (Returned orm0); Some (Returned orm1)] =>
           negb (orm0 =? orm1)
           && (List.length (filter (String.eqb "tenant_acme")
                                   (openedDatabases evs)) =? 2)
       | _ => false
       end)
    (interleavings 5 5) = true.
Proof. vm_compute. reflexivity. Qed.

(* ===================================================================== *)
(** ** The string primitives meet their description                       *)
(* ===================================================================== *)

Lemma split_not_nil (sep : ascii) (s : string) : Js.split sep s <> [].
Proof.
  destruct s as [| c s]; simpl; [discriminate |].
  destruct (Ascii.eqb c sep); [discriminate |].
  destruct (Js.split sep s); discriminate.
Qed.

(** Joining the pieces with the separator gives the text back. *)
Lemma split_join (sep : ascii) (s : string) :
  Js.join sep (Js.split sep s) = s.
Proof.
  induction s as [| c s IH]; simpl; [reflexivity |].
  pose proof (split_not_nil sep s) as Hne.
  destruct (Ascii.eqb_spec c sep) as [-> | Hc].
  - destruct (Js.split sep s) as [| p ps]; [contradiction |].
    change (Js.join sep (EmptyString :: p :: ps))
      with (String sep (Js.join sep (p :: ps))).
    rewrite IH. reflexivity.
  - destruct (Js.split sep s) as [| p ps]; [contradiction |].
    destruct ps as [| q qs]; simpl in *; rewrite <- IH; reflexivity.
Qed.

(** No piece holds the separator. *)
Lemma split_pieces (sep : ascii) (s : string) :
  Forall (fun piece => ~ string_In sep piece) (Js.split sep s).
Proof.
  induction s as [| c s IH]; simpl.
  - constructor; [tauto | constructor].
  - destruct (Ascii.eqb_spec c sep) as [-> | Hc].
    + constructor; [simpl; tauto | exact IH].
    + destruct (Js.split sep s) as [| p ps].
      * constructor; [simpl; intuition congruence | constructor].
      * inversion IH as [| ? ? Hp Hps]; subst.
        constructor; [simpl; intuition congruence | exact Hps].
Qed.

Lemma trimStart_spec (s : string) :
  exists pre,
    s = (pre ++ Js.trimStart s)%string /\
    string_forallb Js.is_space pre = true /\
    Js.not_space (Js.first_char (Js.trimStart s)).
Proof.
  induction s as [| c s [pre [Heq [Hpre Hfirst]]]]; simpl.
  - exists EmptyString. repeat split.
  - destruct (Js.is_space c) eqn:Sp.
    + exists (String c pre). simpl. rewrite Sp, Hpre, <- Heq. repeat split.
      exact Hfirst.
    + exists EmptyString. simpl. repeat split. exact Sp.
Qed.

Lemma trimEnd_spec (s : string) :
  exists post,
    s = (Js.trimEnd s ++ post)%string /\
    string_forallb Js.is_space post = true /\
    Js.not_space (Js.last_char (Js.trimEnd s)) /\
    (Js.not_space (Js.first_char s) ->
     Js.first_char (Js.trimEnd s) = Js.first_char s).
Proof.
  induction s as [| c s [post [Heq [Hpost [Hlast _]]]]]; simpl.
  - exists EmptyString. repeat split.
  - destruct (Js.trimEnd s) as [| d rest] eqn:E.
    + destruct (Js.is_space c) eqn:Sp.
      * exists (String c post). simpl in *. rewrite Sp, Hpost, <- Heq.
        repeat split. intros H. congruence.
      * exists post. simpl in *. subst post.
        repeat split; try assumption; reflexivity.
    + exists post. simpl in *. rewrite Heq at 1.
      repeat split; try assumption; try reflexivity.
      all: destruct rest; assumption.
Qed.

(** [trim] removes white space, and only white space, at both ends. *)
Lemma trim_spec (s : string) :
  exists pre post,
    s = (pre ++ Js.trim s ++ post)%string /\
    string_forallb Js.is_space pre = true /\
    string_forallb Js.is_space post = true /\
    Js.not_space (Js.first_char (Js.trim s)) /\
    Js.not_space (Js.last_char (Js.trim s)).
Proof.
  unfold Js.trim.
  destruct (trimStart_spec s) as [pre [Heq [Hpre Hfirst]]].
  destruct (trimEnd_spec (Js.trimStart s)) as [post [Heq' [Hpost [Hlast Hkeep]]]].
  exists pre, post. repeat split; try assumption.
  - rewrite <- Heq'. exact Heq.
  - destruct (Js.trimEnd (Js.trimStart s)) as [| c rest] eqn:E;
      [exact I |].
    specialize (Hkeep Hfirst). rewrite <- Hkeep in Hfirst. exact Hfirst.
Qed.

Lemma string_In_app (c : ascii) (a b : string) :
  string_In c (a ++ b)%string <-> string_In c a \/ string_In c b.
Proof.
  induction a as [| d a IH]; simpl; [tauto |]. rewrite IH. tauto.
Qed.

(** X25: the statements of a script: none is empty, none holds a
    semicolon, none starts or ends with white space. *)
Lemma statementsOf_statements (schema : string) :
  Forall (fun st =>
            st <> EmptyString /\ ~ string_In ";" st /\
            Js.not_space (Js.first_char st) /\
            Js.not_space (Js.last_char st))
         (statementsOf schema).
Proof.
  unfold statementsOf. apply Forall_forall. intros st Hin.
  apply filter_In in Hin. destruct Hin as [Hin Hlen].
  apply in_map_iff in Hin. destruct Hin as [piece [<- Hpiece]].
  pose proof (split_pieces ";" schema) as Hp. rewrite Forall_forall in Hp.
  specialize (Hp piece Hpiece).
  destruct (trim_spec piece) as [pre [post [Heq [_ [_ [Hf Hl]]]]]].
  repeat split; try assumption.
  - intros E. rewrite E in Hlen. discriminate.
  - intros Hsemi. apply Hp. rewrite Heq.
    apply string_In_app. right. apply string_In_app. left. exact Hsemi.
Qed.

(* ===================================================================== *)
(** ** Further properties of the manager                                  *)
(* ===================================================================== *)

Lemma MapGet_In_keys k (mp : OrmMap) :
  MapGet k mp = None <-> ~ In k (map fst mp).
Proof.
  induction mp as [| [k' v] mp IH]; simpl; [tauto |].
  destruct (String.eqb_spec k k') as [-> | Hne].
  - split; [discriminate | tauto].
  - rewrite IH. split; [intros H [E | Hin]; [congruence | tauto] | tauto].
Qed.

Lemma MapGet_In_values k v (mp : OrmMap) :
  MapGet k mp = Some v -> In v (map snd mp).
Proof.
  induction mp as [| [k' v'] mp IH]; simpl; [discriminate |].
  destruct (String.eqb k k'); [intros [= ->]; left; reflexivity |].
  intros H. right. apply IH. exact H.
Qed.

Lemma MapSet_keys_absent k v (mp : OrmMap) :
  MapGet k mp = None -> map fst (MapSet k v mp) = map fst mp ++ [k].
Proof.
  induction mp as [| [k' v'] mp IH]; simpl; [reflexivity |].
  destruct (String.eqb k k'); [discriminate |].
  intros H. simpl. rewrite IH by exact H. reflexivity.
Qed.

(** The manager after a call of [getTenantORM tenantId]: as it was, or
    with the base handle stored, or with the base handle and the new
    tenant handle stored; the last only when the tenant was not cached. *)
Lemma getTenantORM_final env schemaPath (w : World) tenantId past tm :
  let o := run w (getTenantORM env schemaPath tenantId) past tm in
  final o = tm \/
  (exists b, final o = set_baseOrm b tm) \/
  (exists b orm,
     MapGet tenantId (tenantOrmInstances tm) = None /\
     result o = Returned orm /\
     final o = set_tenantOrm tenantId orm (set_baseOrm b tm)).
Proof.
  intros o.
  destruct (MapGet tenantId (tenantOrmInstances tm)) as [orm |] eqn:Hget.
  - left. unfold o.
    rewrite (run_getTenantORM_cached env schemaPath w _ _ _ _ Hget).
    reflexivity.
  - pose proof (run_getTenantORM_uncached env schemaPath w tenantId past tm
                  Hget) as HP.
    fold o in HP.
    destruct HP as [e0 B | b bEvs cEvs e0 HB HC
                   | b orm bEvs cEvs sEvs HB HC HS]; simpl.
    + left. reflexivity.
    + right. left. exists b. reflexivity.
    + right. right. exists b, orm. repeat split.
Qed.

Section Manager.

Variable env : Env.
Variable schemaPath : string.
Variable w : World.

(** X1: a call of [getBaseORM] that starts when the manager holds a base
    handle is over in its first synchronous stretch, before any [await]
    at which another call could run: it returns the stored handle, opens
    nothing and leaves the manager as it is, whatever the world has
    become.  A call that has run with no other call in between and has
    returned a handle leaves that handle stored, so that the call that
    starts next is such a call and returns the same handle. *)
Theorem getBaseORM_opens_once past tm (b : Handle) (w' : World) past' :
  (baseOrm tm = Some b ->
   advance w (getBaseORM env) past tm = ([], tm, Return b) /\
   run w (getBaseORM env) past tm = mkOutcome [] tm (Returned b)) /\
  (let o := run w (getBaseORM env) past tm in
   result o = Returned b ->
   baseOrm (final o) = Some b /\
   advance w' (getBaseORM env) past' (final o) = ([], final o, Return b) /\
   run w' (getBaseORM env) past' (final o) =
   mkOutcome [] (final o) (Returned b)).
Proof.
  assert (Stored : forall (w0 : World) past0 tm0,
            baseOrm tm0 = Some b ->
            advance w0 (getBaseORM env) past0 tm0 = ([], tm0, Return b) /\
            run w0 (getBaseORM env) past0 tm0 =
            mkOutcome [] tm0 (Returned b)).
  { intros w0 past0 tm0 H. unfold getBaseORM. simpl. rewrite H.
    split; reflexivity. }
  split; [apply Stored |].
  intros o Hres.
  assert (Hb : baseOrm (final o) = Some b).
  { destruct (run_getBaseORM env w past tm)
      as [[e [_ H]] | [b0 [evs [_ H]]]];
      fold o in H; rewrite H in *; simpl in *; [discriminate |].
    injection Hres as ->. reflexivity. }
  split; [exact Hb |]. apply Stored. exact Hb.
Qed.

(** Calls that overlap are another matter: two calls that both start
    before either has stored its handle open the base database twice and
    return two handles, of which the manager keeps the later one. *)
Lemma overlapping_getBaseORM_calls_open_twice :
  let call := getBaseORM defaultEnv in
  let '(evs, tm, pool) :=
    concurrently (cluster sampleSchema noFaults) [0; 1] [call; call]
      [] newTenantManager in
  openedDatabases evs = ["farm_tenants"; "farm_tenants"] /\
  map completion pool = [Some (Returned 0); Some (Returned 1)] /\
  baseOrm tm = Some 1.
Proof. vm_compute. repeat split. Qed.

(** X2: a call of [getBaseORM] either returns a handle and leaves it
    stored as the base handle, or throws the error of [MikroORM.init] and
    leaves the manager without a base handle, so that the next call tries
    again; the tenant cache is never touched. *)
Theorem getBaseORM_stores_or_retries past tm :
  let o := run w (getBaseORM env) past tm in
  tenantOrmInstances (final o) = tenantOrmInstances tm /\
  match result o with
  | Returned b => baseOrm (final o) = Some b
  | Threw e =>
      final o = tm /\ baseOrm tm = None /\
      trace o = [EvInit (baseOptions env) (Rejected e)] /\
      forall (w' : World) past',
        hd_error (trace (run w' (getBaseORM env) past' (final o))) =
        Some (EvInit (baseOptions env)
                (w' Handle past' (MikroORM_init (baseOptions env))))
  end.
Proof.
  intros o.
  destruct (run_getBaseORM env w past tm) as [[e [B H]] | [b [evs [_ H]]]];
    fold o in H; rewrite H; simpl.
  - repeat split; try assumption.
    intros w' past'. unfold getBaseORM. simpl. rewrite B. reflexivity.
  - split; reflexivity.
Qed.

(** X3: a call of [getTenantORM], for whatever tenant and however it
    ends, keeps every entry the cache had: each cached tenant is still
    cached, with the same handle. *)
Theorem getTenantORM_keeps_entries tenantId past tm other (h : Handle) :
  MapGet other (tenantOrmInstances tm) = Some h ->
  let o := run w (getTenantORM env schemaPath tenantId) past tm in
  MapGet other (tenantOrmInstances (final o)) = Some h.
Proof.
  intros Hother o.
  destruct (getTenantORM_final env schemaPath w tenantId past tm)
    as [H | [[b H] | [b [orm [Hun [_ H]]]]]]; fold o in H; rewrite H; simpl.
  - exact Hother.
  - exact Hother.
  - rewrite MapGet_MapSet_other; [exact Hother |].
    intros ->. congruence.
Qed.

(** X4: the cache grows by at most the one tenant that was asked for, at
    its end, and only when the call returns; no tenant is ever listed
    twice. *)
Theorem getTenantORM_cache_keys tenantId past tm :
  let o := run w (getTenantORM env schemaPath tenantId) past tm in
  (cachedTenants (final o) = cachedTenants tm \/
   (cachedTenants (final o) = cachedTenants tm ++ [tenantId] /\
    ~ In tenantId (cachedTenants tm) /\
    exists orm, result o = Returned orm)) /\
  (NoDup (cachedTenants tm) -> NoDup (cachedTenants (final o))).
Proof.
  intros o. unfold cachedTenants.
  destruct (getTenantORM_final env schemaPath w tenantId past tm)
    as [H | [[b H] | [b [orm [Hun [Hres H]]]]]]; fold o in H;
    try fold o in Hres; rewrite H; simpl.
  - split; [left; reflexivity | auto].
  - split; [left; reflexivity | auto].
  - rewrite (MapSet_keys_absent _ _ _ Hun).
    apply MapGet_In_keys in Hun. split.
    + right. repeat split; [exact Hun | exists orm; exact Hres].
    + intros Hnd. apply NoDup_app; [exact Hnd | repeat constructor; simpl; tauto |].
      intros x Hx [<- | []]. contradiction.
Qed.

End Manager.

(** A handle that a call returns is the one the cache holds afterwards. *)
Lemma getTenantORM_returns_cached env schemaPath (w : World)
  tenantId past tm orm :
  let o := run w (getTenantORM env schemaPath tenantId) past tm in
  result o = Returned orm ->
  MapGet tenantId (tenantOrmInstances (final o)) = Some orm.
Proof.
  intros o Hres.
  destruct (MapGet tenantId (tenantOrmInstances tm)) as [orm0 |] eqn:Hget.
  - unfold o in *.
    rewrite (run_getTenantORM_cached env schemaPath w _ _ _ _ Hget) in *.
    simpl in *. injection Hres as <-. exact Hget.
  - destruct (getTenantORM_final env schemaPath w tenantId past tm)
      as [H | [[b H] | [b [orm0 [_ [Hres0 H]]]]]]; fold o in H.
    + pose proof (run_getTenantORM_uncached env schemaPath w tenantId past tm
                    Hget) as HP.
      fold o in HP.
      destruct HP as [e0 B | b bEvs cEvs e0 HB HC
                     | b orm0 bEvs cEvs sEvs HB HC HS]; simpl in *;
        try discriminate.
      injection Hres as <-. apply MapGet_MapSet_same.
    + pose proof (run_getTenantORM_uncached env schemaPath w tenantId past tm
                    Hget) as HP.
      fold o in HP.
      destruct HP as [e0 B | b0 bEvs cEvs e0 HB HC
                     | b0 orm0 bEvs cEvs sEvs HB HC HS]; simpl in *;
        try discriminate.
      injection Hres as <-. apply MapGet_MapSet_same.
    + fold o in Hres0. rewrite Hres in Hres0. injection Hres0 as <-.
      rewrite H. simpl. apply MapGet_MapSet_same.
Qed.

(** The sweep of [closeConnections]: the manager is as before; it returns
    after closing every handle, or throws at the first rejected close. *)
Lemma run_closeConnections (w : World) past tm :
  let o := run w closeConnections past tm in
  final o = tm /\
  match result o with
  | Returned _ => trace o = map closed (handlesToClose tm)
  | Threw e =>
      exists done h rest,
        handlesToClose tm = done ++ h :: rest /\
        trace o = map closed done ++ [EvClose h (Rejected e)]
  end.
Proof.
  unfold closeConnections, handlesToClose. simpl.
  destruct (baseOrm tm) as [b |] eqn:B; simpl.
  - destruct (w unit past (orm_close b)) as [[] | e] eqn:E; simpl.
    + destruct (run_close_loop w (tenantOrmInstances tm)
                  (past ++ [EvClose b (Fulfilled tt)]) tm) as [Hfin Hres].
      split; [exact Hfin |].
      destruct (result (run w (forOf (tenantOrmInstances tm) _) _ tm))
        as [u | e].
      * rewrite Hres. reflexivity.
      * destruct Hres as [done [h [rest [Hsplit Htr]]]].
        exists (b :: done), h, rest. rewrite Hsplit, Htr. split; reflexivity.
    + split; [reflexivity |].
      exists [], b, (map snd (tenantOrmInstances tm)). split; reflexivity.
  - destruct (run_close_loop w (tenantOrmInstances tm) past tm)
      as [Hfin Hres].
    split; [exact Hfin |].
    destruct (result (run w (forOf (tenantOrmInstances tm) _) _ tm))
      as [u | e]; exact Hres.
Qed.

Ltac never_emits :=
  repeat first
    [ apply OnlyEmits_bind | apply OnlyEmits_try_catch
    | apply OnlyEmits_forOf | apply OnlyEmits_await | apply OnlyEmits_call
    | progress intros | progress simpl | exact I | reflexivity | split
    | match goal with |- OnlyEmits _ (settle _ ?r) => destruct r end
    | match goal with |- context [match ?x with _ => _ end] => destruct x end ].

Lemma no_close_events (evs : list Event) :
  Forall (fun ev => closeAttempts [ev] = []) evs -> closeAttempts evs = [].
Proof.
  induction 1 as [| ev evs Hev _ IH]; [reflexivity |].
  destruct ev; simpl in *; try discriminate; exact IH.
Qed.

Section Serving.

Variable env : Env.
Variable schemaPath : string.
Variable w : World.

(** X5: serving a request never closes a handle: whatever the request and
    the world, the middleware, and the provisioning it starts, call
    [close()] on nothing. *)
Theorem tenantMiddleware_never_closes (req : Request) past tm :
  closeAttempts (trace (run w (tenantMiddleware env schemaPath req) past tm))
  = [].
Proof.
  apply no_close_events. apply OnlyEmits_run.
  unfold tenantMiddleware, getTenantORM, getBaseORM. never_emits.
Qed.

(** X6: [closeConnections] closes the cached handles but leaves them in
    the cache: after a sweep that returned, [getTenantORM] still answers
    for a cached tenant with the handle that has just been closed, and
    opens nothing. *)
Theorem closeConnections_keeps_closed_handles_cached
  tenantId (h : Handle) past tm (w' : World) past' :
  MapGet tenantId (tenantOrmInstances tm) = Some h ->
  let o := run w closeConnections past tm in
  result o = Returned tt ->
  In h (closeAttempts (trace o)) /\
  run w' (getTenantORM env schemaPath tenantId) past' (final o) =
  mkOutcome [] (final o) (Returned h).
Proof.
  intros Hget o Hres.
  destruct (run_closeConnections w past tm) as [Hfin Hshape].
  fold o in Hfin, Hshape. rewrite Hres in Hshape. split.
  - rewrite Hshape, closeAttempts_closed. unfold handlesToClose.
    apply in_or_app. right. apply (MapGet_In_values _ _ _ Hget).
  - apply run_getTenantORM_cached. rewrite Hfin. exact Hget.
Qed.

(** X7: for a tenant that is cached, the middleware does no I/O at all:
    it calls [next()] with the cached handle attached, and the manager is
    unchanged. *)
Theorem tenantMiddleware_cached_tenant (req : Request) tenantId
  (h : Handle) past tm :
  Resolve req = Resolved tenantId ->
  MapGet tenantId (tenantOrmInstances tm) = Some h ->
  run w (tenantMiddleware env schemaPath req) past tm =
  mkOutcome [EvNext tenantId h] tm (Returned tt).
Proof.
  intros HR Hget. rewrite run_tenantMiddleware, HR.
  rewrite (run_getTenantORM_cached env schemaPath w _ _ _ _ Hget).
  reflexivity.
Qed.

(** X8: the middleware does at most one of two things, answer (with 400
    or 500) or call [next()].  It throws, having done neither and with
    the manager untouched, exactly when the request has neither a
    non-empty tenant header nor a host; for every other request it returns
    and has done exactly one of the two, and when it has called [next()]
    the handle it attached is the one cached for the tenant it resolved. *)
Theorem tenantMiddleware_answers_or_forwards (req : Request) past tm :
  let o := run w (tenantMiddleware env schemaPath req) past tm in
  let noSource :=
    (x_tenant_id req = None \/ x_tenant_id req = Some "") /\
    hostname req = None in
  (noSource /\ o = mkOutcome [] tm (Threw undefinedHostname)) \/
  (~ noSource /\
   result o = Returned tt /\
   ((exists status message,
       responses (trace o) = [(status, message)] /\ forwards (trace o) = [] /\
       (status = 400 \/ status = 500)) \/
    (exists tenantId h,
       responses (trace o) = [] /\ forwards (trace o) = [(tenantId, h)] /\
       Resolve req = Resolved tenantId /\
       MapGet tenantId (tenantOrmInstances (final o)) = Some h))).
Proof.
  intros o noSource. unfold o. rewrite run_tenantMiddleware.
  destruct (Resolve req) as [tenantId | | error] eqn:HR.
  - right. split.
    { intros [Hhdr Hhost].
      destruct (request_without_tenant_source_throws env schemaPath w req
                  past tm Hhdr Hhost) as [HT _].
      congruence. }
    destruct (forwarded_answers env schemaPath w tenantId past tm)
      as [Hr Hf].
    pose proof (getTenantORM_returns_cached env schemaPath w tenantId past tm)
      as Hc.
    cbv zeta in Hc. unfold forwarded in *.
    destruct (result (run w (getTenantORM env schemaPath tenantId) past tm))
      as [h | e]; simpl in *.
    + split; [reflexivity |]. right. exists tenantId, h.
      repeat split; try assumption. apply Hc. reflexivity.
    + split; [reflexivity |]. left.
      exists 500, "Error initializing tenant context".
      repeat split; try assumption. right. reflexivity.
  - right. split.
    { intros [Hhdr Hhost].
      destruct (request_without_tenant_source_throws env schemaPath w req
                  past tm Hhdr Hhost) as [HT _].
      congruence. }
    split; [reflexivity |]. left.
    exists 400, "Tenant identification required".
    repeat split. left. reflexivity.
  - left. apply Resolve_Thrown in HR. destruct HR as [Hsrc ->].
    split; [exact Hsrc | reflexivity].
Qed.

(** X9: when the catalog already lists the database of an uncached
    tenant, no CREATE DATABASE is sent: the connect attempt comes right
    after the check. *)
Theorem existing_database_is_not_created
  tenantId past tm baseEvs tm1 (b : Handle) (rows : Rows) :
  MapGet tenantId (tenantOrmInstances tm) = None ->
  run w (getBaseORM env) past tm = mkOutcome baseEvs tm1 (Returned b) ->
  w _ (past ++ baseEvs) (execute b existsSql [tenantDb tenantId])
    = Fulfilled rows ->
  List.length rows <> 0 ->
  let o := run w (getTenantORM env schemaPath tenantId) past tm in
  exists connect rest,
    trace o =
      baseEvs
      ++ EvExecute b existsSql [tenantDb tenantId] (Fulfilled rows)
      :: EvInit (tenantOptions env tenantId) connect
      :: rest.
Proof.
  intros Hun Hbase Hc Hlen o.
  unfold o. rewrite (run_getTenantORM_provision env schemaPath w _ _ _ Hun).
  destruct (run_provisionTenant_after_base env schemaPath w tenantId past tm
              baseEvs tm1 b Hbase) as [connect [rest [Htr _]]].
  rewrite Htr. unfold ensureDatabase. simpl. rewrite Hc. simpl.
  apply Nat.eqb_neq in Hlen. rewrite Hlen. simpl.
  exists connect, rest. reflexivity.
Qed.

(** X10: [runInTenantContext] runs the callback only when [getTenantORM]
    has returned, on the handle that is then cached for the tenant, after
    the events of [getTenantORM]; when [getTenantORM] throws, the callback
    is not run and the error is the one of [getTenantORM]. *)
Theorem runInTenantContext_runs_callback_on_cached_handle
  {T : Type} tenantId (callback : Handle -> Task T) past tm :
  let registry := run w (getTenantORM env schemaPath tenantId) past tm in
  let o := run w (runInTenantContext env schemaPath tenantId callback)
               past tm in
  match result registry with
  | Returned orm =>
      let called :=
        run w (callback orm) (past ++ trace registry) (final registry) in
      MapGet tenantId (tenantOrmInstances (final registry)) = Some orm /\
      o = mkOutcome (trace registry ++ trace called) (final called)
            (result called)
  | Threw e => o = mkOutcome (trace registry) (final registry) (Threw e)
  end.
Proof.
  intros registry o. unfold o, runInTenantContext. rewrite run_bind.
  fold registry.
  pose proof (getTenantORM_returns_cached env schemaPath w tenantId past tm)
    as Hc.
  cbv zeta in Hc. fold registry in Hc.
  destruct (result registry) as [orm | e]; [| reflexivity].
  split; [apply Hc; reflexivity | reflexivity].
Qed.

(** X11: the signal handler closes the handles of the manager and then
    the handle [bootstrap] opened, in that order, and only then is
    [process.exit(0)] reached; a close that is rejected ends the handler
    at once: the handles after it stay open and the process is not
    exited. *)
Theorem onSignal_closes_all_or_stops (signal : string) (orm : Handle)
  past tm :
  let o := run w (onSignal signal orm) past tm in
  let line :=
    EvConsole LOG [(signal ++ " received, shutting down...")%string] in
  match result o with
  | Returned code =>
      code = 0 /\
      trace o = line :: map closed (handlesToClose tm ++ [orm])
  | Threw e =>
      exists done h rest,
        handlesToClose tm ++ [orm] = done ++ h :: rest /\
        trace o = line :: map closed done ++ [EvClose h (Rejected e)]
  end.
Proof.
  intros o line. unfold o, onSignal. rewrite run_console_bind.
  set (past1 := past ++ _).
  destruct (run_closeConnections w past1 tm) as [Hfin Hshape].
  rewrite run_bind.
  destruct (result (run w closeConnections past1 tm)) as [u | e] eqn:Hres.
  - cbv zeta. rewrite Hfin, Hshape. rewrite run_await_bind.
    destruct (w unit _ (orm_close orm)) as [[] | e]; simpl.
    + split; [reflexivity |]. rewrite map_app. reflexivity.
    + exists (handlesToClose tm), orm, []. split; [reflexivity |].
      reflexivity.
  - destruct Hshape as [done [h [rest [Hsplit Htr]]]]. cbv zeta.
    rewrite Htr. simpl.
    exists done, h, (rest ++ [orm]). rewrite Hsplit.
    rewrite <- app_assoc. split; reflexivity.
Qed.

End Serving.

(* ===================================================================== *)
(** ** Further properties of the derived identifiers and of the script    *)
(* ===================================================================== *)

Lemma toLowerCase_fixed (s : string) :
  string_forallb (fun c => negb (Js.is_upper c)) s = true ->
  Js.toLowerCase s = s.
Proof.
  induction s as [| c s IH]; simpl; [reflexivity |].
  intros H. apply andb_true_iff in H. destruct H as [Hc Hs].
  unfold Js.lower_char. apply negb_true_iff in Hc. rewrite Hc, IH by exact Hs.
  reflexivity.
Qed.

Lemma replace_space_runs_fixed (s : string) :
  string_forallb (fun c => negb (Js.is_space c)) s = true ->
  forall in_run, Js.replace_space_runs in_run s = s.
Proof.
  induction s as [| c s IH]; simpl; [reflexivity |].
  intros H in_run. apply andb_true_iff in H. destruct H as [Hc Hs].
  apply negb_true_iff in Hc. rewrite Hc, IH by exact Hs. reflexivity.
Qed.

Lemma string_forallb_impl (p q : ascii -> bool) (s : string) :
  (forall c, p c = true -> q c = true) ->
  string_forallb p s = true -> string_forallb q s = true.
Proof.
  intros Hpq. induction s as [| c s IH]; simpl; [reflexivity |].
  intros H. apply andb_true_iff in H. destruct H as [Hc Hs].
  rewrite (Hpq _ Hc), IH by exact Hs. reflexivity.
Qed.

Lemma tenantIdOfName_clean (name : string) :
  string_forallb (fun c => negb (Js.is_space c) && negb (Js.is_upper c))
    (tenantIdOfName name) = true.
Proof.
  unfold tenantIdOfName. apply replace_space_runs_clean.
  apply toLowerCase_no_upper.
Qed.

(** X12: deriving the identifier is idempotent: an identifier that the
    route has derived is its own identifier. *)
Theorem tenantIdOfName_idempotent (name : string) :
  tenantIdOfName (tenantIdOfName name) = tenantIdOfName name.
Proof.
  pose proof (tenantIdOfName_clean name) as H.
  unfold tenantIdOfName at 1.
  rewrite toLowerCase_fixed.
  - apply replace_space_runs_fixed.
    revert H. apply string_forallb_impl.
    intros c Hc. apply andb_true_iff in Hc. tauto.
  - revert H. apply string_forallb_impl.
    intros c Hc. apply andb_true_iff in Hc. tauto.
Qed.

(** X13: the identifier is empty only for the empty name: a name that
    passes the handler's [!name] test always gives an identifier that
    passes the middleware's [!tenantId] test. *)
Theorem tenantIdOfName_nonempty (name : string) :
  (tenantIdOfName name = "" <-> name = "") /\
  Js.truthy (tenantIdOfName name) = Js.truthy name.
Proof.
  assert (Hiff : tenantIdOfName name = "" <-> name = "").
  { unfold tenantIdOfName. destruct name as [| c name]; simpl.
    - tauto.
    - destruct (Js.is_space (Js.lower_char c)); split; discriminate. }
  split; [exact Hiff |].
  - unfold Js.truthy.
    destruct (String.eqb_spec (tenantIdOfName name) "") as [E | E];
      destruct (String.eqb_spec name "") as [E' | E']; try reflexivity;
      exfalso; tauto.
Qed.

Lemma space_not_alnum c : Js.is_space c = true -> is_lower_alnum c = false.
Proof.
  destruct c as [[] [] [] [] [] [] [] []]; vm_compute; intros H;
    first [reflexivity | discriminate H].
Qed.

(** X14: on a name made of the letters a to z and A to Z, of digits, and
    of white space that comes one code unit at a time, the route derives
    the identifier that the handler of the tutorial derives: lower case,
    with a dash for every code unit that is not alphanumeric. *)
Theorem tenantIdOfName_agrees_on_plain_names (name : string) :
  plain_name false name = true ->
  tenantIdOfName name = tenantIdOfName_spec name.
Proof.
  unfold tenantIdOfName, tenantIdOfName_spec.
  generalize false as in_run.
  induction name as [| c name IH]; intros in_run H; simpl in *;
    [reflexivity |].
  rewrite lower_char_space.
  destruct (Js.is_space c) eqn:Sp.
  - apply andb_true_iff in H. destruct H as [Hrun Hrest].
    apply negb_true_iff in Hrun. subst in_run.
    rewrite space_not_alnum by (rewrite lower_char_space; exact Sp).
    rewrite (IH true Hrest). reflexivity.
  - apply andb_true_iff in H. destruct H as [Hal Hrest].
    rewrite Hal, (IH false Hrest). reflexivity.
Qed.

Lemma tenantIdOfName_agrees_on_plain_names_witness :
  plain_name false "Green Valley Coop 7" = true /\
  tenantIdOfName "Green Valley Coop 7" =
  tenantIdOfName_spec "Green Valley Coop 7".
Proof.
  split; [reflexivity |].
  apply (tenantIdOfName_agrees_on_plain_names "Green Valley Coop 7").
  reflexivity.
Defined.

(** *** The statements of a script *)

Lemma trimStart_blank (s : string) :
  string_forallb Js.is_space s = true -> Js.trimStart s = "".
Proof.
  induction s as [| c s IH]; simpl; [reflexivity |].
  intros H. apply andb_true_iff in H. destruct H as [Hc Hs].
  rewrite Hc. apply IH. exact Hs.
Qed.

Lemma string_forallb_app (p : ascii -> bool) (a b : string) :
  string_forallb p (a ++ b)%string =
  string_forallb p a && string_forallb p b.
Proof.
  induction a as [| c a IH]; simpl; [reflexivity |].
  rewrite IH, andb_assoc. reflexivity.
Qed.

Lemma trim_blank (s : string) :
  Js.trim s = "" <-> string_forallb Js.is_space s = true.
Proof.
  split.
  - intros E. destruct (trim_spec s) as [pre [post [Heq [Hpre [Hpost _]]]]].
    rewrite E in Heq. rewrite Heq. simpl.
    rewrite string_forallb_app, Hpre, Hpost. reflexivity.
  - intros H. unfold Js.trim. rewrite (trimStart_blank _ H). reflexivity.
Qed.

Lemma split_blank_pieces (s : string) :
  Forall (fun piece => string_forallb Js.is_space piece = true)
         (Js.split ";" s) <->
  string_forallb (fun c => Js.is_space c || Ascii.eqb c ";") s = true.
Proof.
  induction s as [| c s IH]; simpl.
  - split; [reflexivity | intros _; repeat constructor].
  - destruct (Ascii.eqb_spec c ";") as [-> | Hc].
    + rewrite orb_true_r. cbn [andb]. rewrite <- IH. split.
      * intros H. inversion H; assumption.
      * intros H. constructor; [reflexivity | exact H].
    + rewrite orb_false_r.
      pose proof (split_not_nil ";" s) as Hne.
      destruct (Js.split ";" s) as [| p ps]; [contradiction |].
      split.
      * intros H. inversion H as [| ? ? Hp Hps]; subst. simpl in Hp.
        apply andb_true_iff in Hp. destruct Hp as [Hc1 Hp].
        rewrite Hc1. simpl. apply IH. constructor; assumption.
      * intros H. apply andb_true_iff in H. destruct H as [Hc1 H].
        apply IH in H. inversion H as [| ? ? Hp Hps]; subst.
        constructor; [simpl; rewrite Hc1, Hp; reflexivity | exact Hps].
Qed.

(** X15: a script has no statement exactly when it holds nothing but
    white space and semicolons; the empty script is one of these, and for
    them the fallback sends nothing to the database. *)
Theorem statementsOf_nil_iff_blank (schema : string) :
  statementsOf schema = [] <->
  string_forallb (fun c => Js.is_space c || Ascii.eqb c ";") schema = true.
Proof.
  rewrite <- split_blank_pieces. unfold statementsOf.
  induction (Js.split ";" schema) as [| p ps IH]; simpl.
  - split; [constructor | reflexivity].
  - destruct (Js.trim p) as [| c t] eqn:E; simpl.
    + rewrite IH. apply trim_blank in E. split.
      * intros H. constructor; assumption.
      * intros H. inversion H; assumption.
    + split; [discriminate |].
      intros H. inversion H as [| ? ? Hp _]; subst.
      apply trim_blank in Hp. congruence.
Qed.

(** *** Database names and tenant identifiers *)

Lemma substring_all (s : string) :
  String.substring 0 (String.length s) s = s.
Proof. induction s as [| c s IH]; simpl; [| rewrite IH]; reflexivity. Qed.

Lemma prefix_split (p s : string) :
  String.prefix p s = true -> exists rest, s = (p ++ rest)%string.
Proof.
  revert s. induction p as [| c p IH]; intros s H.
  - exists s. reflexivity.
  - destruct s as [| d s]; simpl in H; [discriminate |].
    destruct (ascii_dec c d) as [-> | Hne]; [| discriminate].
    destruct (IH s H) as [rest ->]. exists rest. reflexivity.
Qed.

Lemma tenantIdOfDb_tenantDb (tenantId : string) :
  tenantIdOfDb (tenantDb tenantId) = tenantId.
Proof.
  unfold tenantIdOfDb, tenantDb. simpl.
  assert (String.prefix "" tenantId = true) as ->
    by (destruct tenantId; reflexivity).
  rewrite ?Nat.sub_0_r. apply substring_all.
Qed.

(** X16: the identifier that test-migrations.ts derives from a database
    name leads [getTenantORM] back to that database: for the database of
    a tenant the derived identifier is that tenant, and for every name
    that starts with [tenant_] the database of the derived identifier is
    the name itself. *)
Theorem tenantIdOfDb_round_trip (database : string) :
  String.prefix "tenant_" database = true ->
  tenantDb (tenantIdOfDb database) = database /\
  forall env,
    dbName (tenantOptions env (tenantIdOfDb database)) = database.
Proof.
  intros H. destruct (prefix_split _ _ H) as [rest ->].
  change ("tenant_" ++ rest)%string with (tenantDb rest).
  rewrite tenantIdOfDb_tenantDb. split; [reflexivity |].
  intros env. reflexivity.
Qed.

Lemma tenantIdOfDb_round_trip_witness :
  String.prefix "tenant_" "tenant_green-valley-co-op" = true /\
  tenantDb (tenantIdOfDb "tenant_green-valley-co-op") =
  "tenant_green-valley-co-op".
Proof.
  split; [reflexivity |].
  apply (tenantIdOfDb_round_trip "tenant_green-valley-co-op"). reflexivity.
Defined.

(* ===================================================================== *)
(** ** The properties above on the concrete cluster                       *)
(* ===================================================================== *)

(** X1 on a fresh cluster: the first call opens the base database and
    returns handle 0; the next call, on a cluster that has become
    unreachable, returns handle 0 in its first stretch. *)
Lemma getBaseORM_opens_once_witness :
  let o := run (cluster sampleSchema noFaults) (getBaseORM defaultEnv)
               [] newTenantManager in
  result o = Returned 0 /\
  baseOrm (final o) = Some 0 /\
  advance (cluster sampleSchema tenantsUnreachable) (getBaseORM defaultEnv)
      (trace o) (final o) =
  ([], final o, Return 0) /\
  run (cluster sampleSchema tenantsUnreachable) (getBaseORM defaultEnv)
      (trace o) (final o) =
  mkOutcome [] (final o) (Returned 0).
Proof.
  cbv zeta. split; [reflexivity |].
  apply (proj2 (getBaseORM_opens_once defaultEnv
                  (cluster sampleSchema noFaults)
                  [] newTenantManager 0
                  (cluster sampleSchema tenantsUnreachable)
                  [EvInit (baseOptions defaultEnv) (Fulfilled 0)])).
  reflexivity.
Defined.

(** X3 on a manager with three tenants, asked for a fourth. *)
Lemma getTenantORM_keeps_entries_witness :
  let o := run (cluster sampleSchema noFaults)
               (getTenantORM defaultEnv appSchemaPath "acme")
               [] threeTenants in
  MapGet "b" (tenantOrmInstances threeTenants) = Some 2 /\
  MapGet "b" (tenantOrmInstances (final o)) = Some 2.
Proof.
  cbv zeta. split; [reflexivity |].
  apply (getTenantORM_keeps_entries defaultEnv appSchemaPath
           (cluster sampleSchema noFaults) "acme" [] threeTenants "b" 2).
  reflexivity.
Defined.

(** X4 on a manager with three tenants, asked for a fourth. *)
Lemma getTenantORM_cache_keys_witness :
  let o := run (cluster sampleSchema noFaults)
               (getTenantORM defaultEnv appSchemaPath "acme")
               [] threeTenants in
  NoDup (cachedTenants threeTenants) /\
  NoDup (cachedTenants (final o)).
Proof.
  cbv zeta.
  assert (H : NoDup (cachedTenants threeTenants)).
  { repeat constructor; simpl; intuition discriminate. }
  split; [exact H |].
  apply (proj2 (getTenantORM_cache_keys defaultEnv appSchemaPath
                  (cluster sampleSchema noFaults) "acme" [] threeTenants)).
  exact H.
Defined.

(** X6 on a manager with three tenants. *)
Lemma closeConnections_keeps_closed_handles_cached_witness :
  let o := run (cluster sampleSchema noFaults) closeConnections
               [] threeTenants in
  MapGet "b" (tenantOrmInstances threeTenants) = Some 2 /\
  result o = Returned tt /\
  In 2 (closeAttempts (trace o)) /\
  run (cluster sampleSchema noFaults)
      (getTenantORM defaultEnv appSchemaPath "b") (trace o) (final o) =
  mkOutcome [] (final o) (Returned 2).
Proof.
  cbv zeta. split; [reflexivity |]. split; [reflexivity |].
  apply (closeConnections_keeps_closed_handles_cached
           defaultEnv appSchemaPath (cluster sampleSchema noFaults)
           "b" 2 [] threeTenants).
  - reflexivity.
  - reflexivity.
Defined.

(** X7 on a request with the header of a cached tenant. *)
Lemma tenantMiddleware_cached_tenant_witness :
  let req := mkRequest (Some "b") (Some "localhost") in
  Resolve req = Resolved "b" /\
  MapGet "b" (tenantOrmInstances threeTenants) = Some 2 /\
  run (cluster sampleSchema tenantsUnreachable)
      (tenantMiddleware defaultEnv appSchemaPath req) [] threeTenants =
  mkOutcome [EvNext "b" 2] threeTenants (Returned tt).
Proof.
  cbv zeta. split; [reflexivity |]. split; [reflexivity |].
  apply (tenantMiddleware_cached_tenant defaultEnv appSchemaPath
           (cluster sampleSchema tenantsUnreachable)
           (mkRequest (Some "b") (Some "localhost")) "b" 2 [] threeTenants);
    reflexivity.
Defined.

(** X9 on a cluster where [tenant_acme] was created before. *)
Lemma existing_database_is_not_created_witness :
  let w := cluster sampleSchema noFaults in
  let past := [EvExecute 7 "CREATE DATABASE tenant_acme" [] (Fulfilled [])] in
  let o := run w (getTenantORM defaultEnv appSchemaPath "acme")
               past newTenantManager in
  run w (getBaseORM defaultEnv) past newTenantManager =
    mkOutcome [EvInit (baseOptions defaultEnv) (Fulfilled 1)]
      (set_baseOrm 1 newTenantManager) (Returned 1) /\
  executedSql (trace o) = [existsSql].
Proof.
  cbv zeta. split; [reflexivity |].
  destruct (existing_database_is_not_created
              defaultEnv appSchemaPath (cluster sampleSchema noFaults)
              "acme"
              [EvExecute 7 "CREATE DATABASE tenant_acme" [] (Fulfilled [])]
              newTenantManager
              [EvInit (baseOptions defaultEnv) (Fulfilled 1)]
              (set_baseOrm 1 newTenantManager) 1 [["1"]])
    as [connect [rest _]].
  - reflexivity.
  - reflexivity.
  - reflexivity.
  - discriminate.
  - reflexivity.
Defined.

(* ===================================================================== *)
(** ** The organization routes                                            *)
(* ===================================================================== *)

Lemma sent_app (xs ys : list RouteEvent) : sent (xs ++ ys) = sent xs ++ sent ys.
Proof.
  induction xs as [| ev xs IH]; simpl; [reflexivity |].
  destruct ev; simpl; rewrite ?IH; reflexivity.
Qed.

Lemma persisted_app (xs ys : list RouteEvent) :
  persisted (xs ++ ys) = persisted xs ++ persisted ys.
Proof.
  induction xs as [| ev xs IH]; simpl; [reflexivity |].
  destruct ev; simpl; rewrite ?IH; reflexivity.
Qed.

Lemma removed_app (xs ys : list RouteEvent) :
  removed (xs ++ ys) = removed xs ++ removed ys.
Proof.
  induction xs as [| ev xs IH]; simpl; [reflexivity |].
  destruct ev; simpl; rewrite ?IH; reflexivity.
Qed.

Lemma lookups_app (xs ys : list RouteEvent) :
  lookups (xs ++ ys) = lookups xs ++ lookups ys.
Proof.
  induction xs as [| ev xs IH]; simpl; [reflexivity |].
  destruct ev; simpl; rewrite ?IH; reflexivity.
Qed.

Lemma coreEvents_app (xs ys : list RouteEvent) :
  coreEvents (xs ++ ys) = coreEvents xs ++ coreEvents ys.
Proof.
  induction xs as [| ev xs IH]; simpl; [reflexivity |].
  destruct ev; simpl; rewrite ?IH; reflexivity.
Qed.

(** The events of a call on the manager hold no answer and no call on an
    entity manager. *)
Lemma core_events_only (evs : list Event) :
  sent (map Core evs) = [] /\ persisted (map Core evs) = [] /\
  removed (map Core evs) = [] /\ lookups (map Core evs) = [] /\
  coreEvents (map Core evs) = evs.
Proof.
  induction evs as [| ev evs [Hs [Hp [Hr [Hl Hc]]]]]; simpl;
    [repeat split | rewrite Hc; repeat split; assumption].
Qed.

Lemma In_map_Core (ev : RouteEvent) (evs : list Event) :
  In ev (map Core evs) -> exists e, ev = Core e.
Proof.
  intros H. apply in_map_iff in H. destruct H as [e [<- _]].
  exists e. reflexivity.
Qed.

(** Case analysis over everything the world can answer to a handler. *)
Ltac answers :=
  repeat (simpl;
    match goal with
    | |- context [run ?w ?t ?p ?tm] =>
        let evs := fresh "evs" in
        let tm' := fresh "tm'" in
        let Hrun := fresh "Hrun" in
        destruct (run w t p tm) as [evs tm' [? | ?]] eqn:Hrun
    | |- context [answer ?rw ?R ?p ?c] =>
        let Hans := fresh "Hans" in
        destruct (answer rw R p c) as [? | ?] eqn:Hans
    | |- context [match ?x with _ => _ end] => destruct x eqn:?
    end).

Lemma sent_core evs : sent (map Core evs) = [].
Proof. apply core_events_only. Qed.

Lemma persisted_core evs : persisted (map Core evs) = [].
Proof. apply core_events_only. Qed.

Lemma removed_core evs : removed (map Core evs) = [].
Proof. apply core_events_only. Qed.

Lemma lookups_core evs : lookups (map Core evs) = [].
Proof. apply core_events_only. Qed.

Lemma coreEvents_core evs : coreEvents (map Core evs) = evs.
Proof. apply core_events_only. Qed.

Ltac projections :=
  unfold hprepend;
  repeat progress
    (simpl;
     rewrite ?sent_app, ?persisted_app, ?removed_app, ?lookups_app,
       ?coreEvents_app, ?sent_core, ?persisted_core, ?removed_core,
       ?lookups_core, ?coreEvents_core).

Section OrganizationRouteAnswers.

Variable env : Env.
Variable schemaPath : string.
Variable rw : RouteWorld.

(** X17: each of the five handlers, whatever the request and whatever
    the database does, never throws and sends exactly one answer. *)
Theorem organization_handlers_answer_once (req : OrgRequest) past tm :
  Forall (fun handler =>
            let o := hrun rw (handler req) past tm in
            hresult o = Returned tt /\ List.length (sent (htrace o)) = 1)
    [getOrganizations env; getOrganization env;
     postOrganization env schemaPath; putOrganization env;
     deleteOrganization env].
Proof.
  remember (getBaseORM env) as base eqn:Hbase.
  remember (getTenantORM env schemaPath) as provision eqn:Hprovision.
  repeat first [apply Forall_cons | apply Forall_nil];
    cbv zeta;
    unfold getOrganizations, getOrganization, postOrganization,
      putOrganization, deleteOrganization;
    rewrite <- ?Hbase, <- ?Hprovision;
    answers; (split; [reflexivity | projections; reflexivity]).
Qed.

End OrganizationRouteAnswers.

Lemma base_run_facts env (w : World) past tm evs tm' (r : Completion Handle) :
  run w (getBaseORM env) past tm = mkOutcome evs tm' r ->
  tenantOrmInstances tm' = tenantOrmInstances tm /\
  executedSql evs = [] /\ closeAttempts evs = [].
Proof.
  intros H.
  destruct (run_getBaseORM env w past tm) as [[e [_ H']] | [b [bEvs [HB H']]]];
    rewrite H in H'; injection H' as -> -> ->.
  - repeat split.
  - destruct HB; repeat split.
Qed.

Lemma provision_run_facts env schemaPath (w : World) tenantId past tm
  evs tm' (orm : Handle) :
  run w (getTenantORM env schemaPath tenantId) past tm
    = mkOutcome evs tm' (Returned orm) ->
  MapGet tenantId (tenantOrmInstances tm') = Some orm.
Proof.
  intros H.
  pose proof (getTenantORM_returns_cached env schemaPath w tenantId past tm
                orm) as Hc.
  cbv zeta in Hc. rewrite H in Hc. apply Hc. reflexivity.
Qed.

Lemma executedSql_app (xs ys : list Event) :
  executedSql (xs ++ ys) = executedSql xs ++ executedSql ys.
Proof.
  induction xs as [| ev xs IH]; simpl; [reflexivity |].
  destruct ev; simpl; rewrite ?IH; reflexivity.
Qed.

(** Membership in the trace of a handler, by position. *)
Ltac crack H :=
  repeat (simpl in H;
    match type of H with
    | In _ (_ ++ _) => apply in_app_or in H; destruct H as [H | H]
    | In _ (map Core _) =>
        apply In_map_Core in H; destruct H as [? H]; discriminate H
    | _ \/ _ => destruct H as [H | H]
    | False => contradiction
    | _ = _ => first [discriminate H | inversion H; subst; clear H]
    end).

Section OrganizationRouteProperties.

Variable env : Env.
Variable schemaPath : string.
Variable rw : RouteWorld.

(** All the cases of a handler, with the calls on the manager kept as
    they are written. *)
Ltac handler_cases :=
  let base := fresh "base" in
  let provision := fresh "provision" in
  let Hbase := fresh "Hbase" in
  let Hprovision := fresh "Hprovision" in
  remember (getBaseORM env) as base eqn:Hbase;
  remember (getTenantORM env schemaPath) as provision eqn:Hprovision;
  answers; unfold hprepend; subst base provision.

(** The same for the handlers that call [getBaseORM] only. *)
Ltac base_cases :=
  let base := fresh "base" in
  let Hbase := fresh "Hbase" in
  remember (getBaseORM env) as base eqn:Hbase;
  answers; unfold hprepend; subst base.

(** X18: a POST whose [name] or [farmType] is missing or falsy looks
    nothing up, stores nothing and provisions nothing; it is answered 400,
    but only after the base handle has been obtained: when that fails the
    answer is 500. *)
Theorem postOrganization_rejects_missing_fields
  (req : OrgRequest) (b : OrgBody) past tm :
  body req = Some b ->
  truthyValue (body_name b) = false \/
  truthyValue (body_farmType b) = false ->
  let base :=
    run (managerWorld rw past) (getBaseORM env) (coreEvents past) tm in
  let o := hrun rw (postOrganization env schemaPath req) past tm in
  lookups (htrace o) = [] /\
  persisted (htrace o) = [] /\
  tenantOrmInstances (hfinal o) = tenantOrmInstances tm /\
  sent (htrace o) =
    match result base with
    | Returned _ => [(400, Message "Name and farmType are required")]
    | Threw _ => [(500, Message "Error creating organization")]
    end.
Proof.
  intros Hb Hfalsy base o. unfold o, base, postOrganization. rewrite Hb.
  assert (Hcond : negb (truthyValue (body_name b))
                  || negb (truthyValue (body_farmType b)) = true).
  { destruct Hfalsy as [-> | ->]; [| rewrite orb_true_r]; reflexivity. }
  rewrite Hcond. handler_cases;
    match goal with
    | Hrun : run _ (getBaseORM env) _ _ = _ |- _ =>
        destruct (base_run_facts _ _ _ _ _ _ _ Hrun) as [Hmap _]
    end;
    projections; repeat split; exact Hmap.
Qed.

(** X19: a POST for a name that [findOne] finds is answered 409; nothing
    is stored and no tenant is provisioned. *)
Theorem postOrganization_conflict
  (req : OrgRequest) past tm em cond (existing : Organization) :
  let o := hrun rw (postOrganization env schemaPath req) past tm in
  In (EvFindOne em cond (Fulfilled (Some existing))) (htrace o) ->
  sent (htrace o) = [(409, Message "Organization already exists")] /\
  persisted (htrace o) = [] /\
  tenantOrmInstances (hfinal o) = tenantOrmInstances tm /\
  exists b, body req = Some b /\ cond = ByName (body_name b).
Proof.
  cbv zeta. unfold postOrganization.
  handler_cases; intros H; crack H.
  match goal with
  | Hrun : run _ (getBaseORM env) _ _ = _ |- _ =>
      destruct (base_run_facts _ _ _ _ _ _ _ Hrun) as [Hmap _]
  end.
  projections. repeat split; try assumption.
  eexists. split; reflexivity.
Qed.

(** X20: once a POST has stored the organization it never takes it back:
    when provisioning the tenant fails, or [name] is not a string, the
    answer is 500 and the organization stays stored; the answer is 201,
    with the identifier derived from the name, only when the tenant is
    cached under that identifier. *)
Theorem postOrganization_stores_before_provisioning
  (req : OrgRequest) past tm em (org saved : Organization) :
  let o := hrun rw (postOrganization env schemaPath req) past tm in
  In (EvPersistAndFlush em org (Fulfilled saved)) (htrace o) ->
  removed (htrace o) = [] /\
  exists b values,
    body req = Some b /\ org = newOrganization values b /\
    (sent (htrace o) = [(500, Message "Error creating organization")] \/
     exists s orm,
       body_name b = Str s /\
       sent (htrace o) = [(201, Created saved (tenantIdOfName s))] /\
       MapGet (tenantIdOfName s) (tenantOrmInstances (hfinal o)) = Some orm).
Proof.
  cbv zeta. unfold postOrganization.
  handler_cases; intros H; crack H;
    (split; [projections; reflexivity |]);
    eexists; eexists; (split; [reflexivity |]); (split; [reflexivity |]);
    projections;
    try (left; reflexivity).
  right.
  match goal with
  | Hrun : run _ (getTenantORM env schemaPath _) _ _ = _ |- _ =>
      pose proof (provision_run_facts _ _ _ _ _ _ _ _ _ Hrun) as Hc
  end.
  eexists. eexists. split; [eassumption |]. split; [reflexivity | exact Hc].
Qed.

(** X21: listing, reading, updating and deleting organizations leave the
    tenants alone: the tenant cache is as before, no SQL command is sent
    through a connection and no handle is closed.  In particular a DELETE
    drops no tenant database and keeps the tenant's handle cached. *)
Theorem organization_management_leaves_tenants_alone
  (req : OrgRequest) past tm :
  Forall (fun handler =>
            let o := hrun rw (handler req) past tm in
            tenantOrmInstances (hfinal o) = tenantOrmInstances tm /\
            executedSql (coreEvents (htrace o)) = [] /\
            closeAttempts (coreEvents (htrace o)) = [])
    [getOrganizations env; getOrganization env; putOrganization env;
     deleteOrganization env].
Proof.
  repeat first [apply Forall_cons | apply Forall_nil];
    cbv zeta;
    unfold getOrganizations, getOrganization, putOrganization,
      deleteOrganization;
    base_cases;
    try match goal with
    | Hrun : run _ (getBaseORM env) _ _ = _ |- _ =>
        destruct (base_run_facts _ _ _ _ _ _ _ Hrun) as [Hmap [Hsql Hclose]]
    end;
    projections;
    rewrite ?executedSql_app, ?closeAttempts_app, ?Hsql, ?Hclose;
    repeat split; try assumption.
Qed.

(** X22: what a PUT stores is the organization it found by the id of the
    request, changed by [applyUpdate]: the id and the creation date are
    kept, and a falsy [name] or [farmType] changes nothing, so that a PUT
    cannot blank them; the answer is the stored organization, or 500 when
    storing it fails. *)
Theorem putOrganization_stores_the_update
  (req : OrgRequest) past tm em (org : Organization)
  (r : Result Organization) :
  let o := hrun rw (putOrganization env req) past tm in
  In (EvPersistAndFlush em org r) (htrace o) ->
  exists b found,
    body req = Some b /\
    In (EvFindOne em (ById (params_id req)) (Fulfilled (Some found)))
       (htrace o) /\
    org = applyUpdate b found /\
    org_id org = org_id found /\
    org_createdAt org = org_createdAt found /\
    (truthyValue (body_name b) = false -> org_name org = org_name found) /\
    (truthyValue (body_farmType b) = false ->
     org_farmType org = org_farmType found) /\
    sent (htrace o) =
      match r with
      | Fulfilled saved => [(200, One saved)]
      | Rejected _ => [(500, Message "Error updating organization")]
      end.
Proof.
  cbv zeta. unfold putOrganization.
  base_cases; intros H; crack H;
    eexists; eexists; (split; [reflexivity |]);
    (split; [apply in_or_app; right; left; reflexivity |]);
    (split; [reflexivity |]); (split; [reflexivity |]);
    (split; [reflexivity |]);
    (split; [simpl; intros ->; reflexivity |]);
    (split; [simpl; intros ->; reflexivity |]);
    projections; reflexivity.
Qed.

(** X23: when [findOne] finds nothing, reading, updating and deleting by
    id are answered 404, and nothing is stored or removed. *)
Theorem organization_not_found
  (req : OrgRequest) past tm em cond :
  Forall (fun handler =>
            let o := hrun rw (handler req) past tm in
            In (EvFindOne em cond (Fulfilled None)) (htrace o) ->
            sent (htrace o) = [(404, Message "Organization not found")] /\
            persisted (htrace o) = [] /\ removed (htrace o) = [])
    [getOrganization env; putOrganization env; deleteOrganization env].
Proof.
  repeat first [apply Forall_cons | apply Forall_nil];
    cbv zeta;
    unfold getOrganization, putOrganization, deleteOrganization;
    base_cases; intros H; crack H; projections; repeat split.
Qed.

End OrganizationRouteProperties.

(* ===================================================================== *)
(** ** The route properties on a concrete directory                       *)
(* ===================================================================== *)

(** X18 on a body without a name. *)
Lemma postOrganization_rejects_missing_fields_witness :
  let b := mkOrgBody Undefined (Str "mixed") Undefined in
  let req := mkOrgRequest "" (Some b) in
  let o := hrun (directory None (cluster sampleSchema noFaults))
                (postOrganization defaultEnv appSchemaPath req)
                [] newTenantManager in
  body req = Some b /\
  truthyValue (body_name b) = false /\
  sent (htrace o) = [(400, Message "Name and farmType are required")] /\
  persisted (htrace o) = [].
Proof.
  cbv zeta. split; [reflexivity |]. split; [reflexivity |].
  destruct (postOrganization_rejects_missing_fields
              defaultEnv appSchemaPath
              (directory None (cluster sampleSchema noFaults))
              (mkOrgRequest "" (Some (mkOrgBody Undefined (Str "mixed")
                                        Undefined)))
              (mkOrgBody Undefined (Str "mixed") Undefined)
              [] newTenantManager) as [_ [Hp [_ Hs]]].
  - reflexivity.
  - left. reflexivity.
  - split; [exact Hs | exact Hp].
Defined.

(** X19 on a directory that already holds the organization. *)
Lemma postOrganization_conflict_witness :
  let req := mkOrgRequest "" (Some greenValleyBody) in
  let o := hrun (directory (Some greenValley) (cluster sampleSchema noFaults))
                (postOrganization defaultEnv appSchemaPath req)
                [] newTenantManager in
  In (EvFindOne 0 (ByName (Str "Green Valley Co-op"))
        (Fulfilled (Some greenValley))) (htrace o) /\
  sent (htrace o) = [(409, Message "Organization already exists")] /\
  persisted (htrace o) = [].
Proof.
  cbv zeta.
  assert (H : In (EvFindOne 0 (ByName (Str "Green Valley Co-op"))
                    (Fulfilled (Some greenValley)))
                 (htrace
                    (hrun (directory (Some greenValley)
                             (cluster sampleSchema noFaults))
                       (postOrganization defaultEnv appSchemaPath
                          (mkOrgRequest "" (Some greenValleyBody)))
                       [] newTenantManager)))
    by (vm_compute; in_list).
  split; [exact H |].
  destruct (postOrganization_conflict defaultEnv appSchemaPath _ _ _ _ _ _ _ H)
    as [Hs [Hp _]].
  split; assumption.
Defined.

(** X20 on an empty directory and a fresh cluster. *)
Lemma postOrganization_stores_before_provisioning_witness :
  let req := mkOrgRequest "" (Some greenValleyBody) in
  let org :=
    newOrganization ("6f1c2d", "2023-06-21T08:00:00.000Z",
                     "2023-06-21T08:00:00.000Z") greenValleyBody in
  let o := hrun (directory None (cluster sampleSchema noFaults))
                (postOrganization defaultEnv appSchemaPath req)
                [] newTenantManager in
  In (EvPersistAndFlush 0 org (Fulfilled org)) (htrace o) /\
  removed (htrace o) = [] /\
  sent (htrace o) = [(201, Created org "green-valley-co-op")].
Proof.
  cbv zeta.
  assert (H : In (EvPersistAndFlush 0
                    (newOrganization ("6f1c2d", "2023-06-21T08:00:00.000Z",
                                      "2023-06-21T08:00:00.000Z")
                       greenValleyBody)
                    (Fulfilled
                       (newOrganization
                          ("6f1c2d", "2023-06-21T08:00:00.000Z",
                           "2023-06-21T08:00:00.000Z") greenValleyBody)))
                 (htrace
                    (hrun (directory None (cluster sampleSchema noFaults))
                       (postOrganization defaultEnv appSchemaPath
                          (mkOrgRequest "" (Some greenValleyBody)))
                       [] newTenantManager)))
    by (vm_compute; in_list).
  split; [exact H |].
  destruct (postOrganization_stores_before_provisioning
              defaultEnv appSchemaPath _ _ _ _ _ _ _ H) as [Hr _].
  split; [exact Hr | reflexivity].
Defined.

(** X22 on an update of the farm type only. *)
Lemma putOrganization_stores_the_update_witness :
  let b := mkOrgBody Undefined (Str "dairy") Undefined in
  let req := mkOrgRequest "0a9e41" (Some b) in
  let o := hrun (directory (Some greenValley) (cluster sampleSchema noFaults))
                (putOrganization defaultEnv req) [] newTenantManager in
  In (EvPersistAndFlush 0 (applyUpdate b greenValley)
        (Fulfilled (applyUpdate b greenValley))) (htrace o) /\
  sent (htrace o) = [(200, One (applyUpdate b greenValley))] /\
  org_name (applyUpdate b greenValley) = Str "Green Valley Co-op".
Proof.
  cbv zeta.
  assert (H : In (EvPersistAndFlush 0
                    (applyUpdate (mkOrgBody Undefined (Str "dairy") Undefined)
                       greenValley)
                    (Fulfilled
                       (applyUpdate
                          (mkOrgBody Undefined (Str "dairy") Undefined)
                          greenValley)))
                 (htrace
                    (hrun (directory (Some greenValley)
                             (cluster sampleSchema noFaults))
                       (putOrganization defaultEnv
                          (mkOrgRequest "0a9e41"
                             (Some (mkOrgBody Undefined (Str "dairy")
                                      Undefined))))
                       [] newTenantManager)))
    by (vm_compute; in_list).
  split; [exact H |].
  destruct (putOrganization_stores_the_update defaultEnv _ _ _ _ _ _ _ H)
    as [b [found [_ [_ [_ [_ [_ [_ [_ Hs]]]]]]]]].
  split; [exact Hs | reflexivity].
Defined.

(** X23 on an empty directory. *)
Lemma organization_not_found_witness :
  let req := mkOrgRequest "0a9e41" None in
  let o := hrun (directory None (cluster sampleSchema noFaults))
                (deleteOrganization defaultEnv req) [] newTenantManager in
  In (EvFindOne 0 (ById "0a9e41") (Fulfilled None)) (htrace o) /\
  sent (htrace o) = [(404, Message "Organization not found")] /\
  removed (htrace o) = [].
Proof.
  cbv zeta.
  assert (H : In (EvFindOne 0 (ById "0a9e41") (Fulfilled None))
                 (htrace
                    (hrun (directory None (cluster sampleSchema noFaults))
                       (deleteOrganization defaultEnv
                          (mkOrgRequest "0a9e41" None))
                       [] newTenantManager)))
    by (vm_compute; in_list).
  split; [exact H |].
  pose proof (organization_not_found defaultEnv
                (directory None (cluster sampleSchema noFaults))
                (mkOrgRequest "0a9e41" None) [] newTenantManager
                0 (ById "0a9e41")) as HF.
  apply Forall_inv_tail in HF. apply Forall_inv_tail in HF.
  apply Forall_inv in HF. destruct (HF H) as [Hs [_ Hr]].
  split; assumption.
Defined.

(* ===================================================================== *)
(** ** bootstrap                                                          *)
(* ===================================================================== *)

(** X26: [bootstrap] gets past every failure of the migrations and of the
    fallback: it returns the handle whenever [MikroORM.init] has given
    one, and what it throws is the error of [MikroORM.init] and nothing
    else; it never touches the manager. *)
Theorem bootstrap_survives_schema_failures
  (env : Env) (schemaPath : string) (w : World) past tm :
  let line := EvConsole LOG ["Initializing MikroORM..."] in
  let o := run w (bootstrap env schemaPath) past tm in
  final o = tm /\
  match w Handle (past ++ [line]) (MikroORM_init (baseOptions env)) with
  | Fulfilled orm =>
      result o = Returned orm /\
      exists schemaEvs,
        BaseSchemaTrace schemaPath orm schemaEvs /\
        trace o =
          line :: EvInit (baseOptions env) (Fulfilled orm) :: schemaEvs
  | Rejected e =>
      result o = Threw e /\
      trace o = [line; EvInit (baseOptions env) (Rejected e)]
  end.
Proof.
  intros line o. unfold o. rewrite bootstrap_unfold.
  rewrite run_console_bind, run_await_bind. fold line.
  destruct (w Handle (past ++ [line]) (MikroORM_init (baseOptions env)))
    as [orm | e].
  - set (past1 := (past ++ [line]) ++ _).
    destruct (run_provisionBaseSchema schemaPath w orm past1 tm)
      as [Hres [Hfin HS]].
    rewrite run_bind. rewrite Hres. cbv zeta. rewrite Hfin. simpl.
    rewrite app_nil_r. repeat split.
    exists (trace (run w (provisionBaseSchema schemaPath orm) past1 tm)).
    split; [exact HS | reflexivity].
  - repeat split.
Qed.
